(** * CloudOps-toolkit: the Terraform orchestration wrapper

    A shallow embedding of [app/deploy_trigger.py]: the ANSI sanitizer
    [strip_ansi_codes], the subprocess wrappers [get_terraform_status],
    [terraform_plan], [terraform_apply], [terraform_destroy],
    [get_terraform_state], [get_terraform_outputs] and the dispatcher
    [trigger_terraform].

    Python text is a list of Unicode code points, Python values are a small
    inductive type, and code that runs a subprocess, reads the file system
    or logs is written in a monad that reads an explicit [world], records
    the events it performs and either returns a value or raises.

    The development also covers [get_boto3_client] of [app/utils.py], the
    inventory functions of [app/aws_inventory.py] and
    [list_available_log_groups] of [app/cloudwatch_logs.py], over typed
    boto3 responses (module [Aws]). *)

From Stdlib Require Import String Ascii DecimalString.
From Stdlib Require Import NArith ZArith Lia Bool List.
Import ListNotations.

Set Implicit Arguments.
Set Warnings "-register-all".

(** ** Text *)

(** A Python [str]: a sequence of code points. *)
Definition str := list N.

(** The code points of an ASCII literal. *)
Definition lit (s : string) : str :=
  map N_of_ascii (list_ascii_of_string s).

Definition str_eqb (a b : str) : bool :=
  if list_eq_dec N.eq_dec a b then true else false.

(** ** Regular expressions, as Python's [re] runs them

    Only the constructs of the pattern of [strip_ansi_codes] are needed:
    a literal character, a character set given by its ranges, sequence,
    ordered alternation and the greedy star of a character set. *)
Module Re.

Inductive regex : Type :=
| Chr (c : N)
| Set_ (ranges : list (N * N))
| Cat (a b : regex)
| Alt (a b : regex)
| StarSet (ranges : list (N * N)).

Definition in_ranges (ranges : list (N * N)) (c : N) : bool :=
  existsb (fun r => (fst r <=? c)%N && (c <=? snd r)%N) ranges.

(** Greedy repetition of a character set: take one more character first,
    and give it back when the rest of the pattern fails. *)
Fixpoint star_greedy (ranges : list (N * N)) (s : str)
    (k : str -> option str) : option str :=
  match s with
  | c :: s' =>
      if in_ranges ranges c then
        match star_greedy ranges s' k with
        | Some rest => Some rest
        | None => k s
        end
      else k s
  | [] => k s
  end.

(** Backtracking matcher in continuation style: [rmatch r s k] matches [r]
    at the start of [s] and hands what is left to [k]; the first success in
    Python's search order wins. *)
Fixpoint rmatch (r : regex) (s : str) (k : str -> option str) : option str :=
  match r with
  | Chr c =>
      match s with
      | x :: s' => if (x =? c)%N then k s' else None
      | [] => None
      end
  | Set_ ranges =>
      match s with
      | x :: s' => if in_ranges ranges x then k s' else None
      | [] => None
      end
  | Cat a b => rmatch a s (fun s1 => rmatch b s1 k)
  | Alt a b =>
      match rmatch a s k with
      | Some rest => Some rest
      | None => rmatch b s k
      end
  | StarSet ranges => star_greedy ranges s k
  end.

(** [pattern.match] at the start of [s]: the text after the match. *)
Definition match_at (r : regex) (s : str) : option str := rmatch r s Some.

(** [pattern.sub('', s)]: scan left to right; where the pattern matches,
    drop the matched characters and resume after them; elsewhere copy one
    character.  [skip] counts the characters of the current match that are
    still to be dropped.  An empty match drops nothing and the scan moves
    one character on. *)
Fixpoint sub_from (r : regex) (skip : nat) (s : str) : str :=
  match s with
  | [] => []
  | c :: s' =>
      match skip with
      | S n => sub_from r n s'
      | O =>
          match match_at r s with
          | Some rest =>
              match length s - length rest with
              | S n => sub_from r n s'
              | O => c :: sub_from r 0 s'
              end
          | None => c :: sub_from r 0 s'
          end
      end
  end.

Definition sub (r : regex) (s : str) : str := sub_from r 0 s.

End Re.

(** ** [strip_ansi_codes] *)

Definition ESC : N := 27.

(** [ansi_escape = re.compile(r'\x1B(?:[@-Z\\-_]|\[[0-?]*[ -/]*[@-~])')] *)
Definition ansi_escape : Re.regex :=
  Re.Cat (Re.Chr 0x1B)
    (Re.Alt
       (Re.Set_ [(0x40, 0x5A); (0x5C, 0x5F)])
       (Re.Cat (Re.Chr 0x5B)
          (Re.Cat (Re.StarSet [(0x30, 0x3F)])
             (Re.Cat (Re.StarSet [(0x20, 0x2F)])
                (Re.Set_ [(0x40, 0x7E)])))))%N.

Definition strip_ansi_codes (text : str) : str := Re.sub ansi_escape text.


(** ** [str.strip()] *)

(** [str.isspace] on one character: the code points CPython treats as
    white space. *)
Definition isspace (c : N) : bool :=
  Re.in_ranges
    [(0x09, 0x0D); (0x1C, 0x20); (0x85, 0x85); (0xA0, 0xA0);
     (0x1680, 0x1680); (0x2000, 0x200A); (0x2028, 0x2029);
     (0x202F, 0x202F); (0x205F, 0x205F); (0x3000, 0x3000)]%N c.

Fixpoint lstrip (s : str) : str :=
  match s with
  | c :: s' => if isspace c then lstrip s' else s
  | [] => []
  end.

Definition rstrip (s : str) : str := rev (lstrip (rev s)).

Definition strip (s : str) : str := rstrip (lstrip s).

(** ** Python values *)

(** The values the module handles: what [json.loads] produces and what the
    functions return.  A [dict] is kept as its items in insertion order; a
    [float] is opaque (its bit pattern). *)
Inductive pyval : Type :=
| PNone
| PBool (b : bool)
| PInt (z : Z)
| PFloat (bits : N)
| PStr (s : str)
| PList (items : list pyval)
| PDict (items : list (str * pyval)).

Definition type_name (v : pyval) : str :=
  match v with
  | PNone => lit "NoneType"
  | PBool _ => lit "bool"
  | PInt _ => lit "int"
  | PFloat _ => lit "float"
  | PStr _ => lit "str"
  | PList _ => lit "list"
  | PDict _ => lit "dict"
  end.

Fixpoint lookup (key : str) (items : list (str * pyval)) : option pyval :=
  match items with
  | [] => None
  | (k, v) :: rest => if str_eqb k key then Some v else lookup key rest
  end.

(** [d[key]] for a key written as a literal, [None] when [d] is not a dict
    or has no such key. *)
Definition field (key : string) (d : pyval) : option pyval :=
  match d with
  | PDict items => lookup (lit key) items
  | _ => None
  end.

(** ** Exceptions and results *)

Inductive exc_class : Type :=
| TimeoutExpired
| JSONDecodeError
| AttributeError
| TypeError
| OtherException.

(** An exception (an instance of [Exception]): its class and [str(e)].
    What derives from [BaseException] only ([KeyboardInterrupt],
    [SystemExit]) is not among these; module [Interrupt] below has them. *)
Record exc : Type := Exc { exc_class_of : exc_class; exc_str : str }.

Inductive result (A : Type) : Type :=
| Return (a : A)
| Raise (e : exc).

Arguments Return {A} a.
Arguments Raise {A} e.

Definition rbind {A B} (r : result A) (f : A -> result B) : result B :=
  match r with
  | Return a => f a
  | Raise e => Raise e
  end.

Fixpoint rmapM {A B} (f : A -> result B) (l : list A) : result (list B) :=
  match l with
  | [] => Return []
  | x :: l' =>
      rbind (f x) (fun y => rbind (rmapM f l') (fun ys => Return (y :: ys)))
  end.

(** [obj.get(key, default)] *)
Definition py_get (obj : pyval) (key : str) (default : pyval) : result pyval :=
  match obj with
  | PDict items =>
      Return (match lookup key items with Some v => v | None => default end)
  | _ =>
      Raise (Exc AttributeError
               (lit "'" ++ type_name obj ++ lit "' object has no attribute 'get'"))
  end.

(** [len(obj)] *)
Definition py_len (obj : pyval) : result nat :=
  match obj with
  | PStr s => Return (length s)
  | PList items => Return (length items)
  | PDict items => Return (length items)
  | _ =>
      Raise (Exc TypeError
               (lit "object of type '" ++ type_name obj ++ lit "' has no len()"))
  end.

(** The elements [for r in obj] goes through. *)
Definition py_iter (obj : pyval) : result (list pyval) :=
  match obj with
  | PStr s => Return (map (fun c => PStr [c]) s)
  | PList items => Return items
  | PDict items => Return (map (fun kv => PStr (fst kv)) items)
  | _ =>
      Raise (Exc TypeError
               (lit "'" ++ type_name obj ++ lit "' object is not iterable"))
  end.

(** ** The world and the effects *)

(** What [subprocess.run(..., capture_output=True, text=True)] returns. *)
Record CompletedProcess : Type :=
  { returncode : Z; stdout : str; stderr : str }.

(** Everything outside the module: how a command run in a directory with a
    timeout (in seconds) ends, which paths exist, and [json.loads]. *)
Record world : Type :=
  { subprocess_run : list str -> str -> N -> result CompletedProcess;
    os_path_exists : str -> bool;
    json_loads : str -> result pyval }.

Inductive event : Type :=
| LogInfo (msg : str)
| SubprocessRun (args : list str) (cwd : str) (timeout : N)
| PathExists (path : str).

(** A computation reads the world, performs events in order, and returns
    or raises. *)
Definition py (A : Type) : Type := world -> list event * result A.

Definition ret {A} (a : A) : py A := fun _ => ([], Return a).

Definition raise {A} (e : exc) : py A := fun _ => ([], Raise e).

Definition lift {A} (r : result A) : py A := fun _ => ([], r).

Definition bind {A B} (m : py A) (f : A -> py B) : py B :=
  fun w =>
    match m w with
    | (t1, Return a) => let (t2, r) := f a w in (t1 ++ t2, r)
    | (t1, Raise e) => (t1, Raise e)
    end.

(** [try: m  except ... as e: h e]: [h] re-raises what its clauses do not
    catch. *)
Definition try_except {A} (m : py A) (h : exc -> py A) : py A :=
  fun w =>
    match m w with
    | (t1, Return a) => (t1, Return a)
    | (t1, Raise e) => let (t2, r) := h e w in (t1 ++ t2, r)
    end.

Declare Scope py_scope.
Delimit Scope py_scope with py.
Notation "x <- m ;; k" := (bind m (fun x => k))
  (at level 61, m at next level, right associativity) : py_scope.
Notation "m ;; k" := (bind m (fun _ => k))
  (at level 61, right associativity) : py_scope.
Open Scope py_scope.

Definition run (args : list str) (cwd : str) (timeout : N)
    : py CompletedProcess :=
  fun w => ([SubprocessRun args cwd timeout], subprocess_run w args cwd timeout).

Definition path_exists (path : str) : py bool :=
  fun w => ([PathExists path], Return (os_path_exists w path)).

Definition logger_info (msg : str) : py unit :=
  fun _ => ([LogInfo msg], Return tt).

Definition loads (s : str) : py pyval := fun w => ([], json_loads w s).

(** The events and the outcome of a computation in a world. *)
Definition trace {A} (m : py A) (w : world) : list event := fst (m w).
Definition outcome {A} (m : py A) (w : world) : result A := snd (m w).

Definition is_subprocess_run (e : event) : bool :=
  match e with
  | SubprocessRun _ _ _ => true
  | _ => false
  end.

(** ** The operations of [deploy_trigger.py]

    Each function is a [try] block ([..._try]) under its [except] clauses
    ([..._except]). *)

Definition get_terraform_status_try : py pyval :=
  result <- run [lit "terraform"; lit "version"] (lit "terraform") 10 ;;
  if (returncode result =? 0)%Z then
    initialized <- path_exists (lit "terraform/.terraform") ;;
    ret (PDict [(lit "terraform_available", PBool true);
                (lit "version", PStr (strip (stdout result)));
                (lit "initialized", PBool initialized)])
  else
    ret (PDict [(lit "terraform_available", PBool false);
                (lit "error", PStr (stderr result))]).

Definition get_terraform_status_except (e : exc) : py pyval :=
  match exc_class_of e with
  | TimeoutExpired =>
      ret (PDict [(lit "terraform_available", PBool false);
                  (lit "error", PStr (lit "Terraform command timed out"))])
  | _ =>
      ret (PDict [(lit "terraform_available", PBool false);
                  (lit "error", PStr (exc_str e))])
  end.

Definition get_terraform_status : py pyval :=
  try_except get_terraform_status_try get_terraform_status_except.

Definition terraform_plan_try : py pyval :=
  logger_info (lit "Running terraform plan...") ;;
  result <- run [lit "terraform"; lit "plan"; lit "-out=tfplan"]
                (lit "terraform") 120 ;;
  ret (PDict [(lit "success", PBool (returncode result =? 0)%Z);
              (lit "output", PStr (strip_ansi_codes (stdout result)));
              (lit "error",
               if negb (returncode result =? 0)%Z
               then PStr (strip_ansi_codes (stderr result))
               else PNone)]).

Definition terraform_plan_except (e : exc) : py pyval :=
  match exc_class_of e with
  | TimeoutExpired =>
      ret (PDict [(lit "success", PBool false);
                  (lit "error",
                   PStr (lit "Terraform plan timed out after 2 minutes"))])
  | _ =>
      ret (PDict [(lit "success", PBool false);
                  (lit "error", PStr (exc_str e))])
  end.

Definition terraform_plan : py pyval :=
  try_except terraform_plan_try terraform_plan_except.

Definition terraform_apply_try : py pyval :=
  logger_info (lit "Running terraform apply...") ;;
  result <- run [lit "terraform"; lit "apply"; lit "-auto-approve"; lit "tfplan"]
                (lit "terraform") 600 ;;
  ret (PDict [(lit "success", PBool (returncode result =? 0)%Z);
              (lit "output", PStr (strip_ansi_codes (stdout result)));
              (lit "error",
               if negb (returncode result =? 0)%Z
               then PStr (strip_ansi_codes (stderr result))
               else PNone)]).

Definition terraform_apply_except (e : exc) : py pyval :=
  match exc_class_of e with
  | TimeoutExpired =>
      ret (PDict [(lit "success", PBool false);
                  (lit "error",
                   PStr (lit "Terraform apply timed out after 10 minutes"))])
  | _ =>
      ret (PDict [(lit "success", PBool false);
                  (lit "error", PStr (exc_str e))])
  end.

Definition terraform_apply : py pyval :=
  try_except terraform_apply_try terraform_apply_except.

Definition terraform_destroy_try : py pyval :=
  logger_info (lit "Running terraform destroy...") ;;
  result <- run [lit "terraform"; lit "destroy"; lit "-auto-approve"]
                (lit "terraform") 600 ;;
  ret (PDict [(lit "success", PBool (returncode result =? 0)%Z);
              (lit "output", PStr (strip_ansi_codes (stdout result)));
              (lit "error",
               if negb (returncode result =? 0)%Z
               then PStr (strip_ansi_codes (stderr result))
               else PNone)]).

Definition terraform_destroy_except (e : exc) : py pyval :=
  match exc_class_of e with
  | TimeoutExpired =>
      ret (PDict [(lit "success", PBool false);
                  (lit "error",
                   PStr (lit "Terraform destroy timed out after 10 minutes"))])
  | _ =>
      ret (PDict [(lit "success", PBool false);
                  (lit "error", PStr (exc_str e))])
  end.

Definition terraform_destroy : py pyval :=
  try_except terraform_destroy_try terraform_destroy_except.

(** The truth value of a [str]: non-empty. *)
Definition str_truthy (s : str) : bool :=
  match s with
  | [] => false
  | _ :: _ => true
  end.

(** The inner [try] of [get_terraform_state]: parse the document and read
    the resources of the root module. *)
Definition get_terraform_state_parse (result : CompletedProcess) : py pyval :=
  state_data <- loads (stdout result) ;;
  values <- lift (py_get state_data (lit "values") (PDict [])) ;;
  root_module <- lift (py_get values (lit "root_module") (PDict [])) ;;
  resources <- lift (py_get root_module (lit "resources") (PList [])) ;;
  count <- lift (py_len resources) ;;
  items <- lift (py_iter resources) ;;
  resource_list <-
    lift (rmapM (fun r => py_get r (lit "address") (PStr (lit "Unknown")))
                items) ;;
  ret (PDict [(lit "success", PBool true);
              (lit "resources", PInt (Z.of_nat count));
              (lit "resource_list", PList resource_list);
              (lit "state_data", state_data)]).

Definition get_terraform_state_parse_except (e : exc) : py pyval :=
  match exc_class_of e with
  | JSONDecodeError =>
      ret (PDict [(lit "success", PBool false);
                  (lit "error",
                   PStr (lit "Failed to parse Terraform state JSON"))])
  | _ => raise e
  end.

Definition get_terraform_state_try : py pyval :=
  result <- run [lit "terraform"; lit "show"; lit "-json"]
                (lit "terraform") 30 ;;
  if (returncode result =? 0)%Z then
    try_except (get_terraform_state_parse result)
               get_terraform_state_parse_except
  else
    ret (PDict [(lit "success", PBool false);
                (lit "error",
                 PStr (if str_truthy (stderr result)
                       then strip_ansi_codes (stderr result)
                       else lit "No state information available"))]).

Definition get_terraform_state_except (e : exc) : py pyval :=
  match exc_class_of e with
  | TimeoutExpired =>
      ret (PDict [(lit "success", PBool false);
                  (lit "error", PStr (lit "Terraform state check timed out"))])
  | _ =>
      ret (PDict [(lit "success", PBool false);
                  (lit "error", PStr (exc_str e))])
  end.

Definition get_terraform_state : py pyval :=
  try_except get_terraform_state_try get_terraform_state_except.

Definition trigger_terraform (action : str) : py pyval :=
  logger_info (lit "Triggering Terraform action: " ++ action) ;;
  if str_eqb action (lit "plan") then terraform_plan
  else if str_eqb action (lit "apply") then terraform_apply
  else if str_eqb action (lit "destroy") then terraform_destroy
  else
    ret (PDict [(lit "success", PBool false);
                (lit "error",
                 PStr (lit "Unknown action: " ++ action
                       ++ lit ". Supported actions: plan, apply, destroy"))]).

Definition get_terraform_outputs_parse (result : CompletedProcess)
    : py pyval :=
  outputs <- loads (stdout result) ;;
  ret (PDict [(lit "success", PBool true); (lit "outputs", outputs)]).

Definition get_terraform_outputs_parse_except (e : exc) : py pyval :=
  match exc_class_of e with
  | JSONDecodeError =>
      ret (PDict [(lit "success", PBool false);
                  (lit "error",
                   PStr (lit "Failed to parse Terraform outputs JSON"))])
  | _ => raise e
  end.

Definition get_terraform_outputs_try : py pyval :=
  result <- run [lit "terraform"; lit "output"; lit "-json"]
                (lit "terraform") 30 ;;
  if (returncode result =? 0)%Z then
    try_except (get_terraform_outputs_parse result)
               get_terraform_outputs_parse_except
  else
    ret (PDict [(lit "success", PBool false);
                (lit "error",
                 PStr (if str_truthy (stderr result)
                       then strip_ansi_codes (stderr result)
                       else lit "No outputs available"))]).

Definition get_terraform_outputs_except (e : exc) : py pyval :=
  match exc_class_of e with
  | TimeoutExpired =>
      ret (PDict [(lit "success", PBool false);
                  (lit "error",
                   PStr (lit "Terraform outputs check timed out"))])
  | _ =>
      ret (PDict [(lit "success", PBool false);
                  (lit "error", PStr (exc_str e))])
  end.

Definition get_terraform_outputs : py pyval :=
  try_except get_terraform_outputs_try get_terraform_outputs_except.

(** ** Exceptions that are no instances of [Exception]

    [KeyboardInterrupt], [SystemExit] and [GeneratorExit] derive from
    [BaseException] only, so neither [except subprocess.TimeoutExpired]
    nor [except Exception] catches them.  [terraform_plan] is written here
    once more over calls that may also end in one of them, as when the
    user interrupts the wait for the subprocess. *)
Module Interrupt.

Inductive base_exception : Type :=
| KeyboardInterrupt
| SystemExit
| GeneratorExit.

(** How a call ends: it returns, it raises an instance of [Exception], or
    it raises one of the exceptions above. *)
Inductive ending (A : Type) : Type :=
| Returned (a : A)
| Raised (e : exc)
| RaisedBase (b : base_exception).

Arguments Returned {A} a.
Arguments Raised {A} e.
Arguments RaisedBase {A} b.

Record world_b : Type :=
  { subprocess_run_b : list str -> str -> N -> ending CompletedProcess }.

Definition pyb (A : Type) : Type := world_b -> list event * ending A.

Definition ret {A} (a : A) : pyb A := fun _ => ([], Returned a).

Definition bind {A B} (m : pyb A) (f : A -> pyb B) : pyb B :=
  fun w =>
    match m w with
    | (t1, Returned a) => let (t2, r) := f a w in (t1 ++ t2, r)
    | (t1, Raised e) => (t1, Raised e)
    | (t1, RaisedBase b) => (t1, RaisedBase b)
    end.

(** [try: m  except ...: h e]: the clauses see instances of [Exception]
    only; any other exception goes on to the caller. *)
Definition try_except {A} (m : pyb A) (h : exc -> pyb A) : pyb A :=
  fun w =>
    match m w with
    | (t1, Returned a) => (t1, Returned a)
    | (t1, Raised e) => let (t2, r) := h e w in (t1 ++ t2, r)
    | (t1, RaisedBase b) => (t1, RaisedBase b)
    end.

Definition run (args : list str) (cwd : str) (timeout : N)
    : pyb CompletedProcess :=
  fun w => ([SubprocessRun args cwd timeout], subprocess_run_b w args cwd timeout).

Definition logger_info (msg : str) : pyb unit :=
  fun _ => ([LogInfo msg], Returned tt).

Definition terraform_plan : pyb pyval :=
  try_except
    (bind (logger_info (lit "Running terraform plan...")) (fun _ =>
     bind (run [lit "terraform"; lit "plan"; lit "-out=tfplan"]
               (lit "terraform") 120) (fun result =>
     ret (PDict [(lit "success", PBool (returncode result =? 0)%Z);
                 (lit "output", PStr (strip_ansi_codes (stdout result)));
                 (lit "error",
                  if negb (returncode result =? 0)%Z
                  then PStr (strip_ansi_codes (stderr result))
                  else PNone)]))))
    (fun e =>
       match exc_class_of e with
       | TimeoutExpired =>
           ret (PDict [(lit "success", PBool false);
                       (lit "error",
                        PStr (lit "Terraform plan timed out after 2 minutes"))])
       | _ =>
           ret (PDict [(lit "success", PBool false);
                       (lit "error", PStr (exc_str e))])
       end).

(** A world without interrupts, seen as a world with them. *)
Definition of_result {A} (r : result A) : ending A :=
  match r with
  | Return a => Returned a
  | Raise e => Raised e
  end.

Definition of_world (w : world) : world_b :=
  {| subprocess_run_b := fun args cwd timeout =>
       of_result (subprocess_run w args cwd timeout) |}.

End Interrupt.

(** ** Predicates used in the statements *)

(** Some suffix of [s] starts with a match of [r]. *)
Fixpoint matches_somewhere (r : Re.regex) (s : str) : bool :=
  match s with
  | [] => false
  | _ :: s' =>
      match Re.match_at r s with
      | Some _ => true
      | None => matches_somewhere r s'
      end
  end.

Definition no_esc (s : str) : bool := forallb (fun c => negb (c =? ESC)%N) s.

(** Every ESC of [s] starts a complete escape sequence. *)
Fixpoint every_esc_starts_seq (s : str) : bool :=
  match s with
  | [] => true
  | c :: s' =>
      (if (c =? ESC)%N
       then match Re.match_at ansi_escape s with Some _ => true | None => false end
       else true)
      && every_esc_starts_seq s'
  end.

(** [subseq a b]: [a] is [b] with some characters deleted. *)
Inductive subseq : str -> str -> Prop :=
| subseq_nil : subseq [] []
| subseq_keep c a b : subseq a b -> subseq (c :: a) (c :: b)
| subseq_drop c a b : subseq a b -> subseq a (c :: b).

(** The command line [terraform <sub...>]. *)
Definition terraform_cmd (sub : list string) : list str :=
  map lit ("terraform"%string :: sub).

(** The resources [get_terraform_state] reads in a parsed document:
    [doc.get('values', {}).get('root_module', {}).get('resources', [])]. *)
Definition state_resources (doc : pyval) : result pyval :=
  rbind (py_get doc (lit "values") (PDict []))
    (fun values =>
       rbind (py_get values (lit "root_module") (PDict []))
         (fun root_module => py_get root_module (lit "resources") (PList []))).

(** The address listed for the resource [r]: [r.get('address', 'Unknown')]
    of a dict [r]. *)
Definition listed_address (r a : pyval) : Prop :=
  exists fields,
    r = PDict fields /\
    a = match lookup (lit "address") fields with
        | Some v => v
        | None => PStr (lit "Unknown")
        end.

(** The first line of a text, as the specification words the version
    field: the characters before the first line feed. *)
Fixpoint spec_first_line (s : str) : str :=
  match s with
  | [] => []
  | c :: s' => if (c =? 10)%N then [] else c :: spec_first_line s'
  end.

(** The result contract of plan, apply and destroy for a process that
    ended as [p]. *)
Definition execution_contract (d : pyval) (p : CompletedProcess) : Prop :=
  field "success" d = Some (PBool (returncode p =? 0)%Z) /\
  (field "success" d = Some (PBool true) <-> returncode p = 0%Z) /\
  field "output" d = Some (PStr (strip_ansi_codes (stdout p))) /\
  (returncode p <> 0%Z ->
   field "error" d = Some (PStr (strip_ansi_codes (stderr p)))).

(** The failure dict [{'success': False, 'error': msg}]. *)
Definition failure (msg : str) : pyval :=
  PDict [(lit "success", PBool false); (lit "error", PStr msg)].

(** The message the [except] clauses of an operation give for [e]: the
    operation's own text for a timeout, [str(e)] otherwise. *)
Definition except_message (timeout_text : string) (e : exc) : str :=
  match exc_class_of e with
  | TimeoutExpired => lit timeout_text
  | _ => exc_str e
  end.

(** The [error] entry of the result of [op], which runs [args] with
    [timeout]: it is [None] after exit code 0 whatever stderr holds, and it
    is present exactly when the exit code is not 0 or [subprocess.run]
    raised. *)
Definition error_field_contract (op : py pyval) (args : list str)
    (timeout : N) (w : world) : Prop :=
  exists d v,
    outcome op w = Return d /\
    field "error" d = Some v /\
    (forall p, subprocess_run w args (lit "terraform") timeout = Return p ->
               returncode p = 0%Z -> v = PNone) /\
    (v <> PNone <->
     (exists e, subprocess_run w args (lit "terraform") timeout = Raise e) \/
     (exists p, subprocess_run w args (lit "terraform") timeout = Return p /\
                returncode p <> 0%Z)).

(** The dict [{'terraform_available': False, 'error': msg}]. *)
Definition unavailable (msg : str) : pyval :=
  PDict [(lit "terraform_available", PBool false); (lit "error", PStr msg)].

(** The subprocess calls among the events of [op]. *)
Definition subprocess_calls (op : py pyval) (w : world) : list event :=
  filter is_subprocess_run (trace op w).

(** What [get_terraform_state] makes of a parsed document: the steps of
    its inner [try] after [json.loads]. *)
Definition read_state (state_data : pyval) : result pyval :=
  rbind (state_resources state_data) (fun resources =>
  rbind (py_len resources) (fun count =>
  rbind (py_iter resources) (fun items =>
  rbind (rmapM (fun r => py_get r (lit "address") (PStr (lit "Unknown"))) items)
    (fun resource_list =>
  Return (PDict [(lit "success", PBool true);
                 (lit "resources", PInt (Z.of_nat count));
                 (lit "resource_list", PList resource_list);
                 (lit "state_data", state_data)]))))).

(** The kinds of run of [get_terraform_state].  The process exits 0 and
    its stdout parses to a document whose resources are empty; it exits 0
    and [json.loads] raises [e]; it exits 0 and its stdout parses to a
    value that the code cannot read as a state ([e] is raised on the
    way); it exits with another code. *)
Definition state_run (w : world) (p : CompletedProcess) : Prop :=
  subprocess_run w (terraform_cmd ["show"; "-json"]%string) (lit "terraform") 30
  = Return p.

Definition zero_resources (w : world) (doc : pyval) : Prop :=
  exists p resources,
    state_run w p /\ returncode p = 0%Z /\
    json_loads w (stdout p) = Return doc /\
    state_resources doc = Return resources /\
    py_len resources = Return 0.

Definition rejected (w : world) (p : CompletedProcess) (e : exc) : Prop :=
  state_run w p /\ returncode p = 0%Z /\
  json_loads w (stdout p) = Raise e.

Definition unreadable (w : world) (doc : pyval) (e : exc) : Prop :=
  exists p,
    state_run w p /\ returncode p = 0%Z /\
    json_loads w (stdout p) = Return doc /\
    read_state doc = Raise e.

(** The message for text that [json.loads] rejected with [e]: the fixed
    text of the inner handler for a [JSONDecodeError], what the outer
    handlers say otherwise. *)
Definition rejection_message (e : exc) : str :=
  match exc_class_of e with
  | JSONDecodeError => lit "Failed to parse Terraform state JSON"
  | TimeoutExpired => lit "Terraform state check timed out"
  | _ => exc_str e
  end.

Definition process_failure (w : world) (p : CompletedProcess) : Prop :=
  state_run w p /\ returncode p <> 0%Z.

(** The message of a process failure of [get_terraform_state]. *)
Definition process_failure_message (p : CompletedProcess) : str :=
  if str_truthy (stderr p)
  then strip_ansi_codes (stderr p)
  else lit "No state information available".

(** ** The AWS modules: [utils.py], [aws_inventory.py] and
    [list_available_log_groups] of [cloudwatch_logs.py]

    A boto3 response is a dict whose shape the service model fixes: the
    type of every member is known, and a member may be absent.  It is
    modelled as a record of options, [None] for an absent key, so that
    [d["k"]] raises [KeyError] exactly where the key is absent.  The rows
    the inventory functions return are dicts from text to text. *)
Module Aws.

(** An instant, as a [datetime] object; only [strftime] looks inside. *)
Definition datetime := Z.

Record tag : Type := { tag_Key : option str; tag_Value : option str }.
Record instance_state : Type := { state_Name : option str }.
Record placement : Type := { AvailabilityZone : option str }.
Record instance : Type :=
  { InstanceId : option str;
    Tags : option (list tag);
    InstanceType : option str;
    State : option instance_state;
    Placement : option placement;
    PrivateIpAddress : option str;
    PublicIpAddress : option str;
    LaunchTime : option datetime }.
Record reservation : Type := { Instances : option (list instance) }.
Record ec2_response : Type := { Reservations : option (list reservation) }.

Record bucket : Type :=
  { bucket_Name : option str; CreationDate : option datetime }.
Record s3_response : Type := { Buckets : option (list bucket) }.
(** [LocationConstraint] may be absent, [None] or a region. *)
Record location_response : Type :=
  { LocationConstraint : option (option str) }.

Record log_group : Type :=
  { logGroupName : option str;
    creationTime : option Z;
    storedBytes : option Z }.
Record logs_response : Type := { logGroups : option (list log_group) }.

(** What [boto3.client] was given. *)
Record client : Type :=
  { service : str;
    aws_access_key_id : option str;
    aws_secret_access_key : option str;
    region_name : str }.

(** Everything outside the modules: the process environment (after
    [load_dotenv]), [boto3.client], the service calls, the clock and
    [datetime.strftime]. *)
Record cloud : Type :=
  { environ : str -> option str;
    boto3_client : client -> result unit;
    describe_instances : client -> result ec2_response;
    list_buckets : client -> result s3_response;
    get_bucket_location : client -> str -> result location_response;
    describe_log_groups : client -> Z -> result logs_response;
    datetime_now : datetime;
    strftime : datetime -> str -> str }.

Inductive level : Type := INFO | WARNING | ERROR.

Inductive aws_event : Type :=
| Boto3Client (c : client)
| ApiCall (c : client) (operation : str) (argument : option str)
| Log (lvl : level) (msg : str).

Definition aws (A : Type) : Type := cloud -> list aws_event * result A.

Definition ret {A} (a : A) : aws A := fun _ => ([], Return a).

Definition lift {A} (r : result A) : aws A := fun _ => ([], r).

Definition bind {A B} (m : aws A) (f : A -> aws B) : aws B :=
  fun w =>
    match m w with
    | (t1, Return a) => let (t2, r) := f a w in (t1 ++ t2, r)
    | (t1, Raise e) => (t1, Raise e)
    end.

(** [try: m  except Exception as e: h e] *)
Definition try_except {A} (m : aws A) (h : exc -> aws A) : aws A :=
  fun w =>
    match m w with
    | (t1, Return a) => (t1, Return a)
    | (t1, Raise e) => let (t2, r) := h e w in (t1 ++ t2, r)
    end.

Declare Scope aws_scope.
Delimit Scope aws_scope with aws.
Notation "x <- m ;; k" := (bind m (fun x => k))
  (at level 61, m at next level, right associativity) : aws_scope.
Notation "m ;; k" := (bind m (fun _ => k))
  (at level 61, right associativity) : aws_scope.
#[local] Open Scope aws_scope.

Definition log (lvl : level) (msg : str) : aws unit :=
  fun _ => ([Log lvl msg], Return tt).

Definition events {A} (m : aws A) (w : cloud) : list aws_event := fst (m w).
Definition value {A} (m : aws A) (w : cloud) : result A := snd (m w).

(** [d[key]] of a member that may be absent; [str(KeyError(key))] is the
    quoted key. *)
Definition subscript {A} (member : option A) (key : string) : result A :=
  match member with
  | Some v => Return v
  | None => Raise (Exc OtherException (lit "'" ++ lit key ++ lit "'"))
  end.

(** [str(n)] of a length. *)
Definition str_of_nat (n : nat) : str :=
  lit (NilEmpty.string_of_uint (Nat.to_uint n)).

(** *** [utils.py] *)

Definition get_boto3_client (service : str) : aws client :=
  fun w =>
    let c := {| service := service;
                aws_access_key_id := environ w (lit "AWS_ACCESS_KEY_ID");
                aws_secret_access_key := environ w (lit "AWS_SECRET_ACCESS_KEY");
                region_name :=
                  match environ w (lit "AWS_REGION") with
                  | Some r => r
                  | None => lit "ap-southeast-1"
                  end |} in
    ([Boto3Client c],
     match boto3_client w c with
     | Return _ => Return c
     | Raise e => Raise e
     end).

(** *** [aws_inventory.py] *)

(** A row: a dict from text to text, in insertion order. *)
Definition row := list (str * str).

Fixpoint row_get (key : str) (r : row) : option str :=
  match r with
  | [] => None
  | (k, v) :: rest => if str_eqb k key then Some v else row_get key rest
  end.

(** [key in r] *)
Definition has_key (key : string) (r : row) : bool :=
  match row_get (lit key) r with
  | Some _ => true
  | None => false
  end.

(** The loop over the tags: the value of the first tag whose key is
    'Name' replaces [instance_name], and the loop stops there. *)
Fixpoint name_from_tags (tags : list tag) (instance_name : str) : result str :=
  match tags with
  | [] => Return instance_name
  | t :: rest =>
      rbind (subscript (tag_Key t) "Key") (fun key =>
      if str_eqb key (lit "Name")
      then subscript (tag_Value t) "Value"
      else name_from_tags rest instance_name)
  end.

(** The body of the inner loop of [list_ec2_instances]: the row of one
    instance. *)
Definition instance_row (fmt : datetime -> str -> str) (i : instance)
    : result row :=
  rbind (match Tags i with
         | Some tags => name_from_tags tags (lit "N/A")
         | None => Return (lit "N/A")
         end) (fun instance_name =>
  rbind (subscript (InstanceId i) "InstanceId") (fun instance_id =>
  rbind (subscript (InstanceType i) "InstanceType") (fun instance_type =>
  rbind (subscript (State i) "State") (fun state =>
  rbind (subscript (state_Name state) "Name") (fun state_name =>
  rbind (subscript (Placement i) "Placement") (fun place =>
  rbind (subscript (AvailabilityZone place) "AvailabilityZone") (fun az =>
  Return [(lit "Instance ID", instance_id);
          (lit "Name", instance_name);
          (lit "Type", instance_type);
          (lit "State", state_name);
          (lit "AZ", az);
          (lit "Private IP",
           match PrivateIpAddress i with Some v => v | None => lit "N/A" end);
          (lit "Public IP",
           match PublicIpAddress i with Some v => v | None => lit "N/A" end);
          (lit "Launch Time",
           match LaunchTime i with
           | Some t => fmt t (lit "%Y-%m-%d %H:%M:%S")
           | None => lit "N/A"
           end)]))))))).

(** [for instance in ...: instances.append(row)] *)
Fixpoint for_instances (fmt : datetime -> str -> str) (l : list instance)
    (instances : list row) : result (list row) :=
  match l with
  | [] => Return instances
  | i :: rest =>
      rbind (instance_row fmt i) (fun r =>
      for_instances fmt rest (instances ++ [r]))
  end.

(** [for reservation in ...: for instance in reservation["Instances"]: ...] *)
Fixpoint for_reservations (fmt : datetime -> str -> str) (l : list reservation)
    (instances : list row) : result (list row) :=
  match l with
  | [] => Return instances
  | r :: rest =>
      rbind (subscript (Instances r) "Instances") (fun insts =>
      rbind (for_instances fmt insts instances) (fun instances' =>
      for_reservations fmt rest instances'))
  end.

Definition list_ec2_instances : aws (list row) :=
  try_except
    (ec2 <- get_boto3_client (lit "ec2") ;;
     response <- (fun w => ([ApiCall ec2 (lit "describe_instances") None],
                            describe_instances w ec2)) ;;
     instances <- (fun w =>
       ([], rbind (subscript (Reservations response) "Reservations")
                  (fun rs => for_reservations (strftime w) rs []))) ;;
     log INFO (lit "Successfully retrieved " ++ str_of_nat (length instances)
               ++ lit " EC2 instances") ;;
     ret instances)
    (fun e =>
       log ERROR (lit "Error retrieving EC2 instances: " ++ exc_str e) ;;
       ret [[(lit "Error",
              lit "Failed to retrieve EC2 instances: " ++ exc_str e)]]).

(** The body of the loop of [list_s3_buckets]: the row of one bucket, with
    its own [try]. *)
Definition bucket_row (s3 : client) (b : bucket) : aws row :=
  try_except
    (name <- lift (subscript (bucket_Name b) "Name") ;;
     location <- (fun w => ([ApiCall s3 (lit "get_bucket_location") (Some name)],
                            get_bucket_location w s3 name)) ;;
     constraint <- lift (subscript (LocationConstraint location)
                                   "LocationConstraint") ;;
     let bucket_region :=
       match constraint with
       | None => lit "us-east-1"
       | Some r => r
       end in
     name' <- lift (subscript (bucket_Name b) "Name") ;;
     created <- lift (subscript (CreationDate b) "CreationDate") ;;
     fun w => ([], Return [(lit "Bucket Name", name');
                           (lit "Created On", strftime w created (lit "%Y-%m-%d"));
                           (lit "Region", bucket_region)]))
    (fun bucket_error =>
       name <- lift (subscript (bucket_Name b) "Name") ;;
       log WARNING (lit "Error getting details for bucket " ++ name ++ lit ": "
                    ++ exc_str bucket_error) ;;
       name' <- lift (subscript (bucket_Name b) "Name") ;;
       created <- lift (subscript (CreationDate b) "CreationDate") ;;
       fun w => ([], Return [(lit "Bucket Name", name');
                             (lit "Created On",
                              strftime w created (lit "%Y-%m-%d"));
                             (lit "Region", lit "Unknown")])).

(** [for bucket in response["Buckets"]: ... buckets.append(...)] *)
Fixpoint for_buckets (s3 : client) (l : list bucket) (buckets : list row)
    : aws (list row) :=
  match l with
  | [] => ret buckets
  | b :: rest =>
      r <- bucket_row s3 b ;;
      for_buckets s3 rest (buckets ++ [r])
  end.

Definition list_s3_buckets : aws (list row) :=
  try_except
    (s3 <- get_boto3_client (lit "s3") ;;
     response <- (fun w => ([ApiCall s3 (lit "list_buckets") None],
                            list_buckets w s3)) ;;
     bs <- lift (subscript (Buckets response) "Buckets") ;;
     buckets <- for_buckets s3 bs [] ;;
     log INFO (lit "Successfully retrieved " ++ str_of_nat (length buckets)
               ++ lit " S3 buckets") ;;
     ret buckets)
    (fun e =>
       log ERROR (lit "Error retrieving S3 buckets: " ++ exc_str e) ;;
       ret [[(lit "Error",
              lit "Failed to retrieve S3 buckets: " ++ exc_str e)]]).

(** [i.get("State") == state] *)
Definition state_is (state : string) (i : row) : bool :=
  match row_get (lit "State") i with
  | Some v => str_eqb v (lit state)
  | None => false
  end.

Definition get_resource_summary : aws pyval :=
  try_except
    (ec2_instances <- list_ec2_instances ;;
     s3_buckets <- list_s3_buckets ;;
     let ec2_count :=
       length (filter (fun i => negb (has_key "Error" i)) ec2_instances) in
     let s3_count :=
       length (filter (fun b => negb (has_key "Error" b)) s3_buckets) in
     let running_instances := length (filter (state_is "running") ec2_instances) in
     let stopped_instances := length (filter (state_is "stopped") ec2_instances) in
     fun w =>
       ([], Return
              (PDict [(lit "Total EC2 Instances", PInt (Z.of_nat ec2_count));
                      (lit "Running Instances", PInt (Z.of_nat running_instances));
                      (lit "Stopped Instances", PInt (Z.of_nat stopped_instances));
                      (lit "Total S3 Buckets", PInt (Z.of_nat s3_count));
                      (lit "Last Updated",
                       PStr (strftime w (datetime_now w)
                                      (lit "%Y-%m-%d %H:%M:%S")))])))
    (fun e =>
       log ERROR (lit "Error getting resource summary: " ++ exc_str e) ;;
       ret (PDict [(lit "Error",
                    PStr (lit "Failed to get resource summary: " ++ exc_str e))])).

(** A dict from text to int, in insertion order. *)
Definition counts := list (str * Z).

Fixpoint counts_get (key : str) (d : counts) : option Z :=
  match d with
  | [] => None
  | (k, v) :: rest => if str_eqb k key then Some v else counts_get key rest
  end.

(** [d[key] = v]: replace the value of a key that is there, add a new key
    at the end. *)
Fixpoint counts_set (key : str) (v : Z) (d : counts) : counts :=
  match d with
  | [] => [(key, v)]
  | (k, v') :: rest =>
      if str_eqb k key then (k, v) :: rest else (k, v') :: counts_set key v rest
  end.

(** The loop of [get_ec2_instances_by_state]. *)
Fixpoint count_states (instances : list row) (state_counts : counts) : counts :=
  match instances with
  | [] => state_counts
  | i :: rest =>
      let state := match row_get (lit "State") i with
                   | Some v => v
                   | None => lit "unknown"
                   end in
      count_states rest
        (counts_set state
           (match counts_get state state_counts with
            | Some n => n
            | None => 0
            end + 1)%Z
           state_counts)
  end.

Definition get_ec2_instances_by_state : aws counts :=
  try_except
    (instances <- list_ec2_instances ;;
     if match instances with
        | [] => true
        | first :: _ => has_key "Error" first
        end
     then ret []
     else ret (count_states instances []))
    (fun e =>
       log ERROR (lit "Error getting EC2 instances by state: " ++ exc_str e) ;;
       ret []).

(** *** [cloudwatch_logs.py] *)

(** The body of the loop of [list_available_log_groups]. *)
Definition log_group_entry (g : log_group) : result pyval :=
  rbind (subscript (logGroupName g) "logGroupName") (fun name =>
  rbind (subscript (creationTime g) "creationTime") (fun created =>
  Return (PDict [(lit "name", PStr name);
                 (lit "creation_time", PInt created);
                 (lit "size_bytes",
                  PInt (match storedBytes g with Some n => n | None => 0%Z end))]))).

Fixpoint for_log_groups (l : list log_group) (log_groups : list pyval)
    : result (list pyval) :=
  match l with
  | [] => Return log_groups
  | g :: rest =>
      rbind (log_group_entry g) (fun entry =>
      for_log_groups rest (log_groups ++ [entry]))
  end.

Definition list_available_log_groups : aws (list pyval) :=
  try_except
    (logs_client <- get_boto3_client (lit "logs") ;;
     response <- (fun w => ([ApiCall logs_client (lit "describe_log_groups") None],
                            describe_log_groups w logs_client 50)) ;;
     groups <- lift (subscript (logGroups response) "logGroups") ;;
     lift (for_log_groups groups []))
    (fun e =>
       log ERROR (lit "Error listing log groups: " ++ exc_str e) ;;
       ret []).

End Aws.

(** ** The character sets of [ansi_escape], by name *)

(** [[@-Z\-_]]: the second byte of a two-byte escape. *)
Definition esc_two_byte : list (N * N) := [(0x40, 0x5A); (0x5C, 0x5F)]%N.
(** [[0-?]], [[ -/]] and [[@-~]]: parameter, intermediate and final bytes
    of a CSI sequence. *)
Definition csi_param : list (N * N) := [(0x30, 0x3F)]%N.
Definition csi_intermediate : list (N * N) := [(0x20, 0x2F)]%N.
Definition csi_final : list (N * N) := [(0x40, 0x7E)]%N.

(** Every character of [s] is in the set [ranges]. *)
Definition all_in (ranges : list (N * N)) (s : str) : bool :=
  forallb (Re.in_ranges ranges) s.

(** [s] is empty or starts with a character outside [ranges]. *)
Definition starts_outside (ranges : list (N * N)) (s : str) : bool :=
  match s with
  | [] => true
  | c :: _ => negb (Re.in_ranges ranges c)
  end.

(** [n] passes of [strip_ansi_codes]. *)
Definition strip_passes (n : nat) (text : str) : str :=
  Nat.iter n strip_ansi_codes text.

(** ** More predicates for the orchestrator *)

Definition outputs_run (w : world) (p : CompletedProcess) : Prop :=
  subprocess_run w (terraform_cmd ["output"; "-json"]%string) (lit "terraform") 30
  = Return p.

Definition is_dict (v : pyval) : bool :=
  match v with
  | PDict _ => true
  | _ => false
  end.

(** [r.get('address', 'Unknown')] of a resource [r] that is a dict. *)
Definition address_or_unknown (r : pyval) : pyval :=
  match r with
  | PDict fields =>
      match lookup (lit "address") fields with
      | Some v => v
      | None => PStr (lit "Unknown")
      end
  | _ => PStr (lit "Unknown")
  end.

(** ** Predicates for the AWS modules *)

(** The client [get_boto3_client(service)] asks boto3 for. *)
Definition client_for (w : Aws.cloud) (service : string) : Aws.client :=
  {| Aws.service := lit service;
     Aws.aws_access_key_id := Aws.environ w (lit "AWS_ACCESS_KEY_ID");
     Aws.aws_secret_access_key := Aws.environ w (lit "AWS_SECRET_ACCESS_KEY");
     Aws.region_name :=
       match Aws.environ w (lit "AWS_REGION") with
       | Some r => r
       | None => lit "ap-southeast-1"
       end |}.

(** The single row [{"Error": what + msg}]. *)
Definition error_row (what : string) (msg : str) : Aws.row :=
  [(lit "Error", lit what ++ msg)].

(** The instances of all reservations, in order, when every reservation
    has its [Instances]. *)
Fixpoint all_instances (rs : list Aws.reservation) : option (list Aws.instance) :=
  match rs with
  | [] => Some []
  | r :: rest =>
      match Aws.Instances r, all_instances rest with
      | Some insts, Some more => Some (insts ++ more)
      | _, _ => None
      end
  end.

(** The reservations [describe_instances] answers with, when the client
    could be made, the call returned and the answer has [Reservations]. *)
Definition ec2_reservations (w : Aws.cloud) : option (list Aws.reservation) :=
  match Aws.boto3_client w (client_for w "ec2") with
  | Return _ =>
      match Aws.describe_instances w (client_for w "ec2") with
      | Return response => Aws.Reservations response
      | Raise _ => None
      end
  | Raise _ => None
  end.

(** A tag with both members. *)
Definition full_tag (kv : str * str) : Aws.tag :=
  {| Aws.tag_Key := Some (fst kv); Aws.tag_Value := Some (snd kv) |}.

(** A bucket with both members. *)
Definition full_bucket (nd : str * Aws.datetime) : Aws.bucket :=
  {| Aws.bucket_Name := Some (fst nd); Aws.CreationDate := Some (snd nd) |}.

(** The buckets [list_buckets] answers with, when the client could be
    made, the call returned and the answer has [Buckets]. *)
Definition s3_buckets (w : Aws.cloud) : option (list Aws.bucket) :=
  match Aws.boto3_client w (client_for w "s3") with
  | Return _ =>
      match Aws.list_buckets w (client_for w "s3") with
      | Return response => Aws.Buckets response
      | Raise _ => None
      end
  | Raise _ => None
  end.

(** The region shown for the bucket [name]: what [get_bucket_location]
    says, 'us-east-1' for [None], 'Unknown' when the call fails or its
    answer has no [LocationConstraint]. *)
Definition shown_region (w : Aws.cloud) (name : str) : str :=
  match Aws.get_bucket_location w (client_for w "s3") name with
  | Return location =>
      match Aws.LocationConstraint location with
      | Some (Some r) => r
      | Some None => lit "us-east-1"
      | None => lit "Unknown"
      end
  | Raise _ => lit "Unknown"
  end.

Definition shown_bucket (w : Aws.cloud) (nd : str * Aws.datetime) : Aws.row :=
  [(lit "Bucket Name", fst nd);
   (lit "Created On", Aws.strftime w (snd nd) (lit "%Y-%m-%d"));
   (lit "Region", shown_region w (fst nd))].

(** A cloud in which every client can be made and every call returns the
    given answer. *)
Definition mock_cloud (reservations : list Aws.reservation)
    (buckets : list Aws.bucket)
    (location : str -> result Aws.location_response)
    (groups : list Aws.log_group) : Aws.cloud :=
  {| Aws.environ := fun _ => None;
     Aws.boto3_client := fun _ => Return tt;
     Aws.describe_instances :=
       fun _ => Return {| Aws.Reservations := Some reservations |};
     Aws.list_buckets := fun _ => Return {| Aws.Buckets := Some buckets |};
     Aws.get_bucket_location := fun _ name => location name;
     Aws.describe_log_groups :=
       fun _ _ => Return {| Aws.logGroups := Some groups |};
     Aws.datetime_now := 1672574400%Z;
     Aws.strftime := fun _ fmt =>
       if str_eqb fmt (lit "%Y-%m-%d")
       then lit "2023-01-01"
       else lit "2023-01-01 12:00:00" |}.

(** [instance.get("State", "unknown")] *)
Definition state_of (i : Aws.row) : str :=
  match Aws.row_get (lit "State") i with
  | Some v => v
  | None => lit "unknown"
  end.

(** How many rows are in the state [s]. *)
Definition state_count (s : str) (rows : list Aws.row) : nat :=
  length (filter (fun i => str_eqb (state_of i) s) rows).

(** The sum of the values of a dict of counts. *)
Definition sum_counts (d : Aws.counts) : Z :=
  fold_right (fun kv acc => (snd kv + acc)%Z) 0%Z d.

(** An instance as [describe_instances] reports it, without tags,
    addresses and launch time. *)
Definition plain_instance (id state : string) : Aws.instance :=
  {| Aws.InstanceId := Some (lit id);
     Aws.Tags := None;
     Aws.InstanceType := Some (lit "t2.micro");
     Aws.State := Some {| Aws.state_Name := Some (lit state) |};
     Aws.Placement := Some {| Aws.AvailabilityZone := Some (lit "us-east-1a") |};
     Aws.PrivateIpAddress := None;
     Aws.PublicIpAddress := None;
     Aws.LaunchTime := None |}.

(** The log groups [describe_log_groups] answers with, when the client
    could be made, the call returned and the answer has [logGroups]. *)
Definition log_groups_of (w : Aws.cloud) : option (list Aws.log_group) :=
  match Aws.boto3_client w (client_for w "logs") with
  | Return _ =>
      match Aws.describe_log_groups w (client_for w "logs") 50 with
      | Return response => Aws.logGroups response
      | Raise _ => None
      end
  | Raise _ => None
  end.

(** A log group with the two members the code subscripts. *)
Definition complete_group (g : Aws.log_group) : bool :=
  match Aws.logGroupName g, Aws.creationTime g with
  | Some _, Some _ => true
  | _, _ => false
  end.

(** The entry shown for a complete log group. *)
Definition shown_group (g : Aws.log_group) : pyval :=
  PDict [(lit "name",
          PStr (match Aws.logGroupName g with Some n => n | None => [] end));
         (lit "creation_time",
          PInt (match Aws.creationTime g with Some t => t | None => 0%Z end));
         (lit "size_bytes",
          PInt (match Aws.storedBytes g with Some n => n | None => 0%Z end))].

(** The service calls among the events. *)
Definition is_api_call (e : Aws.aws_event) : bool :=
  match e with
  | Aws.ApiCall _ _ _ => true
  | _ => false
  end.

Definition api_calls {A} (m : Aws.aws A) (w : Aws.cloud) : list Aws.aws_event :=
  filter is_api_call (Aws.events m w).

(** A text that neither starts nor ends with white space. *)
Definition trimmed (v : str) : Prop :=
  match v with
  | [] => True
  | c :: _ => isspace c = false /\ isspace (last v c) = false
  end.

(** [tag['Key'] == 'Name'] for a tag that has its key. *)
Definition is_name_tag (t : Aws.tag) : bool :=
  match Aws.tag_Key t with
  | Some k => str_eqb k (lit "Name")
  | None => false
  end.

(** ** Mocked worlds *)

(** Every command ends as [r], every path exists or not as [marker] says,
    and every text parses as [doc]. *)
Definition mock_world (r : result CompletedProcess) (marker : bool)
    (doc : result pyval) : world :=
  {| subprocess_run := fun _ _ _ => r;
     os_path_exists := fun _ => marker;
     json_loads := fun _ => doc |}.

(** A process that needs [seconds] seconds to end as [p]:
    [subprocess.run] raises [TimeoutExpired] when it is given less. *)
Definition slow_process (seconds : N) (p : CompletedProcess) : world :=
  {| subprocess_run := fun _ _ timeout =>
       if (timeout <? seconds)%N
       then Raise (Exc TimeoutExpired (lit "Command timed out"))
       else Return p;
     os_path_exists := fun _ => false;
     json_loads := fun _ =>
       Raise (Exc JSONDecodeError (lit "Expecting value")) |}.

(** * Facts *)

Lemma str_eqb_eq (a b : str) : str_eqb a b = true <-> a = b.
Proof.
  unfold str_eqb. destruct (list_eq_dec N.eq_dec a b); split; congruence.
Qed.

Lemma str_eqb_neq (a b : str) : a <> b -> str_eqb a b = false.
Proof.
  intros H. destruct (str_eqb a b) eqn:E; [|reflexivity].
  now apply str_eqb_eq in E.
Qed.

(** ** The matcher and the substitution *)

Module ReFacts.
Import Re.

(** A successful match leaves text no longer than what it started from. *)
Lemma star_greedy_length ranges s k out :
  star_greedy ranges s k = Some out ->
  exists rest, k rest = Some out /\ length rest <= length s.
Proof.
  induction s as [|c s IH]; simpl; intros H.
  - exists []. auto.
  - destruct (in_ranges ranges c).
    + destruct (star_greedy ranges s k) as [r|] eqn:E.
      * destruct (IH H) as (rest & Hk & Hl).
        exists rest. split; [congruence | lia].
      * exists (c :: s). auto.
    + exists (c :: s). auto.
Qed.

Lemma rmatch_length r : forall s k out,
  rmatch r s k = Some out ->
  exists rest, k rest = Some out /\ length rest <= length s.
Proof.
  induction r as [c|ranges|a IHa b IHb|a IHa b IHb|ranges]; simpl; intros s k out H.
  - destruct s as [|x s]; [discriminate|].
    destruct (x =? c)%N; [|discriminate].
    exists s. simpl. auto.
  - destruct s as [|x s]; [discriminate|].
    destruct (in_ranges ranges x); [|discriminate].
    exists s. simpl. auto.
  - apply IHa in H. destruct H as (s1 & H & L1).
    apply IHb in H. destruct H as (s2 & H & L2).
    exists s2. split; [assumption | lia].
  - destruct (rmatch a s k) eqn:E.
    + apply IHa. congruence.
    + now apply IHb.
  - now apply (@star_greedy_length ranges).
Qed.

(** A pattern that starts with a literal character. *)
Lemma match_at_cat_chr c b s rest :
  match_at (Cat (Chr c) b) s = Some rest ->
  exists t, s = c :: t /\ length rest <= length t.
Proof.
  unfold match_at. cbn [rmatch]. destruct s as [|x t]; [discriminate|].
  destruct (x =? c)%N eqn:Ex; [|discriminate].
  apply N.eqb_eq in Ex. subst x. intros H.
  apply rmatch_length in H. destruct H as (y & Hy & L).
  exists t. split; [reflexivity | congruence].
Qed.

(** The substitution only deletes characters. *)
Lemma sub_from_subseq r : forall s skip, subseq (sub_from r skip s) s.
Proof.
  induction s as [|c s IH]; intros skip; cbn [sub_from].
  - constructor.
  - destruct skip as [|n].
    + destruct (match_at r (c :: s)) as [rest|].
      * destruct (length (c :: s) - length rest) as [|n];
          [apply subseq_keep | apply subseq_drop]; apply IH.
      * apply subseq_keep, IH.
    + apply subseq_drop, IH.
Qed.

Lemma subseq_length a b : subseq a b -> length a <= length b.
Proof. induction 1; simpl; lia. Qed.

Lemma sub_from_length r s skip : length (sub_from r skip s) <= length s.
Proof. apply subseq_length, sub_from_subseq. Qed.

(** Text in which the pattern matches nowhere is copied unchanged. *)
Lemma sub_no_match r s : matches_somewhere r s = false -> sub r s = s.
Proof.
  unfold sub. induction s as [|c s IH]; simpl; [reflexivity|].
  destruct (match_at r (c :: s)); [discriminate|].
  intros H. now rewrite IH.
Qed.

(** Where a match that is not empty exists, the substitution shortens the
    text. *)
Lemma sub_shortens r s :
  (forall t rest, match_at r t = Some rest -> length rest < length t) ->
  matches_somewhere r s = true -> length (sub r s) < length s.
Proof.
  intros Hne. unfold sub.
  induction s as [|c s IH]; cbn [sub_from matches_somewhere]; [discriminate|].
  destruct (match_at r (c :: s)) as [rest|] eqn:E.
  - intros _. apply Hne in E.
    destruct (length (c :: s) - length rest) as [|n] eqn:En; [lia|].
    pose proof (sub_from_length r s n). cbn [length]. lia.
  - intros H. specialize (IH H). cbn [length]. lia.
Qed.

End ReFacts.

(** ** The pattern of [strip_ansi_codes] *)

(** A match of [ansi_escape] starts with ESC and is not empty. *)
Lemma ansi_escape_match s rest :
  Re.match_at ansi_escape s = Some rest ->
  exists t, s = ESC :: t /\ length rest <= length t.
Proof.
  unfold ansi_escape. apply ReFacts.match_at_cat_chr.
Qed.

Lemma ansi_escape_nonempty t rest :
  Re.match_at ansi_escape t = Some rest -> length rest < length t.
Proof.
  intros H. apply ansi_escape_match in H. destruct H as (u & -> & L).
  simpl. lia.
Qed.

Lemma ansi_escape_needs_esc c s :
  c <> ESC -> Re.match_at ansi_escape (c :: s) = None.
Proof.
  intros Hc. destruct (Re.match_at ansi_escape (c :: s)) eqn:E; [|reflexivity].
  apply ansi_escape_match in E. destruct E as (t & E & _). congruence.
Qed.

Lemma no_esc_no_match s : no_esc s = true -> matches_somewhere ansi_escape s = false.
Proof.
  induction s as [|c s IH]; simpl; [reflexivity|].
  intros H. apply andb_true_iff in H. destruct H as [Hc Hs].
  rewrite ansi_escape_needs_esc.
  - now apply IH.
  - intros ->. discriminate.
Qed.

Lemma strip_no_esc s : no_esc s = true -> strip_ansi_codes s = s.
Proof. intros H. now apply ReFacts.sub_no_match, no_esc_no_match. Qed.

(** When every ESC starts a sequence, nothing of an escape is left. *)
Lemma strip_removes_every_esc s :
  every_esc_starts_seq s = true ->
  forall skip, no_esc (Re.sub_from ansi_escape skip s) = true.
Proof.
  induction s as [|c s IH]; [reflexivity|].
  intros H skip. cbn [every_esc_starts_seq] in H.
  apply andb_true_iff in H. destruct H as [Hc Hs].
  cbn [Re.sub_from]. destruct skip as [|n]; [|now apply IH].
  destruct (Re.match_at ansi_escape (c :: s)) as [rest|] eqn:E.
  - apply ansi_escape_nonempty in E.
    destruct (length (c :: s) - length rest) as [|n] eqn:En; [lia|].
    now apply IH.
  - destruct (c =? ESC)%N eqn:Ec; [discriminate|].
    cbn [no_esc forallb]. rewrite Ec. simpl. now apply (IH Hs 0).
Qed.

(** ** Sanitization *)

Example strip_colour :
  strip_ansi_codes (ESC :: lit "[31mred" ++ ESC :: lit "[0m!") = lit "red!".
Proof. reflexivity. Qed.

Example strip_lone_esc : strip_ansi_codes [ESC] = [ESC].
Proof. reflexivity. Qed.

Example strip_truncated_csi :
  strip_ansi_codes (lit "ok " ++ ESC :: lit "[31") = lit "ok " ++ ESC :: lit "[31".
Proof. reflexivity. Qed.

(** C2, as stated, fails: a stray ESC in front of a colour code is left in
    place by the first pass and then stands in front of the text that
    followed the colour code; when that text completes a sequence, a second
    pass removes it.  Here ESC ESC[0m[31m becomes ESC[31m, which a second
    pass strips to the empty text. *)
Lemma strip_ansi_codes_not_idempotent :
  let x := ESC :: ESC :: lit "[0m" ++ lit "[31m" in
  strip_ansi_codes x = ESC :: lit "[31m" /\
  strip_ansi_codes (strip_ansi_codes x) = [] /\
  strip_ansi_codes (strip_ansi_codes x) <> strip_ansi_codes x.
Proof. repeat split. discriminate. Qed.

(** C2, amended: [strip_ansi_codes] is the identity on text that contains
    no complete escape sequence; it is idempotent on every text in which
    each ESC starts a complete escape sequence; and in general stripping
    twice equals stripping once exactly when the stripped text contains no
    complete escape sequence. *)
Theorem strip_ansi_codes_idempotent_on_clean_output (x : str) :
  (matches_somewhere ansi_escape x = false -> strip_ansi_codes x = x) /\
  (every_esc_starts_seq x = true ->
   strip_ansi_codes (strip_ansi_codes x) = strip_ansi_codes x) /\
  (strip_ansi_codes (strip_ansi_codes x) = strip_ansi_codes x <->
   matches_somewhere ansi_escape (strip_ansi_codes x) = false).
Proof.
  split; [apply ReFacts.sub_no_match|]. split.
  - intros H. apply strip_no_esc.
    unfold strip_ansi_codes, Re.sub. now apply strip_removes_every_esc.
  - split.
    + intros H.
      destruct (matches_somewhere ansi_escape (strip_ansi_codes x)) eqn:E;
        [|reflexivity].
      apply (ReFacts.sub_shortens ansi_escape) in E;
        [|exact ansi_escape_nonempty].
      unfold strip_ansi_codes in *. rewrite H in E. lia.
    + apply ReFacts.sub_no_match.
Qed.

Lemma strip_ansi_codes_idempotent_on_clean_output_witness :
  let x := ESC :: lit "[31mred" ++ ESC :: lit "[0m!" in
  every_esc_starts_seq x = true /\
  strip_ansi_codes (strip_ansi_codes x) = strip_ansi_codes x.
Proof.
  intros x. split; [reflexivity|].
  apply (proj1 (proj2 (strip_ansi_codes_idempotent_on_clean_output x))).
  reflexivity.
Defined.

(** C8: [strip_ansi_codes] returns a text for every input text: the scan is
    a structural recursion over the input, its result is the input with
    some characters deleted, and an input in which no complete escape
    sequence occurs (a lone ESC, a truncated CSI sequence) comes back
    unchanged. *)
Theorem strip_ansi_codes_total (text : str) :
  exists out : str,
    strip_ansi_codes text = out /\
    subseq out text /\
    length out <= length text /\
    (matches_somewhere ansi_escape text = false -> out = text).
Proof.
  exists (strip_ansi_codes text). split; [reflexivity|].
  split; [apply ReFacts.sub_from_subseq|].
  split; [apply ReFacts.sub_from_length|].
  apply ReFacts.sub_no_match.
Qed.

Lemma strip_ansi_codes_total_witness :
  exists out : str,
    strip_ansi_codes (ESC :: lit "[31") = out /\ out = ESC :: lit "[31".
Proof.
  destruct (strip_ansi_codes_total (ESC :: lit "[31")) as (out & E & _ & _ & H).
  exists out. split; [exact E|]. apply H. reflexivity.
Defined.

(** ** Plan, apply and destroy *)

Ltac py_eval :=
  cbv [outcome trace
       get_terraform_status get_terraform_status_try get_terraform_status_except
       terraform_plan terraform_plan_try terraform_plan_except
       terraform_apply terraform_apply_try terraform_apply_except
       terraform_destroy terraform_destroy_try terraform_destroy_except
       get_terraform_state get_terraform_state_try get_terraform_state_except
       get_terraform_state_parse get_terraform_state_parse_except
       get_terraform_outputs get_terraform_outputs_try
       get_terraform_outputs_except
       get_terraform_outputs_parse get_terraform_outputs_parse_except
       trigger_terraform try_except bind ret raise lift run path_exists
       logger_info loads terraform_cmd map fst snd].

(** What the three operations return when the process ended as [p]. *)
Lemma terraform_plan_completed w p :
  subprocess_run w (terraform_cmd ["plan"; "-out=tfplan"]%string)
                 (lit "terraform") 120 = Return p ->
  outcome terraform_plan w =
  Return (PDict [(lit "success", PBool (returncode p =? 0)%Z);
                 (lit "output", PStr (strip_ansi_codes (stdout p)));
                 (lit "error",
                  if negb (returncode p =? 0)%Z
                  then PStr (strip_ansi_codes (stderr p)) else PNone)]).
Proof. py_eval. intros ->. reflexivity. Qed.

Lemma terraform_apply_completed w p :
  subprocess_run w (terraform_cmd ["apply"; "-auto-approve"; "tfplan"]%string)
                 (lit "terraform") 600 = Return p ->
  outcome terraform_apply w =
  Return (PDict [(lit "success", PBool (returncode p =? 0)%Z);
                 (lit "output", PStr (strip_ansi_codes (stdout p)));
                 (lit "error",
                  if negb (returncode p =? 0)%Z
                  then PStr (strip_ansi_codes (stderr p)) else PNone)]).
Proof. py_eval. intros ->. reflexivity. Qed.

Lemma terraform_destroy_completed w p :
  subprocess_run w (terraform_cmd ["destroy"; "-auto-approve"]%string)
                 (lit "terraform") 600 = Return p ->
  outcome terraform_destroy w =
  Return (PDict [(lit "success", PBool (returncode p =? 0)%Z);
                 (lit "output", PStr (strip_ansi_codes (stdout p)));
                 (lit "error",
                  if negb (returncode p =? 0)%Z
                  then PStr (strip_ansi_codes (stderr p)) else PNone)]).
Proof. py_eval. intros ->. reflexivity. Qed.

Lemma execution_contract_holds p :
  execution_contract
    (PDict [(lit "success", PBool (returncode p =? 0)%Z);
            (lit "output", PStr (strip_ansi_codes (stdout p)));
            (lit "error",
             if negb (returncode p =? 0)%Z
             then PStr (strip_ansi_codes (stderr p)) else PNone)]) p.
Proof.
  unfold execution_contract. split; [reflexivity|]. split; [|split].
  - change (Some (PBool (returncode p =? 0)%Z) = Some (PBool true)
            <-> returncode p = 0%Z).
    rewrite <- Z.eqb_eq. split; [intros [= ->] | intros ->]; reflexivity.
  - reflexivity.
  - intros H. apply Z.eqb_neq in H.
    change (Some (if negb (returncode p =? 0)%Z
                  then PStr (strip_ansi_codes (stderr p)) else PNone)
            = Some (PStr (strip_ansi_codes (stderr p)))).
    now rewrite H.
Qed.

(** C1: when the subprocess of plan, apply or destroy completes, the
    result has success = (exit code = 0), output = the sanitized stdout
    and, when the exit code is not 0, error = the sanitized stderr. *)
Theorem plan_apply_destroy_completed (w : world) (p : CompletedProcess) :
  (subprocess_run w (terraform_cmd ["plan"; "-out=tfplan"]%string)
                  (lit "terraform") 120 = Return p ->
   exists d, outcome terraform_plan w = Return d /\ execution_contract d p) /\
  (subprocess_run w (terraform_cmd ["apply"; "-auto-approve"; "tfplan"]%string)
                  (lit "terraform") 600 = Return p ->
   exists d, outcome terraform_apply w = Return d /\ execution_contract d p) /\
  (subprocess_run w (terraform_cmd ["destroy"; "-auto-approve"]%string)
                  (lit "terraform") 600 = Return p ->
   exists d, outcome terraform_destroy w = Return d /\ execution_contract d p).
Proof.
  repeat split; intros H;
    [ apply terraform_plan_completed in H
    | apply terraform_apply_completed in H
    | apply terraform_destroy_completed in H ];
    eexists; (split; [exact H | apply execution_contract_holds]).
Qed.

Lemma plan_apply_destroy_completed_witness :
  let p := {| returncode := 1; stdout := ESC :: lit "[1mPlanning" ++ ESC :: lit "[0m";
              stderr := ESC :: lit "[31mError: no configuration" |} in
  let w := mock_world (Return p) true (Return PNone) in
  exists d,
    outcome terraform_plan w = Return d /\
    field "success" d = Some (PBool false) /\
    field "output" d = Some (PStr (lit "Planning")) /\
    field "error" d = Some (PStr (lit "Error: no configuration")).
Proof.
  intros p w.
  destruct (proj1 (plan_apply_destroy_completed w p) eq_refl)
    as (d & Hd & Hs & _ & Ho & He).
  exists d. split; [exact Hd|]. split; [exact Hs|]. split; [exact Ho|].
  apply He. discriminate.
Defined.

(** What the three operations return when [subprocess.run] raised [e]. *)
Lemma terraform_plan_raised w e :
  subprocess_run w (terraform_cmd ["plan"; "-out=tfplan"]%string)
                 (lit "terraform") 120 = Raise e ->
  outcome terraform_plan w =
  Return (failure (except_message "Terraform plan timed out after 2 minutes" e)).
Proof.
  py_eval. intros ->. unfold failure, except_message.
  destruct (exc_class_of e); reflexivity.
Qed.

Lemma terraform_apply_raised w e :
  subprocess_run w (terraform_cmd ["apply"; "-auto-approve"; "tfplan"]%string)
                 (lit "terraform") 600 = Raise e ->
  outcome terraform_apply w =
  Return (failure (except_message "Terraform apply timed out after 10 minutes" e)).
Proof.
  py_eval. intros ->. unfold failure, except_message.
  destruct (exc_class_of e); reflexivity.
Qed.

Lemma terraform_destroy_raised w e :
  subprocess_run w (terraform_cmd ["destroy"; "-auto-approve"]%string)
                 (lit "terraform") 600 = Raise e ->
  outcome terraform_destroy w =
  Return (failure (except_message "Terraform destroy timed out after 10 minutes" e)).
Proof.
  py_eval. intros ->. unfold failure, except_message.
  destruct (exc_class_of e); reflexivity.
Qed.

Lemma error_field_contract_intro op args timeout text w :
  (forall p, subprocess_run w args (lit "terraform") timeout = Return p ->
     outcome op w =
     Return (PDict [(lit "success", PBool (returncode p =? 0)%Z);
                    (lit "output", PStr (strip_ansi_codes (stdout p)));
                    (lit "error",
                     if negb (returncode p =? 0)%Z
                     then PStr (strip_ansi_codes (stderr p)) else PNone)])) ->
  (forall e, subprocess_run w args (lit "terraform") timeout = Raise e ->
     outcome op w = Return (failure (except_message text e))) ->
  error_field_contract op args timeout w.
Proof.
  intros Hp He. unfold error_field_contract.
  destruct (subprocess_run w args (lit "terraform") timeout) as [p|e] eqn:E.
  - specialize (Hp p eq_refl).
    destruct (returncode p =? 0)%Z eqn:Erc.
    + exists (PDict [(lit "success", PBool true);
                     (lit "output", PStr (strip_ansi_codes (stdout p)));
                     (lit "error", PNone)]), PNone.
      apply Z.eqb_eq in Erc.
      split; [exact Hp|]. split; [reflexivity|]. split; [reflexivity|].
      split; [congruence|].
      intros [[e [=]] | [q [[= <-] Hq]]]. contradiction.
    + exists (PDict [(lit "success", PBool false);
                     (lit "output", PStr (strip_ansi_codes (stdout p)));
                     (lit "error", PStr (strip_ansi_codes (stderr p)))]),
             (PStr (strip_ansi_codes (stderr p))).
      apply Z.eqb_neq in Erc.
      split; [exact Hp|]. split; [reflexivity|].
      split; [intros q [= <-] Hq; contradiction|].
      split; [|discriminate].
      intros _. right. exists p. auto.
  - specialize (He e eq_refl).
    exists (failure (except_message text e)), (PStr (except_message text e)).
    split; [exact He|]. split; [reflexivity|].
    split; [discriminate|].
    split; [|discriminate].
    intros _. left. exists e. reflexivity.
Qed.

(** C9: for plan, apply and destroy the error entry is [None] whenever the
    process exits 0, whatever it wrote to stderr, and it holds a text
    exactly when the exit code is not 0 or an exception occurred. *)
Theorem error_absent_iff_exit_zero (w : world) :
  error_field_contract terraform_plan
    (terraform_cmd ["plan"; "-out=tfplan"]%string) 120 w /\
  error_field_contract terraform_apply
    (terraform_cmd ["apply"; "-auto-approve"; "tfplan"]%string) 600 w /\
  error_field_contract terraform_destroy
    (terraform_cmd ["destroy"; "-auto-approve"]%string) 600 w.
Proof.
  split; [|split]; eapply error_field_contract_intro.
  - apply terraform_plan_completed.
  - apply terraform_plan_raised.
  - apply terraform_apply_completed.
  - apply terraform_apply_raised.
  - apply terraform_destroy_completed.
  - apply terraform_destroy_raised.
Qed.

Lemma error_absent_iff_exit_zero_witness :
  let p := {| returncode := 0; stdout := lit "Apply complete!";
              stderr := lit "Warning: deprecated argument" |} in
  let w := mock_world (Return p) true (Return PNone) in
  exists d, outcome terraform_apply w = Return d /\ field "error" d = Some PNone.
Proof.
  intros p w.
  destruct (proj1 (proj2 (error_absent_iff_exit_zero w)))
    as (d & v & Hd & Hv & Hzero & _).
  exists d. split; [exact Hd|].
  rewrite Hv. f_equal. apply (Hzero p); reflexivity.
Defined.

(** ** Dispatch *)

(** C3: [trigger_terraform] logs the action and then, for "plan", "apply"
    and "destroy", does and returns exactly what the matching operation
    does and returns; for every other action it returns the unknown-action
    failure and runs no subprocess. *)
Theorem trigger_terraform_dispatch (w : world) :
  (outcome (trigger_terraform (lit "plan")) w = outcome terraform_plan w /\
   trace (trigger_terraform (lit "plan")) w =
   LogInfo (lit "Triggering Terraform action: plan") :: trace terraform_plan w) /\
  (outcome (trigger_terraform (lit "apply")) w = outcome terraform_apply w /\
   trace (trigger_terraform (lit "apply")) w =
   LogInfo (lit "Triggering Terraform action: apply") :: trace terraform_apply w) /\
  (outcome (trigger_terraform (lit "destroy")) w = outcome terraform_destroy w /\
   trace (trigger_terraform (lit "destroy")) w =
   LogInfo (lit "Triggering Terraform action: destroy")
     :: trace terraform_destroy w) /\
  (forall action : str,
     action <> lit "plan" -> action <> lit "apply" -> action <> lit "destroy" ->
     outcome (trigger_terraform action) w =
     Return (failure (lit "Unknown action: " ++ action
                      ++ lit ". Supported actions: plan, apply, destroy")) /\
     trace (trigger_terraform action) w =
     [LogInfo (lit "Triggering Terraform action: " ++ action)] /\
     existsb is_subprocess_run (trace (trigger_terraform action) w) = false).
Proof.
  split; [|split; [|split]].
  - unfold outcome, trace, trigger_terraform, bind, logger_info.
    change (str_eqb (lit "plan") (lit "plan")) with true. cbv iota.
    destruct (terraform_plan w) as [t r]. split; reflexivity.
  - unfold outcome, trace, trigger_terraform, bind, logger_info.
    change (str_eqb (lit "apply") (lit "plan")) with false.
    change (str_eqb (lit "apply") (lit "apply")) with true. cbv iota.
    destruct (terraform_apply w) as [t r]. split; reflexivity.
  - unfold outcome, trace, trigger_terraform, bind, logger_info.
    change (str_eqb (lit "destroy") (lit "plan")) with false.
    change (str_eqb (lit "destroy") (lit "apply")) with false.
    change (str_eqb (lit "destroy") (lit "destroy")) with true. cbv iota.
    destruct (terraform_destroy w) as [t r]. split; reflexivity.
  - intros action Hp Ha Hd.
    unfold outcome, trace, trigger_terraform, bind, logger_info, ret.
    rewrite (str_eqb_neq Hp), (str_eqb_neq Ha), (str_eqb_neq Hd).
    repeat split.
Qed.

Lemma trigger_terraform_dispatch_witness :
  let w := mock_world (Raise (Exc OtherException (lit "never run"))) false
                      (Return PNone) in
  outcome (trigger_terraform (lit "rollback")) w =
  Return (failure (lit "Unknown action: rollback. Supported actions: plan, apply, destroy")) /\
  trace (trigger_terraform (lit "rollback")) w =
  [LogInfo (lit "Triggering Terraform action: rollback")].
Proof.
  intros w.
  destruct (proj2 (proj2 (proj2 (trigger_terraform_dispatch w))) (lit "rollback"))
    as (Ho & Ht & _); try discriminate.
  split; [exact Ho | exact Ht].
Defined.

(** ** Exceptions at the operation boundary *)

Lemma outcome_try_except {A} (m : py A) (h : exc -> py A) (w : world) :
  outcome (try_except m h) w =
  match outcome m w with
  | Return a => Return a
  | Raise e => outcome (h e) w
  end.
Proof.
  unfold outcome, try_except. destruct (m w) as [t [a|e]]; cbn [snd];
    [reflexivity|].
  destruct (h e w); reflexivity.
Qed.

Lemma get_terraform_status_except_returns e w :
  outcome (get_terraform_status_except e) w =
  Return (unavailable (except_message "Terraform command timed out" e)).
Proof. py_eval. unfold except_message. destruct (exc_class_of e); reflexivity. Qed.

Lemma terraform_plan_except_returns e w :
  outcome (terraform_plan_except e) w =
  Return (failure (except_message "Terraform plan timed out after 2 minutes" e)).
Proof. py_eval. unfold except_message. destruct (exc_class_of e); reflexivity. Qed.

Lemma terraform_apply_except_returns e w :
  outcome (terraform_apply_except e) w =
  Return (failure (except_message "Terraform apply timed out after 10 minutes" e)).
Proof. py_eval. unfold except_message. destruct (exc_class_of e); reflexivity. Qed.

Lemma terraform_destroy_except_returns e w :
  outcome (terraform_destroy_except e) w =
  Return (failure (except_message "Terraform destroy timed out after 10 minutes" e)).
Proof. py_eval. unfold except_message. destruct (exc_class_of e); reflexivity. Qed.

Lemma get_terraform_state_except_returns e w :
  outcome (get_terraform_state_except e) w =
  Return (failure (except_message "Terraform state check timed out" e)).
Proof. py_eval. unfold except_message. destruct (exc_class_of e); reflexivity. Qed.

Lemma get_terraform_outputs_except_returns e w :
  outcome (get_terraform_outputs_except e) w =
  Return (failure (except_message "Terraform outputs check timed out" e)).
Proof. py_eval. unfold except_message. destruct (exc_class_of e); reflexivity. Qed.

(** An operation whose [except] clauses all return never raises. *)
Lemma guarded_returns (m : py pyval) (h : exc -> py pyval) (w : world) :
  (forall e, exists d, outcome (h e) w = Return d) ->
  exists d, outcome (try_except m h) w = Return d.
Proof.
  intros Hh. rewrite outcome_try_except.
  destruct (outcome m w) as [a|e]; [now exists a | apply Hh].
Qed.

(** What an operation returns when its [try] block raised [e]. *)
Lemma guarded_raised (m : py pyval) (h : exc -> py pyval) (w : world) e d :
  outcome (h e) w = Return d ->
  outcome m w = Raise e -> outcome (try_except m h) w = Return d.
Proof. intros Hh Hm. now rewrite outcome_try_except, Hm. Qed.

(** [subprocess.run] raising makes the [try] block raise. *)
Lemma get_terraform_status_try_raised w e :
  subprocess_run w (terraform_cmd ["version"]%string) (lit "terraform") 10
  = Raise e ->
  outcome get_terraform_status_try w = Raise e.
Proof. py_eval. now intros ->. Qed.

Lemma get_terraform_state_try_raised w e :
  subprocess_run w (terraform_cmd ["show"; "-json"]%string) (lit "terraform") 30
  = Raise e ->
  outcome get_terraform_state_try w = Raise e.
Proof. py_eval. now intros ->. Qed.

Lemma get_terraform_outputs_try_raised w e :
  subprocess_run w (terraform_cmd ["output"; "-json"]%string) (lit "terraform") 30
  = Raise e ->
  outcome get_terraform_outputs_try w = Raise e.
Proof. py_eval. now intros ->. Qed.

(** ** Timeouts *)

(** The one subprocess call of each operation, with its timeout. *)
Lemma get_terraform_status_call w :
  subprocess_calls get_terraform_status w =
  [SubprocessRun (terraform_cmd ["version"]%string) (lit "terraform") 10].
Proof.
  unfold subprocess_calls. py_eval.
  destruct (subprocess_run w _ _ _) as [p|e].
  - destruct (returncode p =? 0)%Z; reflexivity.
  - destruct (exc_class_of e); reflexivity.
Qed.

Lemma terraform_plan_call w :
  subprocess_calls terraform_plan w =
  [SubprocessRun (terraform_cmd ["plan"; "-out=tfplan"]%string)
                 (lit "terraform") 120].
Proof.
  unfold subprocess_calls. py_eval.
  destruct (subprocess_run w _ _ _) as [p|e]; [reflexivity|].
  destruct (exc_class_of e); reflexivity.
Qed.

Lemma terraform_apply_call w :
  subprocess_calls terraform_apply w =
  [SubprocessRun (terraform_cmd ["apply"; "-auto-approve"; "tfplan"]%string)
                 (lit "terraform") 600].
Proof.
  unfold subprocess_calls. py_eval.
  destruct (subprocess_run w _ _ _) as [p|e]; [reflexivity|].
  destruct (exc_class_of e); reflexivity.
Qed.

Lemma terraform_destroy_call w :
  subprocess_calls terraform_destroy w =
  [SubprocessRun (terraform_cmd ["destroy"; "-auto-approve"]%string)
                 (lit "terraform") 600].
Proof.
  unfold subprocess_calls. py_eval.
  destruct (subprocess_run w _ _ _) as [p|e]; [reflexivity|].
  destruct (exc_class_of e); reflexivity.
Qed.

Lemma except_message_timeout text e :
  exc_class_of e = TimeoutExpired -> except_message text e = lit text.
Proof. unfold except_message. now intros ->. Qed.

(** C6: each operation passes its configured timeout to [subprocess.run]
    (10 s for the availability check, 120 s for plan, 600 s for apply and
    for destroy), and when [subprocess.run] raises [TimeoutExpired] the
    operation returns its own timeout failure instead of raising. *)
Theorem timeout_failures (w : world) :
  (subprocess_calls get_terraform_status w =
     [SubprocessRun (terraform_cmd ["version"]%string) (lit "terraform") 10] /\
   subprocess_calls terraform_plan w =
     [SubprocessRun (terraform_cmd ["plan"; "-out=tfplan"]%string)
                    (lit "terraform") 120] /\
   subprocess_calls terraform_apply w =
     [SubprocessRun (terraform_cmd ["apply"; "-auto-approve"; "tfplan"]%string)
                    (lit "terraform") 600] /\
   subprocess_calls terraform_destroy w =
     [SubprocessRun (terraform_cmd ["destroy"; "-auto-approve"]%string)
                    (lit "terraform") 600]) /\
  (forall e, exc_class_of e = TimeoutExpired ->
     (subprocess_run w (terraform_cmd ["version"]%string) (lit "terraform") 10
      = Raise e ->
      outcome get_terraform_status w =
      Return (unavailable (lit "Terraform command timed out"))) /\
     (subprocess_run w (terraform_cmd ["plan"; "-out=tfplan"]%string)
                     (lit "terraform") 120 = Raise e ->
      outcome terraform_plan w =
      Return (failure (lit "Terraform plan timed out after 2 minutes"))) /\
     (subprocess_run w (terraform_cmd ["apply"; "-auto-approve"; "tfplan"]%string)
                     (lit "terraform") 600 = Raise e ->
      outcome terraform_apply w =
      Return (failure (lit "Terraform apply timed out after 10 minutes"))) /\
     (subprocess_run w (terraform_cmd ["destroy"; "-auto-approve"]%string)
                     (lit "terraform") 600 = Raise e ->
      outcome terraform_destroy w =
      Return (failure (lit "Terraform destroy timed out after 10 minutes"))) /\
     (subprocess_run w (terraform_cmd ["show"; "-json"]%string)
                     (lit "terraform") 30 = Raise e ->
      outcome get_terraform_state w =
      Return (failure (lit "Terraform state check timed out"))) /\
     (subprocess_run w (terraform_cmd ["output"; "-json"]%string)
                     (lit "terraform") 30 = Raise e ->
      outcome get_terraform_outputs w =
      Return (failure (lit "Terraform outputs check timed out")))).
Proof.
  split.
  - split; [apply get_terraform_status_call|].
    split; [apply terraform_plan_call|].
    split; [apply terraform_apply_call | apply terraform_destroy_call].
  - intros e He. repeat split; intros H.
    + apply get_terraform_status_try_raised in H.
      apply (@guarded_raised _ _ _ _ _ (get_terraform_status_except_returns e w)) in H.
      now rewrite (except_message_timeout _ _ He) in H.
    + apply terraform_plan_raised in H.
      now rewrite (except_message_timeout _ _ He) in H.
    + apply terraform_apply_raised in H.
      now rewrite (except_message_timeout _ _ He) in H.
    + apply terraform_destroy_raised in H.
      now rewrite (except_message_timeout _ _ He) in H.
    + apply get_terraform_state_try_raised in H.
      apply (@guarded_raised _ _ _ _ _ (get_terraform_state_except_returns e w)) in H.
      now rewrite (except_message_timeout _ _ He) in H.
    + apply get_terraform_outputs_try_raised in H.
      apply (@guarded_raised _ _ _ _ _ (get_terraform_outputs_except_returns e w)) in H.
      now rewrite (except_message_timeout _ _ He) in H.
Qed.

(** A plan that needs 121 seconds is cut off; one that needs 120 is not. *)
Lemma timeout_failures_witness :
  let p := {| returncode := 0; stdout := lit "Plan: 1 to add"; stderr := [] |} in
  outcome terraform_plan (slow_process 121 p) =
  Return (failure (lit "Terraform plan timed out after 2 minutes")) /\
  field "success" (failure (lit "Terraform plan timed out after 2 minutes"))
  = Some (PBool false).
Proof.
  intros p. split; [|reflexivity].
  apply (proj1 (proj2 (proj2 (timeout_failures (slow_process 121 p))
                               (Exc TimeoutExpired (lit "Command timed out"))
                               eq_refl))).
  reflexivity.
Defined.

Example plan_within_timeout :
  let p := {| returncode := 0; stdout := lit "Plan: 1 to add"; stderr := [] |} in
  exists d, outcome terraform_plan (slow_process 120 p) = Return d /\
            field "success" d = Some (PBool true).
Proof. intros p. eexists. split; reflexivity. Qed.

(** ** State and outputs *)

(** The inner [try] of [get_terraform_state], step by step. *)
Lemma get_terraform_state_parse_outcome w p :
  outcome (get_terraform_state_parse p) w =
  rbind (json_loads w (stdout p)) (fun state_data =>
  rbind (state_resources state_data) (fun resources =>
  rbind (py_len resources) (fun count =>
  rbind (py_iter resources) (fun items =>
  rbind (rmapM (fun r => py_get r (lit "address") (PStr (lit "Unknown"))) items)
    (fun resource_list =>
  Return (PDict [(lit "success", PBool true);
                 (lit "resources", PInt (Z.of_nat count));
                 (lit "resource_list", PList resource_list);
                 (lit "state_data", state_data)])))))).
Proof.
  py_eval. unfold state_resources, rbind.
  destruct (json_loads w (stdout p)) as [doc|e]; [|reflexivity].
  destruct (py_get doc (lit "values") (PDict [])) as [v|e]; [|reflexivity].
  destruct (py_get v (lit "root_module") (PDict [])) as [m|e]; [|reflexivity].
  destruct (py_get m (lit "resources") (PList [])) as [res|e]; [|reflexivity].
  destruct (py_len res) as [n|e]; [|reflexivity].
  destruct (py_iter res) as [items|e]; [|reflexivity].
  destruct (rmapM _ items) as [l|e]; reflexivity.
Qed.

(** After exit code 0 the result is that of the inner [try]; a
    [JSONDecodeError] gives the parse failure, any other exception goes to
    the outer [except] clauses. *)
Lemma get_terraform_state_exit_zero w p :
  subprocess_run w (terraform_cmd ["show"; "-json"]%string) (lit "terraform") 30
  = Return p ->
  returncode p = 0%Z ->
  outcome get_terraform_state w =
  match outcome (get_terraform_state_parse p) w with
  | Return d => Return d
  | Raise e =>
      match exc_class_of e with
      | JSONDecodeError =>
          Return (failure (lit "Failed to parse Terraform state JSON"))
      | _ => Return (failure (except_message "Terraform state check timed out" e))
      end
  end.
Proof.
  intros Hrun Hrc.
  unfold get_terraform_state. rewrite outcome_try_except.
  assert (Htry : outcome get_terraform_state_try w =
                 outcome (try_except (get_terraform_state_parse p)
                                     get_terraform_state_parse_except) w).
  { unfold outcome at 1, get_terraform_state_try, bind, run.
    cbv [terraform_cmd map] in Hrun. rewrite Hrun, Hrc.
    change (0 =? 0)%Z with true. cbv iota.
    unfold outcome. destruct (try_except _ _ w). reflexivity. }
  rewrite Htry, outcome_try_except.
  destruct (outcome (get_terraform_state_parse p) w) as [d|e]; [reflexivity|].
  unfold get_terraform_state_parse_except.
  destruct (exc_class_of e) eqn:Ec; try reflexivity;
    change (outcome (raise e) w) with (@Raise pyval e); cbv iota beta;
    rewrite get_terraform_state_except_returns; reflexivity.
Qed.

Lemma get_terraform_state_exit_nonzero w p :
  subprocess_run w (terraform_cmd ["show"; "-json"]%string) (lit "terraform") 30
  = Return p ->
  returncode p <> 0%Z ->
  outcome get_terraform_state w =
  Return (failure (if str_truthy (stderr p)
                   then strip_ansi_codes (stderr p)
                   else lit "No state information available")).
Proof.
  intros Hrun Hrc. apply Z.eqb_neq in Hrc. revert Hrun.
  py_eval. intros ->. rewrite Hrc. reflexivity.
Qed.

Lemma get_terraform_outputs_parse_outcome w p :
  outcome (get_terraform_outputs_parse p) w =
  rbind (json_loads w (stdout p)) (fun outputs =>
  Return (PDict [(lit "success", PBool true); (lit "outputs", outputs)])).
Proof.
  py_eval. unfold rbind.
  destruct (json_loads w (stdout p)) as [doc|e]; reflexivity.
Qed.

Lemma get_terraform_outputs_exit_zero w p :
  subprocess_run w (terraform_cmd ["output"; "-json"]%string) (lit "terraform") 30
  = Return p ->
  returncode p = 0%Z ->
  outcome get_terraform_outputs w =
  match json_loads w (stdout p) with
  | Return outputs =>
      Return (PDict [(lit "success", PBool true); (lit "outputs", outputs)])
  | Raise e =>
      match exc_class_of e with
      | JSONDecodeError =>
          Return (failure (lit "Failed to parse Terraform outputs JSON"))
      | _ =>
          Return (failure (except_message "Terraform outputs check timed out" e))
      end
  end.
Proof.
  intros Hrun Hrc. revert Hrun. py_eval. intros ->. rewrite Hrc.
  change (0 =? 0)%Z with true. cbv beta iota.
  destruct (json_loads w (stdout p)) as [doc|e]; [reflexivity|].
  unfold failure, except_message.
  destruct (exc_class_of e) eqn:Ec; cbv beta iota zeta; try rewrite Ec;
    reflexivity.
Qed.

(** Without interrupts the second writing of [terraform_plan] is the
    first. *)
Lemma interrupt_free_terraform_plan (w : world) :
  Interrupt.terraform_plan (Interrupt.of_world w) =
  (trace terraform_plan w, Interrupt.of_result (outcome terraform_plan w)).
Proof.
  cbv [Interrupt.terraform_plan Interrupt.try_except Interrupt.bind
       Interrupt.run Interrupt.logger_info Interrupt.ret Interrupt.of_world
       Interrupt.subprocess_run_b].
  py_eval.
  destruct (subprocess_run w _ _ _) as [p|e]; [reflexivity|].
  cbn [Interrupt.of_result]. destruct (exc_class_of e); reflexivity.
Qed.

(** C7, as stated, fails: [except Exception] does not catch every
    exception.  When [subprocess.run] ends in [KeyboardInterrupt] (the
    user interrupts the wait), [terraform_plan] returns no failure value:
    the interrupt goes on to the caller. *)
Lemma keyboard_interrupt_propagates :
  let w := {| Interrupt.subprocess_run_b :=
                fun _ _ _ => Interrupt.RaisedBase Interrupt.KeyboardInterrupt |} in
  Interrupt.terraform_plan w =
  ([LogInfo (lit "Running terraform plan...");
    SubprocessRun [lit "terraform"; lit "plan"; lit "-out=tfplan"]
                  (lit "terraform") 120],
   Interrupt.RaisedBase Interrupt.KeyboardInterrupt) /\
  (forall d, snd (Interrupt.terraform_plan w) <> Interrupt.Returned d).
Proof.
  intros w. split; [reflexivity|]. intros d. discriminate.
Qed.

(** Only those exceptions go on to the caller: [terraform_plan] ends in
    one of them exactly when [subprocess.run] did, and returns a value in
    every other case. *)
Lemma terraform_plan_propagates_only_interrupts (w : Interrupt.world_b) :
  match Interrupt.subprocess_run_b w
          [lit "terraform"; lit "plan"; lit "-out=tfplan"] (lit "terraform") 120
  with
  | Interrupt.RaisedBase b =>
      snd (Interrupt.terraform_plan w) = Interrupt.RaisedBase b
  | _ => exists d, snd (Interrupt.terraform_plan w) = Interrupt.Returned d
  end.
Proof.
  cbv [Interrupt.terraform_plan Interrupt.try_except Interrupt.bind
       Interrupt.run Interrupt.logger_info Interrupt.ret].
  destruct (Interrupt.subprocess_run_b w _ _ _) as [p|e|b].
  - eexists. reflexivity.
  - destruct (exc_class_of e); eexists; reflexivity.
  - reflexivity.
Qed.

(** C7, amended: for every exception that is an instance of [Exception]
    (a subprocess timeout, a missing executable, any other [Exception]),
    no operation raises: an exception raised inside the [try] block of an
    operation (by [subprocess.run] or by any later step) comes back as
    the operation's failure value with a message, the operation's own text
    for a timeout and [str(e)] otherwise; a [JSONDecodeError] of
    [json.loads] comes back as the parse failure.  Exceptions that derive
    from [BaseException] only are not caught: [terraform_plan] written
    over calls that may end in one lets it through exactly when
    [subprocess.run] ended in it, and returns a value otherwise. *)
Theorem exceptions_caught_at_boundary (w : world) :
  ((exists d, outcome get_terraform_status w = Return d) /\
   (exists d, outcome terraform_plan w = Return d) /\
   (exists d, outcome terraform_apply w = Return d) /\
   (exists d, outcome terraform_destroy w = Return d) /\
   (exists d, outcome get_terraform_state w = Return d) /\
   (exists d, outcome get_terraform_outputs w = Return d)) /\
  (forall e,
     (outcome get_terraform_status_try w = Raise e ->
      outcome get_terraform_status w =
      Return (unavailable (except_message "Terraform command timed out" e))) /\
     (outcome terraform_plan_try w = Raise e ->
      outcome terraform_plan w =
      Return (failure
                (except_message "Terraform plan timed out after 2 minutes" e))) /\
     (outcome terraform_apply_try w = Raise e ->
      outcome terraform_apply w =
      Return (failure
                (except_message "Terraform apply timed out after 10 minutes" e))) /\
     (outcome terraform_destroy_try w = Raise e ->
      outcome terraform_destroy w =
      Return (failure
                (except_message "Terraform destroy timed out after 10 minutes" e))) /\
     (outcome get_terraform_state_try w = Raise e ->
      outcome get_terraform_state w =
      Return (failure (except_message "Terraform state check timed out" e))) /\
     (outcome get_terraform_outputs_try w = Raise e ->
      outcome get_terraform_outputs w =
      Return (failure (except_message "Terraform outputs check timed out" e)))) /\
  (forall p e,
     returncode p = 0%Z ->
     json_loads w (stdout p) = Raise e ->
     exc_class_of e = JSONDecodeError ->
     (subprocess_run w (terraform_cmd ["show"; "-json"]%string)
                     (lit "terraform") 30 = Return p ->
      outcome get_terraform_state w =
      Return (failure (lit "Failed to parse Terraform state JSON"))) /\
     (subprocess_run w (terraform_cmd ["output"; "-json"]%string)
                     (lit "terraform") 30 = Return p ->
      outcome get_terraform_outputs w =
      Return (failure (lit "Failed to parse Terraform outputs JSON")))) /\
  (forall wb : Interrupt.world_b,
     match Interrupt.subprocess_run_b wb
             [lit "terraform"; lit "plan"; lit "-out=tfplan"]
             (lit "terraform") 120
     with
     | Interrupt.RaisedBase b =>
         snd (Interrupt.terraform_plan wb) = Interrupt.RaisedBase b
     | _ => exists d, snd (Interrupt.terraform_plan wb) = Interrupt.Returned d
     end).
Proof.
  split; [|split; [|split; [|exact terraform_plan_propagates_only_interrupts]]].
  - repeat split; apply guarded_returns; intros e; eexists;
      [ apply get_terraform_status_except_returns
      | apply terraform_plan_except_returns
      | apply terraform_apply_except_returns
      | apply terraform_destroy_except_returns
      | apply get_terraform_state_except_returns
      | apply get_terraform_outputs_except_returns ].
  - intros e. repeat split; apply guarded_raised;
      [ apply get_terraform_status_except_returns
      | apply terraform_plan_except_returns
      | apply terraform_apply_except_returns
      | apply terraform_destroy_except_returns
      | apply get_terraform_state_except_returns
      | apply get_terraform_outputs_except_returns ].
  - intros p e Hrc Hj Hc. split; intros Hrun.
    + rewrite (get_terraform_state_exit_zero _ Hrun Hrc).
      rewrite get_terraform_state_parse_outcome, Hj. cbn [rbind].
      now rewrite Hc.
    + rewrite (get_terraform_outputs_exit_zero _ Hrun Hrc), Hj.
      now rewrite Hc.
Qed.

(** The executable is missing: [subprocess.run] raises and destroy returns
    the failure with the text of the exception. *)
Lemma exceptions_caught_at_boundary_witness :
  let e := Exc OtherException
               (lit "[Errno 2] No such file or directory: 'terraform'") in
  let w := mock_world (Raise e) false (Return PNone) in
  outcome terraform_destroy w =
  Return (failure (lit "[Errno 2] No such file or directory: 'terraform'")).
Proof.
  intros e w.
  apply (proj1 (proj2 (proj2 (proj2
           (proj1 (proj2 (exceptions_caught_at_boundary w)) e))))).
  reflexivity.
Defined.

(** ** The availability check *)

Lemma get_terraform_status_completed w p :
  subprocess_run w (terraform_cmd ["version"]%string) (lit "terraform") 10
  = Return p ->
  outcome get_terraform_status w =
  Return (if (returncode p =? 0)%Z
          then PDict [(lit "terraform_available", PBool true);
                      (lit "version", PStr (strip (stdout p)));
                      (lit "initialized",
                       PBool (os_path_exists w (lit "terraform/.terraform")))]
          else unavailable (stderr p)).
Proof.
  py_eval. intros ->. destruct (returncode p =? 0)%Z; reflexivity.
Qed.

Lemma get_terraform_status_raised w e :
  subprocess_run w (terraform_cmd ["version"]%string) (lit "terraform") 10
  = Raise e ->
  outcome get_terraform_status w =
  Return (unavailable (except_message "Terraform command timed out" e)).
Proof.
  intros H. apply get_terraform_status_try_raised in H.
  exact (@guarded_raised _ _ _ _ _ (get_terraform_status_except_returns e w) H).
Qed.

(** C4, as stated, fails: the version entry is the whole stdout without
    its leading and trailing white space, so for the two lines that
    [terraform version] prints it holds both lines, not the first. *)
Lemma version_is_not_the_first_line :
  let out := lit "Terraform v1.5.7" ++ 10%N :: lit "on linux_amd64" ++ [10%N] in
  let w := mock_world (Return {| returncode := 0; stdout := out; stderr := [] |})
                      true (Return PNone) in
  exists d,
    outcome get_terraform_status w = Return d /\
    field "terraform_available" d = Some (PBool true) /\
    field "version" d
    = Some (PStr (lit "Terraform v1.5.7" ++ 10%N :: lit "on linux_amd64")) /\
    spec_first_line out = lit "Terraform v1.5.7" /\
    field "version" d <> Some (PStr (spec_first_line out)).
Proof.
  intros out w. eexists. split; [reflexivity|].
  split; [reflexivity|]. split; [reflexivity|]. split; [reflexivity|].
  discriminate.
Qed.

(** C4, amended: [get_terraform_status] never raises; it reports the tool
    available exactly when the version check exits 0; then the version
    entry is the captured stdout with leading and trailing white space
    removed (all of its lines) and the initialized entry is what the file
    system says about [terraform/.terraform]; a nonzero exit reports the
    raw stderr, and an exception of [subprocess.run] reports the timeout
    text or [str(e)]. *)
Theorem get_terraform_status_contract (w : world) :
  exists d,
    outcome get_terraform_status w = Return d /\
    (field "terraform_available" d = Some (PBool true) <->
     exists p, subprocess_run w (terraform_cmd ["version"]%string)
                              (lit "terraform") 10 = Return p /\
               returncode p = 0%Z) /\
    (forall p, subprocess_run w (terraform_cmd ["version"]%string)
                              (lit "terraform") 10 = Return p ->
               returncode p = 0%Z ->
               field "version" d = Some (PStr (strip (stdout p))) /\
               field "initialized" d
               = Some (PBool (os_path_exists w (lit "terraform/.terraform")))) /\
    (forall p, subprocess_run w (terraform_cmd ["version"]%string)
                              (lit "terraform") 10 = Return p ->
               returncode p <> 0%Z ->
               d = unavailable (stderr p)) /\
    (forall e, subprocess_run w (terraform_cmd ["version"]%string)
                              (lit "terraform") 10 = Raise e ->
               d = unavailable (except_message "Terraform command timed out" e)).
Proof.
  destruct (subprocess_run w (terraform_cmd ["version"]%string)
                           (lit "terraform") 10) as [p|e] eqn:E.
  - rewrite (get_terraform_status_completed _ E).
    destruct (returncode p =? 0)%Z eqn:Erc.
    + apply Z.eqb_eq in Erc. eexists. split; [reflexivity|].
      split; [split; [intros _; now exists p | reflexivity]|].
      split; [intros q [= <-] _; split; reflexivity|].
      split; [intros q [= <-] Hq; contradiction | discriminate].
    + apply Z.eqb_neq in Erc. eexists. split; [reflexivity|].
      split; [split; [discriminate | intros (q & [= <-] & Hq); contradiction]|].
      split; [intros q [= <-] Hq; contradiction|].
      split; [intros q [= <-] _; reflexivity | discriminate].
  - rewrite (get_terraform_status_raised _ E).
    eexists. split; [reflexivity|].
    split; [split; [discriminate | intros (q & [=] & _)]|].
    split; [discriminate|]. split; [discriminate|].
    now intros e' [= <-].
Qed.

Lemma get_terraform_status_contract_witness :
  let p := {| returncode := 0; stdout := lit "Terraform v1.5.7" ++ [10%N];
              stderr := [] |} in
  let w := mock_world (Return p) false (Return PNone) in
  exists d,
    outcome get_terraform_status w = Return d /\
    field "terraform_available" d = Some (PBool true) /\
    field "version" d = Some (PStr (lit "Terraform v1.5.7")) /\
    field "initialized" d = Some (PBool false).
Proof.
  intros p w.
  destruct (get_terraform_status_contract w) as (d & Hd & Ha & Hv & _).
  exists d. split; [exact Hd|].
  split; [apply Ha; exists p; split; reflexivity|].
  exact (Hv p eq_refl eq_refl).
Defined.

(** ** The state snapshot *)

Lemma get_terraform_state_reads w p doc :
  state_run w p -> returncode p = 0%Z ->
  json_loads w (stdout p) = Return doc ->
  outcome get_terraform_state w =
  match read_state doc with
  | Return d => Return d
  | Raise e =>
      match exc_class_of e with
      | JSONDecodeError =>
          Return (failure (lit "Failed to parse Terraform state JSON"))
      | _ => Return (failure (except_message "Terraform state check timed out" e))
      end
  end.
Proof.
  intros Hrun Hrc Hdoc.
  rewrite (get_terraform_state_exit_zero _ Hrun Hrc).
  rewrite get_terraform_state_parse_outcome, Hdoc. reflexivity.
Qed.

Lemma py_len_zero_iter resources :
  py_len resources = Return 0 -> py_iter resources = Return [].
Proof.
  destruct resources as [| | | |s|items|items]; try discriminate;
    cbn [py_len py_iter]; intros [= H];
    apply length_zero_iff_nil in H; now subst.
Qed.

Lemma get_terraform_state_zero_resources w doc :
  zero_resources w doc ->
  outcome get_terraform_state w =
  Return (PDict [(lit "success", PBool true);
                 (lit "resources", PInt 0);
                 (lit "resource_list", PList []);
                 (lit "state_data", doc)]).
Proof.
  intros (p & res & Hrun & Hrc & Hdoc & Hres & Hlen).
  rewrite (@get_terraform_state_reads _ _ _ Hrun Hrc Hdoc).
  unfold read_state. rewrite Hres. cbn [rbind]. rewrite Hlen. cbn [rbind].
  rewrite (@py_len_zero_iter _ Hlen). reflexivity.
Qed.

Lemma get_terraform_state_rejected w p e :
  rejected w p e ->
  outcome get_terraform_state w = Return (failure (rejection_message e)).
Proof.
  intros (Hrun & Hrc & Hj).
  rewrite (get_terraform_state_exit_zero _ Hrun Hrc).
  rewrite get_terraform_state_parse_outcome, Hj. cbn [rbind].
  unfold rejection_message, except_message.
  destruct (exc_class_of e); reflexivity.
Qed.

(** Reading a parsed value raises nothing but the attribute and type
    errors of [.get], [len] and the iteration. *)
Lemma rmapM_get_raises items e :
  rmapM (fun r => py_get r (lit "address") (PStr (lit "Unknown"))) items
  = Raise e ->
  exc_class_of e = AttributeError.
Proof.
  induction items as [|r items IH]; cbn [rmapM]; [discriminate|].
  destruct (py_get r (lit "address") (PStr (lit "Unknown"))) as [a|e'] eqn:Er;
    cbn [rbind].
  - destruct (rmapM _ items) as [l|e'']; cbn [rbind]; [discriminate|].
    intros [= ->]. now apply IH.
  - intros [= ->]. destruct r; try discriminate; now injection Er as <-.
Qed.

Lemma py_get_raises obj key default e :
  py_get obj key default = Raise e -> exc_class_of e = AttributeError.
Proof. destruct obj; try discriminate; now intros [= <-]. Qed.

Lemma read_state_raises doc e :
  read_state doc = Raise e ->
  exc_class_of e = AttributeError \/ exc_class_of e = TypeError.
Proof.
  unfold read_state, state_resources.
  destruct (py_get doc (lit "values") (PDict [])) as [v|e1] eqn:E1; cbn [rbind];
    [|intros [= <-]; left; exact (@py_get_raises _ _ _ _ E1)].
  destruct (py_get v (lit "root_module") (PDict [])) as [m|e2] eqn:E2;
    cbn [rbind]; [|intros [= <-]; left; exact (@py_get_raises _ _ _ _ E2)].
  destruct (py_get m (lit "resources") (PList [])) as [res|e3] eqn:E3;
    cbn [rbind]; [|intros [= <-]; left; exact (@py_get_raises _ _ _ _ E3)].
  destruct (py_len res) as [n|e4] eqn:E4; cbn [rbind].
  2:{ intros [= <-]. right. destruct res; try discriminate;
        now injection E4 as <-. }
  destruct (py_iter res) as [items|e5] eqn:E5; cbn [rbind].
  2:{ intros [= <-]. right. destruct res; try discriminate;
        now injection E5 as <-. }
  destruct (rmapM _ items) as [l|e6] eqn:E6; cbn [rbind]; [discriminate|].
  intros [= <-]. left. exact (@rmapM_get_raises _ _ E6).
Qed.

Lemma get_terraform_state_unreadable w doc e :
  unreadable w doc e ->
  outcome get_terraform_state w = Return (failure (exc_str e)).
Proof.
  intros (p & Hrun & Hrc & Hdoc & Hread).
  rewrite (@get_terraform_state_reads _ _ _ Hrun Hrc Hdoc), Hread.
  unfold except_message.
  destruct (@read_state_raises _ _ Hread) as [-> | ->]; reflexivity.
Qed.

Lemma get_terraform_state_process_failure w p :
  process_failure w p ->
  outcome get_terraform_state w = Return (failure (process_failure_message p)).
Proof. intros [Hrun Hrc]. now apply get_terraform_state_exit_nonzero. Qed.

(** C5, as stated, fails twice.  The failures differ only in the text of
    their message, and the message of a process failure is whatever the
    process wrote to stderr: a process that exits 1 with the stderr text
    "Failed to parse Terraform state JSON" gives the very result of a
    parse failure.  And text that [json.loads] rejects with an error that
    is no [JSONDecodeError] (an integer of 5000 digits is past the limit
    of the conversion, a [ValueError]) is not reported with the
    parse-failure message but with the text of that error. *)
Lemma parse_and_process_failure_collide :
  let undecodable :=
    Exc JSONDecodeError (lit "Expecting value: line 1 column 1 (char 0)") in
  let p1 := {| returncode := 0; stdout := lit "not json"; stderr := [] |} in
  let w1 := mock_world (Return p1) true (Raise undecodable) in
  let p2 := {| returncode := 1; stdout := [];
               stderr := lit "Failed to parse Terraform state JSON" |} in
  let w2 := mock_world (Return p2) true (Raise undecodable) in
  let too_long :=
    Exc OtherException
        (lit "Exceeds the limit (4300 digits) for integer string conversion: value has 5000 digits; use sys.set_int_max_str_digits() to increase the limit") in
  let p3 := {| returncode := 0; stdout := repeat 0x31%N 5000; stderr := [] |} in
  let w3 := mock_world (Return p3) true (Raise too_long) in
  (rejected w1 p1 undecodable /\ process_failure w2 p2 /\
   outcome get_terraform_state w1 = outcome get_terraform_state w2) /\
  (rejected w3 p3 too_long /\
   outcome get_terraform_state w3 = Return (failure (exc_str too_long)) /\
   outcome get_terraform_state w3
   <> Return (failure (lit "Failed to parse Terraform state JSON"))).
Proof.
  intros undecodable p1 w1 p2 w2 too_long p3 w3. split.
  - split; [|split].
    + repeat split.
    + split; [reflexivity | discriminate].
    + reflexivity.
  - assert (H : rejected w3 p3 too_long) by (repeat split).
    split; [exact H|].
    rewrite (@get_terraform_state_rejected _ _ _ H). split; [reflexivity|].
    discriminate.
Qed.

(** C5, amended: [get_terraform_state] has four kinds of result after a
    completed run.  (1) Exit 0 and stdout parses to an object whose
    [values.root_module.resources] (each level defaulting when the key is
    absent) is empty: success with count 0 and an empty address list.
    (2) Exit 0 and [json.loads] rejects stdout: the failure "Failed to
    parse Terraform state JSON" when the rejection is a [JSONDecodeError],
    the failure with [str(e)] when it is another exception.  (3) Exit 0
    and stdout parses to a value the code cannot read as a state (null, a
    list, resources that are a number): the failure with [str(e)] of the
    attribute or type error.  (4) Another exit code: the failure with the
    sanitized stderr, or "No state information available" when stderr is
    empty.  The success differs from every failure; two failures differ
    exactly when their messages differ. *)
Theorem get_terraform_state_outcomes
    (w1 w2 w3 w4 : world) (doc1 : pyval)
    (p2 : CompletedProcess) (e2 : exc)
    (doc3 : pyval) (e3 : exc) (p4 : CompletedProcess) :
  zero_resources w1 doc1 -> rejected w2 p2 e2 ->
  unreadable w3 doc3 e3 -> process_failure w4 p4 ->
  outcome get_terraform_state w1 =
    Return (PDict [(lit "success", PBool true);
                   (lit "resources", PInt 0);
                   (lit "resource_list", PList []);
                   (lit "state_data", doc1)]) /\
  outcome get_terraform_state w2 =
    Return (failure
              match exc_class_of e2 with
              | JSONDecodeError => lit "Failed to parse Terraform state JSON"
              | TimeoutExpired => lit "Terraform state check timed out"
              | _ => exc_str e2
              end) /\
  outcome get_terraform_state w3 = Return (failure (exc_str e3)) /\
  outcome get_terraform_state w4 =
    Return (failure (if str_truthy (stderr p4)
                     then strip_ansi_codes (stderr p4)
                     else lit "No state information available")) /\
  (outcome get_terraform_state w1 <> outcome get_terraform_state w2 /\
   outcome get_terraform_state w1 <> outcome get_terraform_state w3 /\
   outcome get_terraform_state w1 <> outcome get_terraform_state w4) /\
  (outcome get_terraform_state w2 <> outcome get_terraform_state w4 <->
   rejection_message e2 <> process_failure_message p4) /\
  (outcome get_terraform_state w3 <> outcome get_terraform_state w4 <->
   exc_str e3 <> process_failure_message p4) /\
  (outcome get_terraform_state w2 <> outcome get_terraform_state w3 <->
   rejection_message e2 <> exc_str e3).
Proof.
  intros H1 H2 H3 H4.
  rewrite (@get_terraform_state_zero_resources _ _ H1).
  rewrite (@get_terraform_state_rejected _ _ _ H2).
  rewrite (@get_terraform_state_unreadable _ _ _ H3).
  rewrite (@get_terraform_state_process_failure _ _ H4).
  fold (rejection_message e2). fold (process_failure_message p4).
  assert (Hinj : forall a b : str,
            (@Return pyval (failure a) <> Return (failure b)) <-> a <> b).
  { intros a b. split.
    - intros Hne Heq. apply Hne. now rewrite Heq.
    - intros Hne [= Heq]. now apply Hne. }
  repeat split; try discriminate; apply Hinj.
Qed.

Lemma get_terraform_state_outcomes_witness :
  let w1 := mock_world (Return {| returncode := 0; stdout := lit "{}";
                                  stderr := [] |}) true (Return (PDict [])) in
  let p2 := {| returncode := 0; stdout := lit "not json"; stderr := [] |} in
  let e2 := Exc JSONDecodeError (lit "Expecting value: line 1 column 1 (char 0)") in
  let w2 := mock_world (Return p2) true (Raise e2) in
  let e3 := Exc AttributeError (lit "'NoneType' object has no attribute 'get'") in
  let w3 := mock_world (Return {| returncode := 0; stdout := lit "null";
                                  stderr := [] |}) true (Return PNone) in
  let p4 := {| returncode := 1; stdout := [];
               stderr := ESC :: lit "[31mError: no state" |} in
  let w4 := mock_world (Return p4) true (Return PNone) in
  outcome get_terraform_state w2 =
    Return (failure (lit "Failed to parse Terraform state JSON")) /\
  outcome get_terraform_state w3 =
    Return (failure (lit "'NoneType' object has no attribute 'get'")) /\
  outcome get_terraform_state w4 = Return (failure (lit "Error: no state")) /\
  outcome get_terraform_state w2 <> outcome get_terraform_state w4.
Proof.
  intros w1 p2 e2 w2 e3 w3 p4 w4.
  assert (H1 : zero_resources w1 (PDict [])).
  { eexists _, _. repeat split. }
  assert (H2 : rejected w2 p2 e2) by (repeat split).
  assert (H3 : unreadable w3 PNone e3).
  { eexists. repeat split. }
  assert (H4 : process_failure w4 p4).
  { split; [reflexivity | discriminate]. }
  destruct (@get_terraform_state_outcomes _ _ _ _ _ _ _ _ _ _ H1 H2 H3 H4)
    as (_ & E2 & E3 & E4 & _ & Hdiff & _ & _).
  split; [exact E2|]. split; [exact E3|]. split; [exact E4|].
  apply Hdiff. discriminate.
Defined.

(** The count and the address list of a successful result. *)
Lemma rmapM_Forall2 {A B} (f : A -> result B) l l' :
  rmapM f l = Return l' -> Forall2 (fun x y => f x = Return y) l l'.
Proof.
  revert l'. induction l as [|x l IH]; simpl; intros l' H.
  - injection H as <-. constructor.
  - destruct (f x) as [y|e] eqn:Ex; [|discriminate]. simpl in H.
    destruct (rmapM f l) as [ys|e]; [|discriminate]. simpl in H.
    injection H as <-. constructor; [exact Ex | now apply IH].
Qed.

Lemma py_get_listed_address r a :
  py_get r (lit "address") (PStr (lit "Unknown")) = Return a ->
  listed_address r a.
Proof.
  destruct r; try discriminate. simpl. intros [= <-].
  eexists. split; reflexivity.
Qed.

Lemma py_len_iter res n items :
  py_len res = Return n -> py_iter res = Return items -> n = length items.
Proof.
  destruct res; try discriminate; simpl; intros [= <-] [= <-];
    now rewrite ?length_map.
Qed.

(** C10: in every successful result of [get_terraform_state] the count is
    the length of the address list, and the address list holds, in the
    order of the resources of the parsed document, the address of each
    resource, or 'Unknown' where a resource has none. *)
Theorem successful_state_lists_resources (w : world) (d : pyval) :
  outcome get_terraform_state w = Return d ->
  field "success" d = Some (PBool true) ->
  exists p doc resources items addresses,
    state_run w p /\ returncode p = 0%Z /\
    json_loads w (stdout p) = Return doc /\
    state_resources doc = Return resources /\
    py_iter resources = Return items /\
    field "resources" d = Some (PInt (Z.of_nat (length addresses))) /\
    field "resource_list" d = Some (PList addresses) /\
    length addresses = length items /\
    Forall2 listed_address items addresses.
Proof.
  intros Hd Hs.
  destruct (subprocess_run w (terraform_cmd ["show"; "-json"]%string)
                           (lit "terraform") 30) as [p|e] eqn:Hrun.
  2:{ apply get_terraform_state_try_raised in Hrun.
      apply (@guarded_raised _ _ _ _ _ (get_terraform_state_except_returns e w))
        in Hrun.
      unfold get_terraform_state in Hd.
      rewrite Hrun in Hd. injection Hd as <-. discriminate. }
  destruct (Z.eq_dec (returncode p) 0) as [Hrc|Hrc].
  2:{ rewrite (get_terraform_state_exit_nonzero _ Hrun Hrc) in Hd.
      injection Hd as <-. discriminate. }
  rewrite (get_terraform_state_exit_zero _ Hrun Hrc) in Hd.
  rewrite get_terraform_state_parse_outcome in Hd.
  assert (Hfail : forall e : exc,
            match exc_class_of e with
            | JSONDecodeError =>
                Return (failure (lit "Failed to parse Terraform state JSON"))
            | _ => Return (failure
                             (except_message "Terraform state check timed out" e))
            end = Return d -> False).
  { intros e He. destruct (exc_class_of e); injection He as <-; discriminate. }
  destruct (json_loads w (stdout p)) as [doc|e] eqn:Hdoc;
    [|now apply Hfail in Hd]. cbn [rbind] in Hd.
  destruct (state_resources doc) as [res|e] eqn:Hres;
    [|now apply Hfail in Hd]. cbn [rbind] in Hd.
  destruct (py_len res) as [n|e] eqn:Hlen;
    [|now apply Hfail in Hd]. cbn [rbind] in Hd.
  destruct (py_iter res) as [items|e] eqn:Hit;
    [|now apply Hfail in Hd]. cbn [rbind] in Hd.
  destruct (rmapM _ items) as [addrs|e] eqn:Hmap;
    [|now apply Hfail in Hd]. cbn [rbind] in Hd.
  injection Hd as <-.
  apply rmapM_Forall2 in Hmap.
  assert (Hlen' : length addrs = length items).
  { symmetry. eapply Forall2_length, Hmap. }
  exists p, doc, res, items, addrs.
  repeat (split; [first [assumption | reflexivity]|]).
  split.
  - rewrite Hlen', <- (py_len_iter _ Hlen Hit). reflexivity.
  - split; [reflexivity|]. split; [exact Hlen'|].
    eapply Forall2_impl; [|exact Hmap].
    intros r a. apply py_get_listed_address.
Qed.

Lemma successful_state_lists_resources_witness :
  let bucket := PDict [(lit "address", PStr (lit "aws_s3_bucket.demo"));
                       (lit "type", PStr (lit "aws_s3_bucket"))] in
  let nameless := PDict [(lit "type", PStr (lit "aws_instance"))] in
  let doc :=
    PDict [(lit "values",
            PDict [(lit "root_module",
                    PDict [(lit "resources", PList [bucket; nameless])])])] in
  let w := mock_world (Return {| returncode := 0; stdout := lit "{...}";
                                 stderr := [] |}) true (Return doc) in
  exists d addresses,
    outcome get_terraform_state w = Return d /\
    field "resources" d = Some (PInt (Z.of_nat (length addresses))) /\
    field "resource_list" d = Some (PList addresses) /\
    Forall2 listed_address [bucket; nameless] addresses.
Proof.
  intros bucket nameless doc w.
  destruct (@successful_state_lists_resources w
              (PDict [(lit "success", PBool true);
                      (lit "resources", PInt 2);
                      (lit "resource_list",
                       PList [PStr (lit "aws_s3_bucket.demo");
                              PStr (lit "Unknown")]);
                      (lit "state_data", doc)])
              eq_refl eq_refl)
    as (p & doc' & res & items & addrs & _ & _ & Hdoc & Hres & Hit & Hn & Hl & _ & Hall).
  injection Hdoc as <-. injection Hres as <-. injection Hit as <-.
  eexists _, addrs. split; [reflexivity|].
  split; [exact Hn|]. split; [exact Hl | exact Hall].
Defined.

(** * Further properties of the sanitizer *)

Module ReMore.
Import Re ReFacts.

(** When the rest of the pattern fails on every text that starts in the
    set, the greedy star over a run of the set gives what it gives after
    the run. *)
Lemma star_greedy_run ranges run s k :
  all_in ranges run = true ->
  (forall c s', in_ranges ranges c = true -> k (c :: s') = None) ->
  star_greedy ranges (run ++ s) k = star_greedy ranges s k.
Proof.
  intros Hrun Hk. induction run as [|c run IH]; [reflexivity|].
  cbn [all_in forallb] in Hrun. apply andb_true_iff in Hrun.
  destruct Hrun as [Hc Hrun]. cbn [app star_greedy]. rewrite Hc.
  rewrite (IH Hrun).
  destruct (star_greedy ranges s k) eqn:E; [reflexivity|].
  now apply Hk.
Qed.

Lemma star_greedy_stop ranges s k :
  starts_outside ranges s = true -> star_greedy ranges s k = k s.
Proof.
  destruct s as [|c s]; [reflexivity|]. cbn [starts_outside star_greedy].
  now destruct (in_ranges ranges c).
Qed.

(** Skipping exactly the matched prefix resumes the scan after it. *)
Lemma sub_from_skip r pre rest :
  sub_from r (length pre) (pre ++ rest) = sub_from r 0 rest.
Proof. induction pre as [|c pre IH]; [reflexivity | exact IH]. Qed.

Lemma sub_match_prefix r c pre rest :
  match_at r (c :: pre ++ rest) = Some rest ->
  sub r (c :: pre ++ rest) = sub r rest.
Proof.
  intros H. unfold sub. cbn [sub_from]. rewrite H.
  replace (length (c :: pre ++ rest) - length rest) with (S (length pre))
    by (cbn [length]; rewrite length_app; lia).
  apply sub_from_skip.
Qed.

Lemma sub_shortens_by r k s :
  1 <= k ->
  (forall t rest, match_at r t = Some rest -> length rest + k <= length t) ->
  matches_somewhere r s = true -> length (sub r s) + k <= length s.
Proof.
  intros Hk Hne. unfold sub.
  induction s as [|c s IH]; cbn [sub_from matches_somewhere]; [discriminate|].
  destruct (match_at r (c :: s)) as [rest|] eqn:E.
  - intros _. apply Hne in E.
    destruct (length (c :: s) - length rest) as [|n] eqn:En; [lia|].
    pose proof (sub_from_subseq r s n) as Hs. apply subseq_length in Hs.
    assert (Hn : length (sub_from r n s) <= length rest).
    { clear IH Hs. cbn [length] in En, E.
      assert (Hlen : n <= length s) by lia.
      assert (Hr : length rest = length s - n) by lia.
      rewrite Hr. clear E En Hr rest.
      revert n Hlen. induction s as [|d s IHs]; intros n Hn.
      - cbn. lia.
      - destruct n as [|n].
        + pose proof (sub_from_subseq r (d :: s) 0) as H0.
          apply subseq_length in H0. lia.
        + cbn [sub_from length]. cbn [length] in Hn.
          specialize (IHs n ltac:(lia)). lia. }
    lia.
  - intros H. specialize (IH H). cbn [length]. lia.
Qed.

End ReMore.

Ltac ranges_lia :=
  unfold csi_param, csi_intermediate, csi_final, esc_two_byte, ESC in *;
  cbv [Re.in_ranges existsb fst snd] in *;
  repeat match goal with
         | H : negb _ = true |- _ => apply negb_true_iff in H
         | |- negb _ = true => apply negb_true_iff
         end;
  rewrite ?orb_false_r in *;
  repeat match goal with
         | H : (_ || _)%bool = true |- _ => apply orb_true_iff in H; destruct H
         | H : (_ || _)%bool = false |- _ => apply orb_false_iff in H; destruct H
         | H : (_ && _)%bool = true |- _ => apply andb_true_iff in H; destruct H
         | H : (_ <=? _)%N = true |- _ => apply N.leb_le in H
         | H : (_ =? _)%N = true |- _ => apply N.eqb_eq in H
         | H : (_ =? _)%N = false |- _ => apply N.eqb_neq in H
         end;
  repeat match goal with
         | H : (_ && _)%bool = false |- _ =>
             apply andb_false_iff in H; destruct H
         | H : (_ <=? _)%N = false |- _ => apply N.leb_gt in H
         end;
  try lia;
  repeat match goal with
         | |- (_ || _)%bool = false => apply orb_false_iff; split
         | |- (_ && _)%bool = false =>
             apply andb_false_iff;
             first [ left; apply N.leb_gt; lia | right; apply N.leb_gt; lia ]
         | |- (_ =? _)%N = false => apply N.eqb_neq; lia
         end.

(** Text without ESC in front of the rest is copied and the scan goes on
    behind it. *)
Lemma strip_plain_prefix plain s :
  no_esc plain = true ->
  strip_ansi_codes (plain ++ s) = plain ++ strip_ansi_codes s.
Proof.
  intros H. induction plain as [|c plain IH]; [reflexivity|].
  cbn [no_esc forallb] in H. apply andb_true_iff in H. destruct H as [Hc Hp].
  unfold strip_ansi_codes, Re.sub in *. cbn [app Re.sub_from].
  rewrite ansi_escape_needs_esc.
  - f_equal. now apply IH.
  - intros ->. discriminate.
Qed.

(** What the pattern does on ESC [ followed by parameter and intermediate
    bytes: it matches exactly when a final byte comes next. *)
Lemma ansi_escape_csi params inters t :
  all_in csi_param params = true ->
  all_in csi_intermediate inters = true ->
  starts_outside csi_param t = true ->
  starts_outside csi_intermediate t = true ->
  Re.match_at ansi_escape (ESC :: 0x5B%N :: params ++ inters ++ t) =
  match t with
  | f :: rest => if Re.in_ranges csi_final f then Some rest else None
  | [] => None
  end.
Proof.
  intros Hp Hi Htp Hti.
  unfold Re.match_at, ansi_escape. cbn [Re.rmatch].
  change (ESC =? 27)%N with true. cbv iota.
  change (Re.in_ranges [(64, 90); (92, 95)] 91)%N with false. cbv iota.
  change (91 =? 91)%N with true. cbv iota.
  change [(48, 63)]%N with csi_param.
  change [(32, 47)]%N with csi_intermediate.
  change [(64, 126)]%N with csi_final.
  rewrite ReMore.star_greedy_run; [|exact Hp|].
  2:{ intros c s' Hc. cbn [Re.star_greedy].
      assert (Hn : Re.in_ranges csi_intermediate c = false) by ranges_lia.
      rewrite Hn.
      assert (Hf : Re.in_ranges csi_final c = false) by ranges_lia.
      now rewrite Hf. }
  rewrite ReMore.star_greedy_stop.
  2:{ destruct inters as [|i inters]; [exact Htp|].
      cbn [app starts_outside]. cbn [all_in forallb] in Hi.
      apply andb_true_iff in Hi. destruct Hi as [Hi _]. ranges_lia. }
  rewrite ReMore.star_greedy_run; [|exact Hi|].
  2:{ intros c s' Hc.
      assert (Hf : Re.in_ranges csi_final c = false) by ranges_lia.
      now rewrite Hf. }
  rewrite ReMore.star_greedy_stop by exact Hti.
  destruct t as [|f rest]; reflexivity.
Qed.

Lemma all_in_no_esc ranges s :
  (forall c, Re.in_ranges ranges c = true -> c <> ESC) ->
  all_in ranges s = true -> no_esc s = true.
Proof.
  intros Hr. induction s as [|c s IH]; [reflexivity|].
  cbn [all_in no_esc forallb]. intros H. apply andb_true_iff in H.
  destruct H as [Hc Hs]. apply andb_true_iff. split; [|now apply IH].
  apply negb_true_iff, N.eqb_neq. now apply Hr.
Qed.

Lemma no_esc_app a b : no_esc a = true -> no_esc b = true -> no_esc (a ++ b) = true.
Proof. unfold no_esc. rewrite forallb_app. now intros -> ->. Qed.

(** A match of [ansi_escape] takes at least two characters. *)
Lemma ansi_escape_two_chars t rest :
  Re.match_at ansi_escape t = Some rest -> length rest + 2 <= length t.
Proof.
  destruct t as [|c t]; [discriminate|].
  unfold Re.match_at, ansi_escape. cbn [Re.rmatch].
  destruct (c =? 27)%N; [|discriminate].
  destruct t as [|d t]; [discriminate|].
  destruct (Re.in_ranges _ d).
  - intros [= <-]. cbn [length]. lia.
  - destruct (d =? 91)%N; [|discriminate]. intros H.
    apply ReFacts.star_greedy_length in H. destruct H as (x & Hx & L).
    apply ReFacts.star_greedy_length in Hx. destruct Hx as (y & Hy & L').
    destruct y as [|f y]; [discriminate|].
    destruct (Re.in_ranges _ f); [|discriminate].
    injection Hy as <-. cbn [length] in *. lia.
Qed.

(** X1: a complete CSI sequence (ESC, '[', parameter bytes, intermediate
    bytes, one final byte) is removed whole, whatever its length; the text
    without ESC in front of it is kept and the scan goes on behind it. *)
Theorem strip_removes_csi_sequence (plain params inters : str) (f : N) (rest : str) :
  no_esc plain = true ->
  all_in csi_param params = true ->
  all_in csi_intermediate inters = true ->
  Re.in_ranges csi_final f = true ->
  strip_ansi_codes (plain ++ ESC :: 0x5B%N :: params ++ inters ++ f :: rest)
  = plain ++ strip_ansi_codes rest.
Proof.
  intros Hplain Hp Hi Hf. rewrite strip_plain_prefix by exact Hplain. f_equal.
  unfold strip_ansi_codes.
  replace (ESC :: 0x5B%N :: params ++ inters ++ f :: rest)
    with (ESC :: (0x5B%N :: params ++ inters ++ [f]) ++ rest)
    by (cbn [app]; now rewrite <- !app_assoc).
  apply ReMore.sub_match_prefix.
  replace (ESC :: (0x5B%N :: params ++ inters ++ [f]) ++ rest)
    with (ESC :: 0x5B%N :: params ++ inters ++ f :: rest)
    by (cbn [app]; now rewrite <- !app_assoc).
  rewrite ansi_escape_csi; try assumption.
  - now rewrite Hf.
  - cbn [starts_outside]. ranges_lia.
  - cbn [starts_outside]. ranges_lia.
Qed.

Lemma strip_removes_csi_sequence_witness :
  strip_ansi_codes (lit "Plan: " ++ ESC :: 0x5B%N :: lit "1;32" ++ [] ++ 0x6D%N :: lit "2 to add")
  = lit "Plan: " ++ strip_ansi_codes (lit "2 to add").
Proof.
  apply strip_removes_csi_sequence; reflexivity.
Defined.

(** X2: a two-byte escape (ESC and one byte of [@-Z] or [\-_]) is removed
    whole. *)
Theorem strip_removes_two_byte_escape (plain : str) (c : N) (rest : str) :
  no_esc plain = true ->
  Re.in_ranges esc_two_byte c = true ->
  strip_ansi_codes (plain ++ ESC :: c :: rest) = plain ++ strip_ansi_codes rest.
Proof.
  intros Hplain Hc. rewrite strip_plain_prefix by exact Hplain. f_equal.
  unfold strip_ansi_codes.
  apply (@ReMore.sub_match_prefix ansi_escape ESC [c] rest).
  unfold Re.match_at, ansi_escape. cbn [Re.rmatch app].
  change (ESC =? 27)%N with true. cbv iota.
  change [(64, 90); (92, 95)]%N with esc_two_byte. now rewrite Hc.
Qed.

Lemma strip_removes_two_byte_escape_witness :
  strip_ansi_codes (lit "a" ++ ESC :: 0x4D%N :: lit "b")
  = lit "a" ++ strip_ansi_codes (lit "b").
Proof. apply strip_removes_two_byte_escape; reflexivity. Defined.

(** X3: an escape that is not complete stays in the text.  ESC '[' with
    parameter and intermediate bytes but no final byte (the text ends, or
    a character outside 0x20..0x7E follows) is copied as it is; so is an
    ESC followed by a character that introduces nothing, and an ESC at the
    end of the text. *)
Theorem strip_keeps_incomplete_escape (params inters t : str) (c : N) :
  (all_in csi_param params = true ->
   all_in csi_intermediate inters = true ->
   starts_outside [(0x20, 0x7E)]%N t = true ->
   strip_ansi_codes (ESC :: 0x5B%N :: params ++ inters ++ t)
   = ESC :: 0x5B%N :: params ++ inters ++ strip_ansi_codes t) /\
  (Re.in_ranges esc_two_byte c = false -> c <> 0x5B%N ->
   strip_ansi_codes (ESC :: c :: t) = ESC :: strip_ansi_codes (c :: t)) /\
  strip_ansi_codes [ESC] = [ESC].
Proof.
  split; [|split; [|reflexivity]].
  - intros Hp Hi Ht.
    assert (Hm : Re.match_at ansi_escape (ESC :: 0x5B%N :: params ++ inters ++ t)
                 = None).
    { rewrite ansi_escape_csi; try assumption.
      - destruct t as [|f rest]; [reflexivity|].
        cbn [starts_outside] in Ht.
        assert (Hf : Re.in_ranges csi_final f = false) by ranges_lia.
        now rewrite Hf.
      - destruct t as [|f rest]; [reflexivity|].
        cbn [starts_outside] in *. ranges_lia.
      - destruct t as [|f rest]; [reflexivity|].
        cbn [starts_outside] in *. ranges_lia. }
    unfold strip_ansi_codes, Re.sub. cbn [Re.sub_from]. rewrite Hm. f_equal.
    change (strip_ansi_codes (0x5B%N :: params ++ inters ++ t)
            = 0x5B%N :: params ++ inters ++ strip_ansi_codes t).
    replace (0x5B%N :: params ++ inters ++ t)
      with ((0x5B%N :: params ++ inters) ++ t)
      by (cbn [app]; now rewrite <- app_assoc).
    replace (0x5B%N :: params ++ inters ++ strip_ansi_codes t)
      with ((0x5B%N :: params ++ inters) ++ strip_ansi_codes t)
      by (cbn [app]; now rewrite <- app_assoc).
    apply strip_plain_prefix.
    apply (@no_esc_app [0x5B%N]); [reflexivity|].
    apply no_esc_app.
    + apply (@all_in_no_esc csi_param); [|exact Hp].
      intros x Hx ->. discriminate.
    + apply (@all_in_no_esc csi_intermediate); [|exact Hi].
      intros x Hx ->. discriminate.
  - intros Hc Hb.
    unfold strip_ansi_codes, Re.sub. cbn [Re.sub_from].
    assert (Hm : Re.match_at ansi_escape (ESC :: c :: t) = None).
    { unfold Re.match_at, ansi_escape. cbn [Re.rmatch].
      change (ESC =? 27)%N with true. cbv iota.
      change [(64, 90); (92, 95)]%N with esc_two_byte. rewrite Hc.
      apply N.eqb_neq in Hb. now rewrite Hb. }
    now rewrite Hm.
Qed.

Lemma strip_keeps_incomplete_escape_witness :
  strip_ansi_codes (ESC :: 0x5B%N :: lit "31" ++ [] ++ [10%N])
  = ESC :: 0x5B%N :: lit "31" ++ [] ++ strip_ansi_codes [10%N].
Proof.
  apply (proj1 (strip_keeps_incomplete_escape (lit "31") [] [10%N] 0%N));
    reflexivity.
Defined.

(** X4: [strip_ansi_codes] returns its input unchanged exactly when the
    input contains no complete escape sequence; otherwise the result is at
    least two characters shorter. *)
Theorem strip_unchanged_iff_no_sequence (x : str) :
  (strip_ansi_codes x = x <-> matches_somewhere ansi_escape x = false) /\
  (matches_somewhere ansi_escape x = true ->
   length (strip_ansi_codes x) + 2 <= length x).
Proof.
  assert (Hshort : matches_somewhere ansi_escape x = true ->
                   length (strip_ansi_codes x) + 2 <= length x).
  { apply ReMore.sub_shortens_by; [lia | exact ansi_escape_two_chars]. }
  split; [|exact Hshort]. split.
  - intros H. destruct (matches_somewhere ansi_escape x); [|reflexivity].
    specialize (Hshort eq_refl). rewrite H in Hshort. lia.
  - apply ReFacts.sub_no_match.
Qed.

Lemma strip_unchanged_iff_no_sequence_witness :
  let x := lit "ok" ++ ESC :: lit "[0m" in
  length (strip_ansi_codes x) + 2 <= length x.
Proof.
  intros x. apply (proj2 (strip_unchanged_iff_no_sequence x)). reflexivity.
Defined.

(** X5: when every ESC of the input starts a complete escape sequence, the
    sanitized text contains no ESC at all. *)
Theorem strip_leaves_no_esc (x : str) :
  every_esc_starts_seq x = true -> no_esc (strip_ansi_codes x) = true.
Proof. intros H. now apply strip_removes_every_esc. Qed.

Lemma strip_leaves_no_esc_witness :
  no_esc (strip_ansi_codes (ESC :: lit "[31mred" ++ ESC :: lit "[0m")) = true.
Proof. apply strip_leaves_no_esc. reflexivity. Defined.

(** X6: sanitizing again and again settles: some number of passes, at most
    half the length of the text, gives a text that a further pass leaves
    as it is. *)
Theorem strip_passes_settle (x : str) :
  exists n,
    2 * n <= length x /\
    strip_ansi_codes (strip_passes n x) = strip_passes n x.
Proof.
  remember (length x) as m eqn:Hm.
  assert (Hle : length x <= m) by lia. clear Hm.
  revert x Hle. induction m as [m IH] using lt_wf_ind. intros x Hle.
  destruct (matches_somewhere ansi_escape x) eqn:E.
  - pose proof (proj2 (strip_unchanged_iff_no_sequence x) E) as Hs.
    destruct (IH (length (strip_ansi_codes x)) ltac:(lia)
                 (strip_ansi_codes x) (le_n _)) as (n & Hn & Hfix).
    exists (S n). split; [lia|].
    unfold strip_passes in *. rewrite Nat.iter_succ_r. exact Hfix.
  - exists 0. split; [lia|]. now apply ReFacts.sub_no_match.
Qed.

(** * Further properties of the orchestrator *)

Lemma get_terraform_outputs_exit_nonzero w p :
  outputs_run w p ->
  returncode p <> 0%Z ->
  outcome get_terraform_outputs w =
  Return (failure (if str_truthy (stderr p)
                   then strip_ansi_codes (stderr p)
                   else lit "No outputs available")).
Proof.
  unfold outputs_run. intros Hrun Hrc. apply Z.eqb_neq in Hrc. revert Hrun.
  py_eval. intros ->. rewrite Hrc. reflexivity.
Qed.

(** X7: [get_terraform_outputs] never raises; it reports success exactly
    when the process exits 0 and its stdout parses, and then hands back
    the parsed value as it is, whatever its shape; after a nonzero exit it
    reports the sanitized stderr, or "No outputs available" when stderr is
    empty. *)
Theorem get_terraform_outputs_contract (w : world) :
  exists d,
    outcome get_terraform_outputs w = Return d /\
    (field "success" d = Some (PBool true) <->
     exists p doc, outputs_run w p /\ returncode p = 0%Z /\
                   json_loads w (stdout p) = Return doc) /\
    (forall p doc, outputs_run w p -> returncode p = 0%Z ->
                   json_loads w (stdout p) = Return doc ->
                   d = PDict [(lit "success", PBool true); (lit "outputs", doc)]) /\
    (forall p, outputs_run w p -> returncode p <> 0%Z ->
               d = failure (if str_truthy (stderr p)
                            then strip_ansi_codes (stderr p)
                            else lit "No outputs available")).
Proof.
  unfold outputs_run.
  destruct (subprocess_run w (terraform_cmd ["output"; "-json"]%string)
                           (lit "terraform") 30) as [p|e] eqn:Hrun.
  - destruct (Z.eq_dec (returncode p) 0) as [Hrc|Hrc].
    + rewrite (get_terraform_outputs_exit_zero _ Hrun Hrc).
      destruct (json_loads w (stdout p)) as [doc|e] eqn:Hdoc.
      * eexists. split; [reflexivity|]. split; [|split].
        -- split; [intros _; exists p, doc; auto | reflexivity].
        -- intros q doc' [= <-] _ Hq. rewrite Hdoc in Hq. now injection Hq as <-.
        -- intros q [= <-] Hq. contradiction.
      * assert (Hf : exists msg,
                  match exc_class_of e with
                  | JSONDecodeError =>
                      Return (failure (lit "Failed to parse Terraform outputs JSON"))
                  | _ => Return (failure (except_message
                                    "Terraform outputs check timed out" e))
                  end = Return (failure msg)).
        { destruct (exc_class_of e); eexists; reflexivity. }
        destruct Hf as (msg & ->).
        eexists. split; [reflexivity|]. split; [|split].
        -- split; [discriminate|].
           intros (q & doc & [= <-] & _ & Hq). rewrite Hdoc in Hq. discriminate.
        -- intros q doc [= <-] _ Hq. rewrite Hdoc in Hq. discriminate.
        -- intros q [= <-] Hq. contradiction.
    + rewrite (get_terraform_outputs_exit_nonzero Hrun Hrc).
      eexists. split; [reflexivity|]. split; [|split].
      * split; [discriminate|]. intros (q & doc & [= <-] & Hq & _). contradiction.
      * intros q doc [= <-] Hq. contradiction.
      * intros q [= <-] _. reflexivity.
  - apply get_terraform_outputs_try_raised in Hrun.
    apply (@guarded_raised _ _ _ _ _ (get_terraform_outputs_except_returns e w))
      in Hrun.
    unfold get_terraform_outputs. rewrite Hrun.
    eexists. split; [reflexivity|]. split; [|split].
    + split; [discriminate|]. intros (q & doc & [=] & _).
    + intros q doc [=].
    + intros q [=].
Qed.

Lemma get_terraform_outputs_contract_witness :
  let doc := PDict [(lit "aws_region",
                     PDict [(lit "sensitive", PBool false);
                            (lit "value", PStr (lit "ap-southeast-1"))])] in
  let w := mock_world (Return {| returncode := 0; stdout := lit "{...}";
                                 stderr := [] |}) true (Return doc) in
  outcome get_terraform_outputs w
  = Return (PDict [(lit "success", PBool true); (lit "outputs", doc)]).
Proof.
  intros doc w.
  destruct (get_terraform_outputs_contract w) as (d & Hd & _ & Hok & _).
  rewrite Hd. f_equal. eapply Hok; reflexivity.
Defined.

Lemma rmapM_addresses rs :
  forallb is_dict rs = true ->
  rmapM (fun r => py_get r (lit "address") (PStr (lit "Unknown"))) rs
  = Return (map address_or_unknown rs).
Proof.
  induction rs as [|r rs IH]; [reflexivity|].
  cbn [forallb]. intros H. apply andb_true_iff in H. destruct H as [Hr Hrs].
  cbn [rmapM map]. rewrite (IH Hrs).
  destruct r; try discriminate. reflexivity.
Qed.

(** X8: for a document whose resources are a list of objects,
    [get_terraform_state] succeeds: the count is the number of resources,
    the address list holds the address of each resource in order
    ('Unknown' where there is none) and the parsed document is handed back
    unchanged. *)
Theorem get_terraform_state_lists_every_resource
    (w : world) (p : CompletedProcess) (doc : pyval) (rs : list pyval) :
  state_run w p -> returncode p = 0%Z ->
  json_loads w (stdout p) = Return doc ->
  state_resources doc = Return (PList rs) ->
  forallb is_dict rs = true ->
  outcome get_terraform_state w =
  Return (PDict [(lit "success", PBool true);
                 (lit "resources", PInt (Z.of_nat (length rs)));
                 (lit "resource_list", PList (map address_or_unknown rs));
                 (lit "state_data", doc)]).
Proof.
  intros Hrun Hrc Hdoc Hres Hrs.
  rewrite (get_terraform_state_exit_zero _ Hrun Hrc).
  rewrite get_terraform_state_parse_outcome, Hdoc. cbn [rbind].
  rewrite Hres. cbn [rbind py_len py_iter].
  rewrite (rmapM_addresses _ Hrs). reflexivity.
Qed.

Lemma get_terraform_state_lists_every_resource_witness :
  let bucket := PDict [(lit "address", PStr (lit "aws_s3_bucket.demo"))] in
  let nameless := PDict [(lit "type", PStr (lit "aws_instance"))] in
  let doc :=
    PDict [(lit "values",
            PDict [(lit "root_module",
                    PDict [(lit "resources", PList [bucket; nameless])])])] in
  let p := {| returncode := 0; stdout := lit "{...}"; stderr := [] |} in
  let w := mock_world (Return p) true (Return doc) in
  outcome get_terraform_state w =
  Return (PDict [(lit "success", PBool true);
                 (lit "resources", PInt 2);
                 (lit "resource_list",
                  PList [PStr (lit "aws_s3_bucket.demo"); PStr (lit "Unknown")]);
                 (lit "state_data", doc)]).
Proof.
  intros bucket nameless doc p w.
  apply (@get_terraform_state_lists_every_resource w p doc [bucket; nameless]);
    reflexivity.
Defined.

(** X9: text that parses, but not to an object, is no parse failure: the
    attribute error of the first [.get] reaches the outer handler, and the
    result is the failure with the text of that error. *)
Theorem get_terraform_state_rejects_non_object
    (w : world) (p : CompletedProcess) (doc : pyval) :
  state_run w p -> returncode p = 0%Z ->
  json_loads w (stdout p) = Return doc ->
  is_dict doc = false ->
  outcome get_terraform_state w =
  Return (failure (lit "'" ++ type_name doc
                   ++ lit "' object has no attribute 'get'")).
Proof.
  intros Hrun Hrc Hdoc Hnd.
  rewrite (get_terraform_state_exit_zero _ Hrun Hrc).
  rewrite get_terraform_state_parse_outcome, Hdoc. cbn [rbind].
  destruct doc; try discriminate; reflexivity.
Qed.

Lemma get_terraform_state_rejects_non_object_witness :
  let p := {| returncode := 0; stdout := lit "[]"; stderr := [] |} in
  let w := mock_world (Return p) true (Return (PList [])) in
  outcome get_terraform_state w =
  Return (failure (lit "'list' object has no attribute 'get'")).
Proof.
  intros p w.
  apply (@get_terraform_state_rejects_non_object w p (PList [])); reflexivity.
Defined.

(** X10: the availability check runs [terraform version] once and looks
    for [terraform/.terraform] only after that command exited 0; after a
    nonzero exit or an exception the file system is not consulted. *)
Theorem get_terraform_status_events (w : world) :
  trace get_terraform_status w =
  SubprocessRun (terraform_cmd ["version"]%string) (lit "terraform") 10 ::
  match subprocess_run w (terraform_cmd ["version"]%string) (lit "terraform") 10
  with
  | Return p =>
      if (returncode p =? 0)%Z
      then [PathExists (lit "terraform/.terraform")]
      else []
  | Raise _ => []
  end.
Proof.
  py_eval.
  destruct (subprocess_run w _ _ _) as [p|e].
  - destruct (returncode p =? 0)%Z; reflexivity.
  - destruct (exc_class_of e); reflexivity.
Qed.

Ltac handled e :=
  let Ec := fresh "Ec" in
  destruct (exc_class_of e) eqn:Ec; cbv beta iota zeta; rewrite ?Ec;
  reflexivity.

(** X11: plan, apply and destroy write one log line and run their command
    once; the state and outputs queries run their command once; whatever
    the outcome, nothing is run twice and nothing else is done. *)
Theorem operations_run_one_command (w : world) :
  trace terraform_plan w =
    [LogInfo (lit "Running terraform plan...");
     SubprocessRun (terraform_cmd ["plan"; "-out=tfplan"]%string)
                   (lit "terraform") 120] /\
  trace terraform_apply w =
    [LogInfo (lit "Running terraform apply...");
     SubprocessRun (terraform_cmd ["apply"; "-auto-approve"; "tfplan"]%string)
                   (lit "terraform") 600] /\
  trace terraform_destroy w =
    [LogInfo (lit "Running terraform destroy...");
     SubprocessRun (terraform_cmd ["destroy"; "-auto-approve"]%string)
                   (lit "terraform") 600] /\
  trace get_terraform_state w =
    [SubprocessRun (terraform_cmd ["show"; "-json"]%string) (lit "terraform") 30] /\
  trace get_terraform_outputs w =
    [SubprocessRun (terraform_cmd ["output"; "-json"]%string)
                   (lit "terraform") 30].
Proof.
  repeat split; py_eval.
  - destruct (subprocess_run w _ _ _) as [p|e]; [reflexivity|].
    handled e.
  - destruct (subprocess_run w _ _ _) as [p|e]; [reflexivity|].
    handled e.
  - destruct (subprocess_run w _ _ _) as [p|e]; [reflexivity|].
    handled e.
  - destruct (subprocess_run w _ _ _) as [p|e].
    + destruct (returncode p =? 0)%Z; [|reflexivity]. cbv beta.
      destruct (json_loads w (stdout p)) as [doc|e].
      * destruct (py_get doc (lit "values") (PDict [])) as [v|e].
        -- destruct (py_get v (lit "root_module") (PDict [])) as [m|e].
           ++ destruct (py_get m (lit "resources") (PList [])) as [res|e].
              ** destruct (py_len res) as [n|e].
                 --- destruct (py_iter res) as [items|e].
                     +++ destruct (rmapM _ items) as [l|e]; [reflexivity|].
                         handled e.
                     +++ handled e.
                 --- handled e.
              ** handled e.
           ++ handled e.
        -- handled e.
      * handled e.
    + handled e.
  - destruct (subprocess_run w _ _ _) as [p|e].
    + destruct (returncode p =? 0)%Z; [|reflexivity]. cbv beta.
      destruct (json_loads w (stdout p)) as [doc|e]; [reflexivity|].
      handled e.
    + handled e.
Qed.

(** * The AWS modules *)

Unset Implicit Arguments.

Ltac aws_eval :=
  cbv [Aws.value Aws.events Aws.list_ec2_instances Aws.list_s3_buckets
       Aws.get_resource_summary Aws.get_ec2_instances_by_state
       Aws.list_available_log_groups Aws.get_boto3_client
       Aws.try_except Aws.bind Aws.ret Aws.lift Aws.log client_for fst snd].

Lemma aws_value_try_except {A} (m : Aws.aws A) h w :
  Aws.value (Aws.try_except m h) w =
  match Aws.value m w with
  | Return a => Return a
  | Raise e => Aws.value (h e) w
  end.
Proof.
  unfold Aws.value, Aws.try_except. destruct (m w) as [t [a|e]]; cbn [snd];
    [reflexivity|].
  destruct (h e w); reflexivity.
Qed.

Lemma aws_value_bind {A B} (m : Aws.aws A) (f : A -> Aws.aws B) w :
  Aws.value (Aws.bind m f) w =
  match Aws.value m w with
  | Return a => Aws.value (f a) w
  | Raise e => Raise e
  end.
Proof.
  unfold Aws.value, Aws.bind. destruct (m w) as [t [a|e]]; cbn [snd];
    [|reflexivity].
  destruct (f a w); reflexivity.
Qed.

(** ** [list_ec2_instances] *)

Lemma for_instances_returns fmt l : forall acc out,
  Aws.for_instances fmt l acc = Return out ->
  exists rows,
    out = acc ++ rows /\
    Forall2 (fun i r => Aws.instance_row fmt i = Return r) l rows.
Proof.
  induction l as [|i l IH]; cbn [Aws.for_instances]; intros acc out H.
  - injection H as <-. exists []. split; [now rewrite app_nil_r | constructor].
  - destruct (Aws.instance_row fmt i) as [r|e] eqn:Ei; [|discriminate].
    cbn [rbind] in H. apply IH in H. destruct H as (rows & -> & Hall).
    exists (r :: rows). split; [now rewrite <- app_assoc|].
    now constructor.
Qed.

Lemma for_instances_raises fmt l : forall acc e,
  Aws.for_instances fmt l acc = Raise e ->
  exists i, In i l /\ Aws.instance_row fmt i = Raise e.
Proof.
  induction l as [|i l IH]; cbn [Aws.for_instances]; intros acc e H;
    [discriminate|].
  destruct (Aws.instance_row fmt i) as [r|e'] eqn:Ei; cbn [rbind] in H.
  - apply IH in H. destruct H as (j & Hj & Hr). exists j. split; [now right|].
    exact Hr.
  - injection H as ->. exists i. split; [now left | exact Ei].
Qed.

Lemma for_instances_complete fmt l : forall acc rows,
  Forall2 (fun i r => Aws.instance_row fmt i = Return r) l rows ->
  Aws.for_instances fmt l acc = Return (acc ++ rows).
Proof.
  induction l as [|i l IH]; intros acc rows H; inversion H; subst;
    cbn [Aws.for_instances].
  - now rewrite app_nil_r.
  - rewrite H2. cbn [rbind]. rewrite (IH _ _ H4). now rewrite <- app_assoc.
Qed.

Lemma for_reservations_returns fmt rs : forall acc out,
  Aws.for_reservations fmt rs acc = Return out ->
  exists insts rows,
    all_instances rs = Some insts /\
    out = acc ++ rows /\
    Forall2 (fun i r => Aws.instance_row fmt i = Return r) insts rows.
Proof.
  induction rs as [|r rs IH]; cbn [Aws.for_reservations all_instances];
    intros acc out H.
  - injection H as <-. exists [], []. rewrite app_nil_r. repeat split.
    constructor.
  - destruct (Aws.Instances r) as [insts|]; [|discriminate].
    cbn [Aws.subscript rbind] in H.
    destruct (Aws.for_instances fmt insts acc) as [acc'|e] eqn:Ei;
      [|discriminate].
    cbn [rbind] in H. apply for_instances_returns in Ei.
    destruct Ei as (rows1 & -> & H1).
    apply IH in H. destruct H as (more & rows2 & -> & -> & H2).
    exists (insts ++ more), (rows1 ++ rows2).
    split; [reflexivity|]. split; [now rewrite app_assoc|].
    now apply Forall2_app.
Qed.

Lemma for_reservations_complete fmt rs : forall acc insts rows,
  all_instances rs = Some insts ->
  Forall2 (fun i r => Aws.instance_row fmt i = Return r) insts rows ->
  Aws.for_reservations fmt rs acc = Return (acc ++ rows).
Proof.
  induction rs as [|r rs IH]; cbn [Aws.for_reservations all_instances];
    intros acc insts rows Hall H.
  - injection Hall as <-. inversion H. now rewrite app_nil_r.
  - destruct (Aws.Instances r) as [insts1|]; [|discriminate].
    destruct (all_instances rs) as [more|]; [|discriminate].
    injection Hall as <-.
    apply Forall2_app_inv_l in H. destruct H as (rows1 & rows2 & H1 & H2 & ->).
    cbn [Aws.subscript rbind].
    rewrite (for_instances_complete _ _ _ _ H1). cbn [rbind].
    rewrite (IH _ _ _ eq_refl H2). now rewrite app_assoc.
Qed.

(** A row made from an instance has the eight keys of the table and no
    "Error" key. *)
Lemma instance_row_keys fmt i r :
  Aws.instance_row fmt i = Return r ->
  Aws.has_key "Error" r = false /\
  exists state, Aws.row_get (lit "State") r = Some state /\
                exists st, Aws.State i = Some st /\ Aws.state_Name st = Some state.
Proof.
  unfold Aws.instance_row.
  destruct (match Aws.Tags i with
            | Some tags => Aws.name_from_tags tags (lit "N/A")
            | None => Return (lit "N/A")
            end) as [n|e]; [|discriminate].
  destruct (Aws.InstanceId i); [|discriminate].
  destruct (Aws.InstanceType i); [|discriminate].
  destruct (Aws.State i) as [st|]; [|discriminate].
  cbn [rbind Aws.subscript].
  destruct (Aws.state_Name st) as [state|] eqn:Es; [|discriminate].
  destruct (Aws.Placement i) as [pl|]; [|discriminate].
  cbn [rbind Aws.subscript].
  destruct (Aws.AvailabilityZone pl); [|discriminate].
  cbn [rbind Aws.subscript]. intros [= <-]. split; [reflexivity|].
  exists state. split; [reflexivity|]. exists st. auto.
Qed.

(** The value of [list_ec2_instances]: the rows, or the error row for the
    first exception. *)
Lemma list_ec2_instances_value w :
  Aws.value Aws.list_ec2_instances w =
  Return
    match
      rbind (Aws.boto3_client w (client_for w "ec2")) (fun _ =>
      rbind (Aws.describe_instances w (client_for w "ec2")) (fun response =>
      rbind (Aws.subscript (Aws.Reservations response) "Reservations") (fun rs =>
      Aws.for_reservations (Aws.strftime w) rs [])))
    with
    | Return rows => rows
    | Raise e => [error_row "Failed to retrieve EC2 instances: " (exc_str e)]
    end.
Proof.
  aws_eval.
  change {| Aws.service := lit "ec2";
            Aws.aws_access_key_id := Aws.environ w (lit "AWS_ACCESS_KEY_ID");
            Aws.aws_secret_access_key := Aws.environ w (lit "AWS_SECRET_ACCESS_KEY");
            Aws.region_name :=
              match Aws.environ w (lit "AWS_REGION") with
              | Some r => r
              | None => lit "ap-southeast-1"
              end |} with (client_for w "ec2").
  destruct (Aws.boto3_client w (client_for w "ec2")) as [u|e]; [|reflexivity].
  cbn [rbind].
  destruct (Aws.describe_instances w (client_for w "ec2")) as [resp|e];
    [|reflexivity].
  cbn [rbind].
  destruct (Aws.Reservations resp) as [rs|]; [|reflexivity].
  cbn [Aws.subscript rbind].
  destruct (Aws.for_reservations (Aws.strftime w) rs []); reflexivity.
Qed.

Lemma ec2_reservations_listing w rs :
  ec2_reservations w = Some rs ->
  rbind (Aws.boto3_client w (client_for w "ec2")) (fun _ =>
  rbind (Aws.describe_instances w (client_for w "ec2")) (fun response =>
  rbind (Aws.subscript (Aws.Reservations response) "Reservations") (fun rs =>
  Aws.for_reservations (Aws.strftime w) rs [])))
  = Aws.for_reservations (Aws.strftime w) rs [].
Proof.
  unfold ec2_reservations.
  destruct (Aws.boto3_client w _); [|discriminate].
  destruct (Aws.describe_instances w _) as [resp|]; [|discriminate].
  cbn [rbind]. now intros ->.
Qed.

Lemma no_ec2_reservations_listing w :
  ec2_reservations w = None ->
  exists e,
    rbind (Aws.boto3_client w (client_for w "ec2")) (fun _ =>
    rbind (Aws.describe_instances w (client_for w "ec2")) (fun response =>
    rbind (Aws.subscript (Aws.Reservations response) "Reservations") (fun rs =>
    Aws.for_reservations (Aws.strftime w) rs [])))
    = Raise e.
Proof.
  unfold ec2_reservations.
  destruct (Aws.boto3_client w _) as [|e]; [|now exists e].
  destruct (Aws.describe_instances w _) as [resp|e]; [|now exists e].
  cbn [rbind]. intros ->. eexists. reflexivity.
Qed.

(** X12: [list_ec2_instances] never raises, and its result is of one of
    two kinds: the single row {"Error": "Failed to retrieve EC2
    instances: ..."}; or one row per instance, in the order of the
    reservations and of the instances in them, none of which has an
    "Error" key.  So looking at the first row for "Error" tells the two
    apart. *)
Theorem list_ec2_instances_rows_or_error (w : Aws.cloud) :
  exists rows,
    Aws.value Aws.list_ec2_instances w = Return rows /\
    ((exists msg,
        rows = [error_row "Failed to retrieve EC2 instances: " msg]) \/
     (exists rs insts,
        ec2_reservations w = Some rs /\
        all_instances rs = Some insts /\
        Forall2 (fun i r => Aws.instance_row (Aws.strftime w) i = Return r)
                insts rows /\
        forallb (fun r => negb (Aws.has_key "Error" r)) rows = true)).
Proof.
  rewrite list_ec2_instances_value. eexists. split; [reflexivity|].
  destruct (ec2_reservations w) as [rs|] eqn:Ers.
  - rewrite (ec2_reservations_listing w rs Ers).
    destruct (Aws.for_reservations (Aws.strftime w) rs []) as [rows|e] eqn:E.
    + right. apply for_reservations_returns in E.
      destruct E as (insts & rows' & Hall & -> & HF).
      exists rs, insts. cbn [app]. repeat split; try assumption.
      clear - HF. induction HF as [|i r insts rows Hi _ IH]; [reflexivity|].
      cbn [forallb]. rewrite IH.
      apply instance_row_keys in Hi. destruct Hi as [-> _]. reflexivity.
    + left. now eexists.
  - destruct (no_ec2_reservations_listing w Ers) as (e & ->).
    left. now eexists.
Qed.

(** The loop over the tags returns the value of the first tag whose key
    is 'Name', or what it was given when there is none. *)
Lemma name_from_tags_first tags default name :
  Aws.name_from_tags tags default = Return name ->
  match find is_name_tag tags with
  | Some t => Aws.tag_Value t = Some name
  | None => name = default
  end.
Proof.
  induction tags as [|t tags IH]; cbn [Aws.name_from_tags find].
  - now intros [= <-].
  - unfold is_name_tag at 1.
    destruct (Aws.tag_Key t) as [k|]; [|discriminate].
    cbn [Aws.subscript rbind].
    destruct (str_eqb k (lit "Name")); [|exact IH].
    destruct (Aws.tag_Value t); [|discriminate]. now intros [= <-].
Qed.

(** X13: every row made from an instance has a "Name": the value of the
    first tag whose key is 'Name', whatever tags follow it, and 'N/A' when
    the instance has no tags or no tag with that key. *)
Theorem instance_row_name (fmt : Aws.datetime -> str -> str)
    (i : Aws.instance) (r : Aws.row) :
  Aws.instance_row fmt i = Return r ->
  exists name,
    Aws.row_get (lit "Name") r = Some name /\
    match Aws.Tags i with
    | None => name = lit "N/A"
    | Some tags =>
        match find is_name_tag tags with
        | Some t => Aws.tag_Value t = Some name
        | None => name = lit "N/A"
        end
    end.
Proof.
  unfold Aws.instance_row. intros H.
  destruct (match Aws.Tags i with
            | Some tags => Aws.name_from_tags tags (lit "N/A")
            | None => Return (lit "N/A")
            end) as [n|e] eqn:Hn; [|discriminate].
  cbn [rbind] in H. exists n. split.
  - destruct (Aws.InstanceId i); [|discriminate].
    destruct (Aws.InstanceType i); [|discriminate].
    destruct (Aws.State i) as [st|]; [|discriminate].
    cbn [rbind Aws.subscript] in H.
    destruct (Aws.state_Name st); [|discriminate].
    destruct (Aws.Placement i) as [pl|]; [|discriminate].
    cbn [rbind Aws.subscript] in H.
    destruct (Aws.AvailabilityZone pl); [|discriminate].
    cbn [rbind Aws.subscript] in H. injection H as <-. reflexivity.
  - destruct (Aws.Tags i) as [tags|].
    + exact (name_from_tags_first tags (lit "N/A") n Hn).
    + now injection Hn as <-.
Qed.

Lemma instance_row_name_witness :
  let i := {| Aws.InstanceId := Some (lit "i-123456789");
              Aws.Tags := Some [full_tag (lit "env", lit "demo");
                                full_tag (lit "Name", lit "web");
                                {| Aws.tag_Key := Some (lit "x");
                                   Aws.tag_Value := None |};
                                full_tag (lit "Name", lit "second")];
              Aws.InstanceType := Some (lit "t2.micro");
              Aws.State := Some {| Aws.state_Name := Some (lit "running") |};
              Aws.Placement :=
                Some {| Aws.AvailabilityZone := Some (lit "us-east-1a") |};
              Aws.PrivateIpAddress := Some (lit "10.0.0.1");
              Aws.PublicIpAddress := None;
              Aws.LaunchTime := None |} in
  let fmt := fun (_ : Aws.datetime) (_ : str) => lit "2023-01-01 12:00:00" in
  exists r,
    Aws.instance_row fmt i = Return r /\
    Aws.row_get (lit "Name") r = Some (lit "web").
Proof.
  intros i fmt. eexists. split; [reflexivity|].
  destruct (instance_row_name fmt i _ eq_refl) as (name & Hname & Htag).
  cbn in Htag. injection Htag as <-. exact Hname.
Defined.

(** X14: the listing is all or nothing: when one instance of one
    reservation cannot be turned into a row (a key the code subscripts is
    absent), the result is the single error row and the rows of the other
    instances are lost. *)
Theorem list_ec2_instances_all_or_nothing
    (w : Aws.cloud) (rs : list Aws.reservation) (insts : list Aws.instance)
    (i : Aws.instance) (e : exc) :
  ec2_reservations w = Some rs ->
  all_instances rs = Some insts ->
  In i insts ->
  Aws.instance_row (Aws.strftime w) i = Raise e ->
  exists msg,
    Aws.value Aws.list_ec2_instances w =
    Return [error_row "Failed to retrieve EC2 instances: " msg].
Proof.
  intros Hrs Hall Hin Hi.
  rewrite list_ec2_instances_value, (ec2_reservations_listing w rs Hrs).
  destruct (Aws.for_reservations (Aws.strftime w) rs []) as [rows|e'] eqn:E.
  - exfalso. apply for_reservations_returns in E.
    destruct E as (insts' & rows' & Hall' & _ & HF).
    rewrite Hall in Hall'. injection Hall' as <-.
    clear - HF Hin Hi. induction HF as [|j r insts rows Hj _ IH]; [easy|].
    destruct Hin as [->|Hin]; [congruence | now apply IH].
  - now eexists.
Qed.

Lemma list_ec2_instances_all_or_nothing_witness :
  let good := {| Aws.InstanceId := Some (lit "i-1"); Aws.Tags := None;
                 Aws.InstanceType := Some (lit "t2.micro");
                 Aws.State := Some {| Aws.state_Name := Some (lit "running") |};
                 Aws.Placement :=
                   Some {| Aws.AvailabilityZone := Some (lit "us-east-1a") |};
                 Aws.PrivateIpAddress := None; Aws.PublicIpAddress := None;
                 Aws.LaunchTime := None |} in
  let bad := {| Aws.InstanceId := Some (lit "i-2"); Aws.Tags := None;
                Aws.InstanceType := Some (lit "t2.micro");
                Aws.State := None;
                Aws.Placement := None;
                Aws.PrivateIpAddress := None; Aws.PublicIpAddress := None;
                Aws.LaunchTime := None |} in
  let rs := [{| Aws.Instances := Some [good; bad] |}] in
  let w := {| Aws.environ := fun _ => None;
              Aws.boto3_client := fun _ => Return tt;
              Aws.describe_instances :=
                fun _ => Return {| Aws.Reservations := Some rs |};
              Aws.list_buckets := fun _ => Return {| Aws.Buckets := Some [] |};
              Aws.get_bucket_location :=
                fun _ _ => Return {| Aws.LocationConstraint := Some None |};
              Aws.describe_log_groups :=
                fun _ _ => Return {| Aws.logGroups := Some [] |};
              Aws.datetime_now := 0%Z;
              Aws.strftime := fun _ _ => lit "2023-01-01" |} in
  exists msg,
    Aws.value Aws.list_ec2_instances w =
    Return [error_row "Failed to retrieve EC2 instances: " msg].
Proof.
  intros good bad rs w.
  apply (list_ec2_instances_all_or_nothing w rs [good; bad] bad
           (Exc OtherException (lit "'State'")));
    [reflexivity | reflexivity | right; left; reflexivity | reflexivity].
Defined.

(** ** [list_s3_buckets] *)

Lemma get_boto3_client_value w (service : string) :
  Aws.value (Aws.get_boto3_client (lit service)) w =
  match Aws.boto3_client w (client_for w service) with
  | Return _ => Return (client_for w service)
  | Raise e => Raise e
  end.
Proof. reflexivity. Qed.

(** The row of a bucket that has its name and date: a failing location
    lookup only makes the region 'Unknown'. *)
Lemma bucket_row_value w nd :
  Aws.value (Aws.bucket_row (client_for w "s3") (full_bucket nd)) w =
  Return (shown_bucket w nd).
Proof.
  unfold shown_bucket, shown_region.
  cbv [Aws.value Aws.bucket_row Aws.try_except Aws.bind Aws.lift Aws.log
       full_bucket Aws.bucket_Name Aws.CreationDate Aws.subscript fst snd].
  destruct nd as [n d]. cbn [fst snd].
  destruct (Aws.get_bucket_location w (client_for w "s3") n) as [loc|e];
    [|reflexivity].
  destruct (Aws.LocationConstraint loc) as [[r|]|]; reflexivity.
Qed.

Lemma for_buckets_value w nds : forall acc,
  Aws.value (Aws.for_buckets (client_for w "s3") (map full_bucket nds) acc) w =
  Return (acc ++ map (shown_bucket w) nds).
Proof.
  induction nds as [|nd nds IH]; intros acc; cbn [map Aws.for_buckets].
  - cbn. now rewrite app_nil_r.
  - rewrite aws_value_bind, bucket_row_value, IH.
    now rewrite <- app_assoc.
Qed.

(** X15: a failure while looking up one bucket does not fail the listing.
    When the buckets have their name and creation date, the result has
    one row per bucket, in order; the region is what [get_bucket_location]
    says, 'us-east-1' when it says [None], and 'Unknown' for exactly the
    buckets whose lookup raised or answered without [LocationConstraint]. *)
Theorem list_s3_buckets_isolates_failures
    (w : Aws.cloud) (nds : list (str * Aws.datetime)) :
  s3_buckets w = Some (map full_bucket nds) ->
  Aws.value Aws.list_s3_buckets w = Return (map (shown_bucket w) nds).
Proof.
  unfold s3_buckets. intros H.
  unfold Aws.list_s3_buckets.
  rewrite aws_value_try_except, aws_value_bind, get_boto3_client_value.
  destruct (Aws.boto3_client w (client_for w "s3")); [|discriminate].
  rewrite aws_value_bind. cbn [Aws.value snd].
  destruct (Aws.list_buckets w (client_for w "s3")) as [resp|]; [|discriminate].
  rewrite aws_value_bind. cbn [Aws.value Aws.lift snd]. rewrite H.
  cbn [Aws.subscript].
  rewrite aws_value_bind.
  change (snd (Aws.for_buckets (client_for w "s3") (map full_bucket nds) [] w))
    with (Aws.value (Aws.for_buckets (client_for w "s3")
                                     (map full_bucket nds) []) w).
  rewrite for_buckets_value. cbn [app].
  rewrite aws_value_bind. reflexivity.
Qed.

Lemma list_s3_buckets_isolates_failures_witness :
  let location := fun name : str =>
    if str_eqb name (lit "logs")
    then Raise (Exc OtherException (lit "AccessDenied"))
    else Return {| Aws.LocationConstraint := Some None |} in
  let nds := [(lit "logs", 0%Z); (lit "assets", 0%Z)] in
  let w := mock_cloud [] (map full_bucket nds) location [] in
  Aws.value Aws.list_s3_buckets w =
  Return [[(lit "Bucket Name", lit "logs");
           (lit "Created On", lit "2023-01-01");
           (lit "Region", lit "Unknown")];
          [(lit "Bucket Name", lit "assets");
           (lit "Created On", lit "2023-01-01");
           (lit "Region", lit "us-east-1")]].
Proof.
  intros location nds w.
  exact (list_s3_buckets_isolates_failures w nds eq_refl).
Defined.

(** ** [get_ec2_instances_by_state] *)

Lemma str_eqb_false (a b : str) : str_eqb a b = false -> a <> b.
Proof. intros H E. apply str_eqb_eq in E. congruence. Qed.

Ltac str_cases a b :=
  let E := fresh "E" in
  destruct (str_eqb a b) eqn:E;
  [apply str_eqb_eq in E | apply str_eqb_false in E].

Lemma counts_get_set s k v d :
  Aws.counts_get s (Aws.counts_set k v d) =
  if str_eqb k s then Some v else Aws.counts_get s d.
Proof.
  induction d as [|[k' v'] d IH]; cbn [Aws.counts_set Aws.counts_get].
  - reflexivity.
  - str_cases k' k.
    + subst k'. cbn [Aws.counts_get]. now destruct (str_eqb k s).
    + cbn [Aws.counts_get]. rewrite IH.
      str_cases k' s; [|reflexivity].
      subst k'. now rewrite (str_eqb_neq (not_eq_sym E)).
Qed.

Lemma sum_counts_set k v d :
  sum_counts (Aws.counts_set k v d) =
  (sum_counts d
   - match Aws.counts_get k d with Some n => n | None => 0 end + v)%Z.
Proof.
  induction d as [|[k' v'] d IH];
    cbn [Aws.counts_set Aws.counts_get sum_counts fold_right snd].
  - lia.
  - destruct (str_eqb k' k); cbn [sum_counts fold_right snd].
    + lia.
    + fold (sum_counts (Aws.counts_set k v d)). fold (sum_counts d).
      rewrite IH. lia.
Qed.

Lemma counts_set_keys k v d :
  NoDup (map fst d) -> NoDup (map fst (Aws.counts_set k v d)).
Proof.
  assert (Hin : forall x d, In x (map fst (Aws.counts_set k v d)) ->
                            x = k \/ In x (map fst d)).
  { intros x d'. induction d' as [|[k' v'] d' IH];
      cbn [Aws.counts_set map fst In].
    - intros [<-|[]]. now left.
    - destruct (str_eqb k' k); cbn [map fst In]; [tauto|].
      intros [<-|H]; [tauto|]. apply IH in H. tauto. }
  induction d as [|[k' v'] d IH]; cbn [Aws.counts_set map fst]; intros H.
  - repeat constructor. easy.
  - inversion H as [|? ? Hn Hd]; subst.
    str_cases k' k; cbn [map fst].
    + now constructor.
    + constructor; [|now apply IH].
      intros Hk. apply Hin in Hk. destruct Hk as [->|Hk]; [easy | contradiction].
Qed.

Lemma count_states_get s rows : forall acc,
  Aws.counts_get s (Aws.count_states rows acc) =
  match Aws.counts_get s acc with
  | Some a => Some (a + Z.of_nat (state_count s rows))%Z
  | None => if Nat.eqb (state_count s rows) 0 then None
            else Some (Z.of_nat (state_count s rows))
  end.
Proof.
  unfold state_count.
  induction rows as [|i rows IH]; intros acc; cbn [Aws.count_states filter].
  - cbn [length Nat.eqb]. destruct (Aws.counts_get s acc); [f_equal; lia|].
    reflexivity.
  - fold (state_of i). rewrite IH, counts_get_set.
    destruct (str_eqb (state_of i) s) eqn:E.
    + apply str_eqb_eq in E. rewrite E. cbn [length Nat.eqb].
      destruct (Aws.counts_get s acc) as [a|]; f_equal; lia.
    + destruct (Aws.counts_get s acc); reflexivity.
Qed.

Lemma count_states_sum rows : forall acc,
  sum_counts (Aws.count_states rows acc) =
  (sum_counts acc + Z.of_nat (length rows))%Z.
Proof.
  induction rows as [|i rows IH]; intros acc; cbn [Aws.count_states length].
  - lia.
  - rewrite IH, sum_counts_set. lia.
Qed.

Lemma count_states_keys rows : forall acc,
  NoDup (map fst acc) -> NoDup (map fst (Aws.count_states rows acc)).
Proof.
  induction rows as [|i rows IH]; intros acc H; cbn [Aws.count_states];
    [exact H|].
  apply IH. now apply counts_set_keys.
Qed.

Lemma get_ec2_instances_by_state_value w rows :
  Aws.value Aws.list_ec2_instances w = Return rows ->
  Aws.value Aws.get_ec2_instances_by_state w =
  Return (if match rows with
             | [] => true
             | first :: _ => Aws.has_key "Error" first
             end
          then []
          else Aws.count_states rows []).
Proof.
  intros H. unfold Aws.get_ec2_instances_by_state.
  rewrite aws_value_try_except, aws_value_bind, H.
  destruct rows as [|first rest]; [reflexivity|].
  destruct (Aws.has_key "Error" first); reflexivity.
Qed.

(** X16: [get_ec2_instances_by_state] gives the empty dict when the
    listing is empty or is the error row.  Otherwise it gives, for each
    state that occurs, the number of rows in that state ('unknown' for a
    row without "State"), and only those states: the keys are distinct and
    the counts add up to the number of rows. *)
Theorem get_ec2_instances_by_state_counts (w : Aws.cloud) (rows : list Aws.row) :
  Aws.value Aws.list_ec2_instances w = Return rows ->
  exists d,
    Aws.value Aws.get_ec2_instances_by_state w = Return d /\
    (match rows with
     | [] => True
     | first :: _ => Aws.has_key "Error" first = true
     end -> d = []) /\
    ((exists first rest, rows = first :: rest /\
                         Aws.has_key "Error" first = false) ->
     (forall s, Aws.counts_get s d =
                if Nat.eqb (state_count s rows) 0 then None
                else Some (Z.of_nat (state_count s rows))) /\
     sum_counts d = Z.of_nat (length rows) /\
     NoDup (map fst d)).
Proof.
  intros H. rewrite (get_ec2_instances_by_state_value w rows H).
  eexists. split; [reflexivity|]. split.
  - destruct rows as [|first rest]; [reflexivity|]. now intros ->.
  - intros (first & rest & -> & ->). split; [|split].
    + intros s. now rewrite count_states_get.
    + now rewrite count_states_sum.
    + apply count_states_keys. constructor.
Qed.

Lemma get_ec2_instances_by_state_counts_witness :
  let w := mock_cloud
             [{| Aws.Instances := Some [plain_instance "i-1" "running";
                                        plain_instance "i-2" "stopped"] |};
              {| Aws.Instances := Some [plain_instance "i-3" "running"] |}]
             [] (fun _ => Return {| Aws.LocationConstraint := Some None |}) [] in
  exists d,
    Aws.value Aws.get_ec2_instances_by_state w = Return d /\
    Aws.counts_get (lit "running") d = Some 2%Z /\
    Aws.counts_get (lit "stopped") d = Some 1%Z /\
    Aws.counts_get (lit "pending") d = None /\
    sum_counts d = 3%Z.
Proof.
  intros w.
  destruct (get_ec2_instances_by_state_counts w _ eq_refl)
    as (d & Hd & _ & Hcounts).
  destruct Hcounts as (Hget & Hsum & _); [eexists _, _; split; reflexivity|].
  exists d. split; [exact Hd|].
  split; [exact (Hget (lit "running"))|].
  split; [exact (Hget (lit "stopped"))|].
  split; [exact (Hget (lit "pending")) | exact Hsum].
Defined.

(** ** [get_resource_summary] *)

Lemma aws_guarded_returns {A} (m : Aws.aws A) h w :
  (forall e, exists a, Aws.value (h e) w = Return a) ->
  exists a, Aws.value (Aws.try_except m h) w = Return a.
Proof.
  intros Hh. rewrite aws_value_try_except.
  destruct (Aws.value m w) as [a|e]; [now exists a | apply Hh].
Qed.

Lemma list_s3_buckets_returns w :
  exists rows, Aws.value Aws.list_s3_buckets w = Return rows.
Proof.
  apply aws_guarded_returns. intros e. eexists. reflexivity.
Qed.

Lemma filter_disjoint_length {A} (p q : A -> bool) (l : list A) :
  (forall x, p x = true -> q x = false) ->
  length (filter p l) + length (filter q l) <= length l.
Proof.
  intros H. induction l as [|x l IH]; [reflexivity|]. cbn [filter length].
  destruct (p x) eqn:Ep.
  - rewrite (H x Ep). cbn [length]. lia.
  - destruct (q x); cbn [length]; lia.
Qed.

Lemma filter_all_length {A} (p : A -> bool) (l : list A) :
  forallb p l = true -> length (filter p l) = length l.
Proof.
  induction l as [|x l IH]; [reflexivity|]. cbn [forallb filter].
  intros H. apply andb_true_iff in H. destruct H as [-> H].
  cbn [length]. now rewrite IH.
Qed.

Lemma running_not_stopped i :
  Aws.state_is "running" i = true -> Aws.state_is "stopped" i = false.
Proof.
  unfold Aws.state_is. destruct (Aws.row_get (lit "State") i) as [v|];
    [|discriminate].
  intros H. apply str_eqb_eq in H. subst v. reflexivity.
Qed.

(** X17: [get_resource_summary] never raises and never reports an error:
    it always returns the five entries.  The running and the stopped
    instances together are at most the total.  Whenever the EC2 listing
    failed, that is, whenever it is the error row, whatever made it fail,
    the three EC2 counts are 0, as for an account without instances; and
    whenever the S3 listing is the error row the bucket count is 0. *)
Theorem get_resource_summary_counts (w : Aws.cloud) :
  exists total running stopped buckets updated,
    Aws.value Aws.get_resource_summary w =
    Return (PDict [(lit "Total EC2 Instances", PInt (Z.of_nat total));
                   (lit "Running Instances", PInt (Z.of_nat running));
                   (lit "Stopped Instances", PInt (Z.of_nat stopped));
                   (lit "Total S3 Buckets", PInt (Z.of_nat buckets));
                   (lit "Last Updated", PStr updated)]) /\
    running + stopped <= total /\
    (forall msg,
       Aws.value Aws.list_ec2_instances w =
       Return [error_row "Failed to retrieve EC2 instances: " msg] ->
       total = 0 /\ running = 0 /\ stopped = 0) /\
    (forall msg,
       Aws.value Aws.list_s3_buckets w =
       Return [error_row "Failed to retrieve S3 buckets: " msg] ->
       buckets = 0).
Proof.
  destruct (list_ec2_instances_rows_or_error w) as (rows & Hrows & Hkind).
  destruct (list_s3_buckets_returns w) as (bs & Hbs).
  assert (Hval : Aws.value Aws.get_resource_summary w =
    Return (PDict
      [(lit "Total EC2 Instances",
        PInt (Z.of_nat (length (filter (fun i => negb (Aws.has_key "Error" i))
                                       rows))));
       (lit "Running Instances",
        PInt (Z.of_nat (length (filter (Aws.state_is "running") rows))));
       (lit "Stopped Instances",
        PInt (Z.of_nat (length (filter (Aws.state_is "stopped") rows))));
       (lit "Total S3 Buckets",
        PInt (Z.of_nat (length (filter (fun b => negb (Aws.has_key "Error" b))
                                       bs))));
       (lit "Last Updated",
        PStr (Aws.strftime w (Aws.datetime_now w) (lit "%Y-%m-%d %H:%M:%S")))])).
  { unfold Aws.get_resource_summary.
    rewrite aws_value_try_except, aws_value_bind, Hrows, aws_value_bind, Hbs.
    reflexivity. }
  rewrite Hval. do 5 eexists. split; [reflexivity|].
  split; [|split].
  - destruct Hkind as [(msg & ->) | (rs & insts & _ & _ & _ & Hno)].
    + cbn. lia.
    + rewrite (filter_all_length _ rows Hno).
      apply filter_disjoint_length. exact running_not_stopped.
  - intros msg H. rewrite Hrows in H. injection H as ->. repeat split.
  - intros msg H. rewrite Hbs in H. injection H as ->. reflexivity.
Qed.

(** The client can be made and the call returns, but one instance has no
    State: the listing is the error row and the summary counts 0. *)
Lemma get_resource_summary_counts_witness :
  let bad := {| Aws.InstanceId := Some (lit "i-2"); Aws.Tags := None;
                Aws.InstanceType := Some (lit "t2.micro");
                Aws.State := None;
                Aws.Placement := None;
                Aws.PrivateIpAddress := None; Aws.PublicIpAddress := None;
                Aws.LaunchTime := None |} in
  let w := mock_cloud
             [{| Aws.Instances := Some [plain_instance "i-1" "running"; bad] |}]
             [] (fun _ => Return {| Aws.LocationConstraint := Some None |}) [] in
  ec2_reservations w <> None /\
  exists d,
    Aws.value Aws.get_resource_summary w = Return d /\
    field "Total EC2 Instances" d = Some (PInt 0) /\
    field "Running Instances" d = Some (PInt 0) /\
    field "Error" d = None.
Proof.
  intros bad w. split; [discriminate|].
  destruct (get_resource_summary_counts w)
    as (total & running & stopped & buckets & updated & Hd & _ & Hfail & _).
  destruct (Hfail (lit "'State'") eq_refl) as (-> & -> & _).
  eexists. split; [exact Hd|]. repeat split.
Defined.

(** ** [list_available_log_groups] *)

Lemma for_log_groups_complete gs : forall acc,
  forallb complete_group gs = true ->
  Aws.for_log_groups gs acc = Return (acc ++ map shown_group gs).
Proof.
  induction gs as [|g gs IH]; intros acc; cbn [forallb Aws.for_log_groups map].
  - intros _. now rewrite app_nil_r.
  - intros H. apply andb_true_iff in H. destruct H as [Hg Hgs].
    unfold Aws.log_group_entry, shown_group. unfold complete_group in Hg.
    destruct (Aws.logGroupName g); [|discriminate].
    destruct (Aws.creationTime g); [|discriminate].
    cbn [Aws.subscript rbind]. rewrite (IH _ Hgs). now rewrite <- app_assoc.
Qed.

Lemma for_log_groups_incomplete gs : forall acc,
  forallb complete_group gs = false ->
  exists e, Aws.for_log_groups gs acc = Raise e.
Proof.
  induction gs as [|g gs IH]; intros acc; cbn [forallb Aws.for_log_groups];
    [discriminate|].
  intros H. unfold Aws.log_group_entry. unfold complete_group in H.
  destruct (Aws.logGroupName g); [|eexists; reflexivity].
  destruct (Aws.creationTime g); [|eexists; reflexivity].
  cbn [Aws.subscript rbind andb] in *. now apply IH.
Qed.

Lemma list_available_log_groups_value w :
  Aws.value Aws.list_available_log_groups w =
  Return
    match log_groups_of w with
    | Some gs =>
        match Aws.for_log_groups gs [] with
        | Return entries => entries
        | Raise _ => []
        end
    | None => []
    end.
Proof.
  unfold log_groups_of, Aws.list_available_log_groups.
  rewrite aws_value_try_except, aws_value_bind, get_boto3_client_value.
  destruct (Aws.boto3_client w (client_for w "logs")); [|reflexivity].
  rewrite aws_value_bind. cbn [Aws.value snd].
  destruct (Aws.describe_log_groups w (client_for w "logs") 50) as [resp|];
    [|reflexivity].
  rewrite aws_value_bind. cbn [Aws.value Aws.lift snd].
  destruct (Aws.logGroups resp) as [gs|]; [|reflexivity].
  cbn [Aws.subscript].
  destruct (Aws.for_log_groups gs []); reflexivity.
Qed.

(** X18: [list_available_log_groups] never raises.  When every log group
    of the answer has its name and creation time, there is one entry per
    group, in order, with 0 for a missing size.  In every other case (the
    client or the call failed, or one group lacks a member) the result is
    the empty list, the same as for an account without log groups. *)
Theorem list_available_log_groups_all_or_nothing (w : Aws.cloud) :
  exists entries,
    Aws.value Aws.list_available_log_groups w = Return entries /\
    (forall gs, log_groups_of w = Some gs ->
                forallb complete_group gs = true ->
                entries = map shown_group gs) /\
    (forall gs, log_groups_of w = Some gs ->
                forallb complete_group gs = false ->
                entries = []) /\
    (log_groups_of w = None -> entries = []).
Proof.
  rewrite list_available_log_groups_value. eexists. split; [reflexivity|].
  split; [|split].
  - intros gs -> Hgs. now rewrite (for_log_groups_complete gs [] Hgs).
  - intros gs -> Hgs.
    destruct (for_log_groups_incomplete gs [] Hgs) as (e & ->). reflexivity.
  - now intros ->.
Qed.

Lemma list_available_log_groups_all_or_nothing_witness :
  let good := {| Aws.logGroupName := Some (lit "/aws/lambda/demo");
                 Aws.creationTime := Some 1672574400000%Z;
                 Aws.storedBytes := None |} in
  let nameless := {| Aws.logGroupName := None;
                     Aws.creationTime := Some 1672574400000%Z;
                     Aws.storedBytes := Some 10%Z |} in
  Aws.value Aws.list_available_log_groups
            (mock_cloud [] [] (fun _ => Raise (Exc OtherException [])) [good])
  = Return [PDict [(lit "name", PStr (lit "/aws/lambda/demo"));
                   (lit "creation_time", PInt 1672574400000);
                   (lit "size_bytes", PInt 0)]] /\
  Aws.value Aws.list_available_log_groups
            (mock_cloud [] [] (fun _ => Raise (Exc OtherException []))
                        [good; nameless])
  = Return [].
Proof.
  intros good nameless. split.
  - destruct (list_available_log_groups_all_or_nothing
                (mock_cloud [] [] (fun _ => Raise (Exc OtherException [])) [good]))
      as (entries & -> & Hok & _).
    f_equal. exact (Hok [good] eq_refl eq_refl).
  - destruct (list_available_log_groups_all_or_nothing
                (mock_cloud [] [] (fun _ => Raise (Exc OtherException []))
                            [good; nameless]))
      as (entries & -> & _ & Hbad & _).
    f_equal. exact (Hbad [good; nameless] eq_refl eq_refl).
Defined.

(** A bucket without its name or without its creation date makes the
    bucket's own handler raise again. *)
Lemma bucket_row_raises w s3 b :
  Aws.bucket_Name b = None \/ Aws.CreationDate b = None ->
  exists e, Aws.value (Aws.bucket_row s3 b) w = Raise e.
Proof.
  intros H.
  cbv [Aws.value Aws.bucket_row Aws.try_except Aws.bind Aws.lift Aws.log
       Aws.subscript fst snd].
  destruct (Aws.bucket_Name b) as [n|]; [|eexists; reflexivity].
  destruct H as [H|H]; [discriminate|]. rewrite H.
  destruct (Aws.get_bucket_location w s3 n) as [loc|e]; [|eexists; reflexivity].
  destruct (Aws.LocationConstraint loc) as [[r|]|]; eexists; reflexivity.
Qed.

Lemma for_buckets_raises w s3 bs : forall acc b,
  In b bs ->
  Aws.bucket_Name b = None \/ Aws.CreationDate b = None ->
  exists e, Aws.value (Aws.for_buckets s3 bs acc) w = Raise e.
Proof.
  induction bs as [|b0 bs IH]; intros acc b Hin Hb; [easy|].
  cbn [Aws.for_buckets]. rewrite aws_value_bind.
  destruct (Aws.value (Aws.bucket_row s3 b0) w) as [r|e] eqn:E;
    [|now exists e].
  destruct Hin as [->|Hin].
  - destruct (bucket_row_raises w s3 b Hb) as (e & He). congruence.
  - exact (IH _ b Hin Hb).
Qed.

(** X19: the handler of one bucket reads the bucket's name and creation
    date itself, so a bucket that lacks one of them is not isolated: the
    whole listing becomes the single error row. *)
Theorem list_s3_buckets_needs_name_and_date
    (w : Aws.cloud) (bs : list Aws.bucket) (b : Aws.bucket) :
  s3_buckets w = Some bs ->
  In b bs ->
  Aws.bucket_Name b = None \/ Aws.CreationDate b = None ->
  exists msg,
    Aws.value Aws.list_s3_buckets w =
    Return [error_row "Failed to retrieve S3 buckets: " msg].
Proof.
  unfold s3_buckets. intros H Hin Hb.
  unfold Aws.list_s3_buckets.
  rewrite aws_value_try_except, aws_value_bind, get_boto3_client_value.
  destruct (Aws.boto3_client w (client_for w "s3")); [|discriminate].
  rewrite aws_value_bind. cbn [Aws.value snd].
  destruct (Aws.list_buckets w (client_for w "s3")) as [resp|]; [|discriminate].
  rewrite aws_value_bind. cbn [Aws.value Aws.lift snd]. rewrite H.
  cbn [Aws.subscript].
  rewrite aws_value_bind.
  destruct (for_buckets_raises w (client_for w "s3") bs [] b Hin Hb) as (e & He).
  unfold Aws.value in *. rewrite He. now eexists.
Qed.

Lemma list_s3_buckets_needs_name_and_date_witness :
  let dated := full_bucket (lit "assets", 0%Z) in
  let undated := {| Aws.bucket_Name := Some (lit "logs");
                    Aws.CreationDate := None |} in
  let w := mock_cloud [] [dated; undated]
             (fun _ => Return {| Aws.LocationConstraint := Some None |}) [] in
  exists msg,
    Aws.value Aws.list_s3_buckets w =
    Return [error_row "Failed to retrieve S3 buckets: " msg].
Proof.
  intros dated undated w.
  exact (list_s3_buckets_needs_name_and_date w [dated; undated] undated
           eq_refl (or_intror (or_introl eq_refl)) (or_intror eq_refl)).
Defined.

(** ** The service calls of [list_s3_buckets] *)

Lemma aws_events_bind {A B} (m : Aws.aws A) (f : A -> Aws.aws B) w :
  Aws.events (Aws.bind m f) w =
  Aws.events m w ++
  match Aws.value m w with
  | Return a => Aws.events (f a) w
  | Raise _ => []
  end.
Proof.
  unfold Aws.events, Aws.value, Aws.bind.
  destruct (m w) as [t [a|e]]; cbn [fst snd]; [|now rewrite app_nil_r].
  destruct (f a w); reflexivity.
Qed.

Lemma aws_events_try_except {A} (m : Aws.aws A) h w :
  Aws.events (Aws.try_except m h) w =
  Aws.events m w ++
  match Aws.value m w with
  | Return _ => []
  | Raise e => Aws.events (h e) w
  end.
Proof.
  unfold Aws.events, Aws.value, Aws.try_except.
  destruct (m w) as [t [a|e]]; cbn [fst snd]; [now rewrite app_nil_r|].
  destruct (h e w); reflexivity.
Qed.

Lemma bucket_row_api_calls w nd :
  api_calls (Aws.bucket_row (client_for w "s3") (full_bucket nd)) w =
  [Aws.ApiCall (client_for w "s3") (lit "get_bucket_location") (Some (fst nd))].
Proof.
  destruct nd as [n d].
  cbv [api_calls Aws.events Aws.bucket_row Aws.try_except Aws.bind Aws.lift
       Aws.log full_bucket Aws.bucket_Name Aws.CreationDate Aws.subscript
       fst snd].
  destruct (Aws.get_bucket_location w (client_for w "s3") n) as [loc|e];
    [|reflexivity].
  destruct (Aws.LocationConstraint loc) as [[r|]|]; reflexivity.
Qed.

Lemma for_buckets_api_calls w nds : forall acc,
  api_calls (Aws.for_buckets (client_for w "s3") (map full_bucket nds) acc) w =
  map (fun nd => Aws.ApiCall (client_for w "s3") (lit "get_bucket_location")
                             (Some (fst nd))) nds.
Proof.
  induction nds as [|nd nds IH]; intros acc; [reflexivity|].
  cbn [map Aws.for_buckets]. unfold api_calls in *.
  rewrite aws_events_bind, filter_app, bucket_row_value.
  fold (api_calls (Aws.bucket_row (client_for w "s3") (full_bucket nd)) w).
  rewrite bucket_row_api_calls, IH. reflexivity.
Qed.

(** X20: for buckets that have their name and date, [list_s3_buckets]
    calls [list_buckets] once and then [get_bucket_location] once for each
    bucket, in order, whether or not an earlier lookup failed; all with
    the client made from the environment. *)
Theorem list_s3_buckets_calls (w : Aws.cloud) (nds : list (str * Aws.datetime)) :
  s3_buckets w = Some (map full_bucket nds) ->
  api_calls Aws.list_s3_buckets w =
  Aws.ApiCall (client_for w "s3") (lit "list_buckets") None ::
  map (fun nd => Aws.ApiCall (client_for w "s3") (lit "get_bucket_location")
                             (Some (fst nd))) nds.
Proof.
  unfold s3_buckets. intros H.
  pose proof (for_buckets_value w nds []) as Hv.
  pose proof (for_buckets_api_calls w nds []) as Hc.
  unfold api_calls, Aws.value, Aws.events in Hv, Hc.
  unfold api_calls. aws_eval.
  change {| Aws.service := lit "s3";
            Aws.aws_access_key_id := Aws.environ w (lit "AWS_ACCESS_KEY_ID");
            Aws.aws_secret_access_key := Aws.environ w (lit "AWS_SECRET_ACCESS_KEY");
            Aws.region_name :=
              match Aws.environ w (lit "AWS_REGION") with
              | Some r => r
              | None => lit "ap-southeast-1"
              end |} with (client_for w "s3").
  destruct (Aws.boto3_client w (client_for w "s3")); [|discriminate].
  destruct (Aws.list_buckets w (client_for w "s3")) as [resp|]; [|discriminate].
  rewrite H. cbn [Aws.subscript].
  destruct (Aws.for_buckets (client_for w "s3") (map full_bucket nds) [] w)
    as [t r].
  cbn [fst snd] in Hv, Hc. subst r.
  cbn [fst app filter is_api_call]. f_equal.
  rewrite !filter_app, Hc. cbn [filter is_api_call]. now rewrite app_nil_r.
Qed.

Lemma list_s3_buckets_calls_witness :
  let location := fun name : str =>
    if str_eqb name (lit "logs")
    then Raise (Exc OtherException (lit "AccessDenied"))
    else Return {| Aws.LocationConstraint := Some None |} in
  let nds := [(lit "logs", 0%Z); (lit "assets", 0%Z)] in
  let w := mock_cloud [] (map full_bucket nds) location [] in
  api_calls Aws.list_s3_buckets w =
  [Aws.ApiCall (client_for w "s3") (lit "list_buckets") None;
   Aws.ApiCall (client_for w "s3") (lit "get_bucket_location") (Some (lit "logs"));
   Aws.ApiCall (client_for w "s3") (lit "get_bucket_location")
               (Some (lit "assets"))].
Proof.
  intros location nds w. exact (list_s3_buckets_calls w nds eq_refl).
Defined.

(** * The version text of the availability check *)

Lemma lstrip_split s :
  exists pre, s = pre ++ lstrip s /\ forallb isspace pre = true.
Proof.
  induction s as [|c s (pre & Hs & Hpre)]; [now exists []|].
  cbn [lstrip]. destruct (isspace c) eqn:Ec.
  - exists (c :: pre). cbn [app forallb]. rewrite Ec, Hpre. split; [|reflexivity].
    now f_equal.
  - now exists [].
Qed.

Lemma lstrip_head s :
  match lstrip s with
  | [] => True
  | c :: _ => isspace c = false
  end.
Proof.
  induction s as [|c s IH]; [exact I|]. cbn [lstrip].
  destruct (isspace c) eqn:Ec; [exact IH | exact Ec].
Qed.

Lemma forallb_rev {A} (p : A -> bool) l :
  forallb p l = true -> forallb p (rev l) = true.
Proof.
  rewrite !forallb_forall. intros H x Hx. apply H. now apply in_rev.
Qed.

Lemma rstrip_split s :
  exists post, s = rstrip s ++ post /\ forallb isspace post = true.
Proof.
  unfold rstrip. destruct (lstrip_split (rev s)) as (pre & Hs & Hpre).
  exists (rev pre). split; [|now apply forallb_rev].
  rewrite <- rev_app_distr, <- Hs. now rewrite rev_involutive.
Qed.

Lemma rstrip_last s d :
  match rstrip s with
  | [] => True
  | _ :: _ => isspace (last (rstrip s) d) = false
  end.
Proof.
  unfold rstrip. pose proof (lstrip_head (rev s)) as H.
  destruct (lstrip (rev s)) as [|x xs]; [exact I|].
  cbn [rev]. rewrite last_last.
  destruct (rev xs ++ [x]) eqn:E; [exact I | exact H].
Qed.

Lemma strip_trimmed s : trimmed (strip s).
Proof.
  unfold strip, trimmed.
  pose proof (lstrip_head s) as Hh.
  destruct (rstrip_split (lstrip s)) as (post & Hs & Hpost).
  pose proof (rstrip_last (lstrip s)) as Hl.
  destruct (rstrip (lstrip s)) as [|c r] eqn:Er; [exact I|].
  split; [|apply Hl].
  rewrite Hs in Hh. exact Hh.
Qed.

Lemma strip_split s :
  exists pre post,
    s = pre ++ strip s ++ post /\
    forallb isspace pre = true /\ forallb isspace post = true.
Proof.
  destruct (lstrip_split s) as (pre & Hs & Hpre).
  destruct (rstrip_split (lstrip s)) as (post & Hr & Hpost).
  exists pre, post. unfold strip. rewrite <- Hr. auto.
Qed.

(** X21: after a version check that exits 0, the version entry is the
    stdout of the tool without the white space around it: stdout is white
    space, then the version text, then white space, and the version text
    neither starts nor ends with white space. *)
Theorem version_is_trimmed_stdout (w : world) (p : CompletedProcess) :
  subprocess_run w (terraform_cmd ["version"]%string) (lit "terraform") 10
  = Return p ->
  returncode p = 0%Z ->
  exists d v pre post,
    outcome get_terraform_status w = Return d /\
    field "version" d = Some (PStr v) /\
    stdout p = pre ++ v ++ post /\
    forallb isspace pre = true /\
    forallb isspace post = true /\
    trimmed v.
Proof.
  intros Hrun Hrc.
  rewrite (get_terraform_status_completed _ Hrun), Hrc.
  change (0 =? 0)%Z with true. cbv iota.
  destruct (strip_split (stdout p)) as (pre & post & Hs & Hpre & Hpost).
  eexists _, (strip (stdout p)), pre, post.
  split; [reflexivity|]. split; [reflexivity|].
  split; [exact Hs|]. split; [exact Hpre|]. split; [exact Hpost|].
  apply strip_trimmed.
Qed.

Lemma version_is_trimmed_stdout_witness :
  let p := {| returncode := 0;
              stdout := 10%N :: lit "Terraform v1.5.7" ++ [13%N; 10%N];
              stderr := [] |} in
  let w := mock_world (Return p) true (Return PNone) in
  exists d v pre post,
    outcome get_terraform_status w = Return d /\
    field "version" d = Some (PStr v) /\
    stdout p = pre ++ v ++ post /\
    forallb isspace pre = true /\
    forallb isspace post = true /\
    trimmed v.
Proof.
  intros p w. exact (version_is_trimmed_stdout w p eq_refl eq_refl).
Defined.
